(** * django-vite: manifest resolution and tag composition

    A shallow embedding of [django_vite/core/asset_loader.py].

    Python values are read at the types the source annotates them with.
    Exceptions are values of [exn] carried by [result]; the recursive CSS walk
    takes a fuel argument, and running out of fuel stands for the unbounded
    recursion of the Python function.  The host framework, the HTTP and JSON
    libraries and the tag generator module are collaborators of the file:
    the pure ones are fields of the class [Host], the ones that depend on the
    machine's state (network, file system) are fields of [World]. *)

From Stdlib Require Import ZArith.
From stdpp Require Import gmap strings list fin_maps pretty.

Open Scope string_scope.
Open Scope list_scope.

(** ** Python strings *)

(** [motif in path] on two [str]. *)
Fixpoint str_contains (motif s : string) : bool :=
  String.prefix motif s ||
  match s with
  | EmptyString => false
  | String _ s' => str_contains motif s'
  end.

(** [s.endswith(suffix)]. *)
Fixpoint endswith (s suffix : string) : bool :=
  String.eqb s suffix ||
  match s with
  | EmptyString => false
  | String _ s' => endswith s' suffix
  end.

(** [s.startswith(prefix)]. *)
Definition startswith (s prefix : string) : bool := String.prefix prefix s.

(** [sep.join(l)]. *)
Definition join (sep : string) (l : list string) : string := String.concat sep l.

(** The line feed and the double quote, as strings of one character. *)
Definition newline : string := String (Ascii.ascii_of_nat 10) EmptyString.
Definition dquote : string := String (Ascii.ascii_of_nat 34) EmptyString.

(** ** Python dictionaries whose order shows: keyword arguments, attributes *)

(** [d[k] = v] on an insertion-ordered dict: an existing key keeps its place. *)
Fixpoint dict_set {V} (k : string) (v : V) (d : list (string * V)) : list (string * V) :=
  match d with
  | [] => [(k, v)]
  | (k', v') :: d' => if String.eqb k' k then (k, v) :: d' else (k', v') :: dict_set k v d'
  end.

(** [d[k]], when [k in d]. *)
Fixpoint dict_get {V} (k : string) (d : list (string * V)) : option V :=
  match d with
  | [] => None
  | (k', v') :: d' => if String.eqb k' k then Some v' else dict_get k d'
  end.

Definition attrs := list (string * string).

(** The dict display that unpacks [d], then [kwargs]: later keys override. *)
Definition dict_update (d kwargs : attrs) : attrs :=
  foldl (fun acc kv => dict_set kv.1 kv.2 acc) d kwargs.

(** ** Exceptions *)

Inductive exn :=
  | DjangoViteManifestError (msg : string)
  | DjangoViteAssetNotFoundError (msg : string)
  | DjangoViteConfigNotFoundError (msg : string)
  | PyException (cls msg : string).

(** [str(error)]. *)
Definition exn_str (e : exn) : string :=
  match e with
  | DjangoViteManifestError m => m
  | DjangoViteAssetNotFoundError m => m
  | DjangoViteConfigNotFoundError m => m
  | PyException _ m => m
  end.

Inductive result (A : Type) :=
  | Ok (a : A)
  | Raise (e : exn).
Arguments Ok {A} a.
Arguments Raise {A} e.

#[global] Instance result_ret : MRet result := fun _ a => Ok a.

#[global] Instance result_bind : MBind result := fun _ _ k r =>
  match r with
  | Ok a => k a
  | Raise e => Raise e
  end.

Definition is_manifest_error (e : exn) : bool :=
  match e with DjangoViteManifestError _ => true | _ => false end.

Definition is_asset_not_found (e : exn) : bool :=
  match e with DjangoViteAssetNotFoundError _ => true | _ => false end.

Definition raises {A} (r : result A) (p : exn -> bool) : Prop :=
  match r with
  | Ok _ => False
  | Raise e => p e = true
  end.

(** ** Configuration *)

Definition DEFAULT_APP_NAME : string := "default".

Definition Tag := string.

(** [Union[Path, str]]. *)
Inductive path_or_str :=
  | APath (p : string)
  | AStr (s : string).

Module DjangoViteConfig.

(** [class DjangoViteConfig(NamedTuple)]. *)
Record t := {
  dev_mode : bool;
  dev_server_protocol : string;
  dev_server_host : string;
  dev_server_port : Z;
  static_url_prefix : string;
  manifest_path : option path_or_str;
  legacy_polyfills_motif : string;
  ws_client_url : string;
  react_refresh_url : string
}.

(** The defaults of the NamedTuple's fields: [DjangoViteConfig()]. *)
Definition default : t := {|
  dev_mode := false;
  dev_server_protocol := "http";
  dev_server_host := "localhost";
  dev_server_port := 5173;
  static_url_prefix := "";
  manifest_path := None;
  legacy_polyfills_motif := "legacy-polyfills";
  ws_client_url := "@vite/client";
  react_refresh_url := "@react-refresh"
|}.

End DjangoViteConfig.

(** ** Collaborators *)

(** What [session.get(url)] does in the probe: it returns a response, or it
    raises one of the two exceptions the probe handles. *)
Inductive get_outcome :=
  | Response (status_code : Z)
  | MaxRetryError
  | ConnectionError.

(** The state of the machine at the time of one call. *)
Record World := {
  (** [session.get], with [max_retries=0] mounted on the url *)
  session_get : string -> get_outcome;
  (** [open(path, "r")]: [None] when it raises, else what [read()] gives *)
  fs_open : string -> option (result string);
  (** [requests.get(url)]: the status code and the text of the response *)
  requests_get : string -> result (Z * string)
}.

(** ** Manifest entries *)

(** One item of the JSON object of a manifest row, as [json.loads] gives it.
    The items whose key is a field of [ManifestEntry] carry a value of the type
    the NamedTuple annotates the field with ([Optional] there marks a field
    that has a default); [I_other] is an item with any other key, its value
    kept as text. *)
Inductive item :=
  | I_file (v : string)
  | I_src (v : string)
  | I_isEntry (v : bool)
  | I_isDynamicEntry (v : bool)
  | I_css (v : list string)
  | I_imports (v : list string)
  | I_dynamicImports (v : list string)
  | I_other (key : string) (value : string).

Definition item_key (i : item) : string :=
  match i with
  | I_file _ => "file"
  | I_src _ => "src"
  | I_isEntry _ => "isEntry"
  | I_isDynamicEntry _ => "isDynamicEntry"
  | I_css _ => "css"
  | I_imports _ => "imports"
  | I_dynamicImports _ => "dynamicImports"
  | I_other k _ => k
  end.

(** The document after [json.loads]: a dict of dicts, in document order. *)
Definition manifest_json := list (string * list item).

Module ManifestEntry.

(** [class ManifestEntry(NamedTuple)]. *)
Record t := {
  file : string;
  src : option string;
  isEntry : bool;
  isDynamicEntry : bool;
  css : list string;
  imports : list string;
  dynamicImports : list string
}.

Definition _fields : list string :=
  ["file"; "src"; "isEntry"; "isDynamicEntry"; "css"; "imports"; "dynamicImports"].

(** Binding of the keyword arguments: [f] is the value bound to [file] so
    far, [e] holds the other fields, which start at their defaults. *)
Fixpoint bind_kwargs (kwargs : list item) (f : option string) (e : t) : result t :=
  match kwargs with
  | [] =>
      match f with
      | Some v =>
          Ok {| file := v; src := src e; isEntry := isEntry e;
                isDynamicEntry := isDynamicEntry e; css := css e;
                imports := imports e; dynamicImports := dynamicImports e |}
      | None =>
          Raise (PyException "TypeError"
                   "ManifestEntry.__new__() missing 1 required positional argument: 'file'")
      end
  | I_file v :: kw => bind_kwargs kw (Some v) e
  | I_src v :: kw =>
      bind_kwargs kw f
        {| file := file e; src := Some v; isEntry := isEntry e;
           isDynamicEntry := isDynamicEntry e; css := css e;
           imports := imports e; dynamicImports := dynamicImports e |}
  | I_isEntry v :: kw =>
      bind_kwargs kw f
        {| file := file e; src := src e; isEntry := v;
           isDynamicEntry := isDynamicEntry e; css := css e;
           imports := imports e; dynamicImports := dynamicImports e |}
  | I_isDynamicEntry v :: kw =>
      bind_kwargs kw f
        {| file := file e; src := src e; isEntry := isEntry e;
           isDynamicEntry := v; css := css e;
           imports := imports e; dynamicImports := dynamicImports e |}
  | I_css v :: kw =>
      bind_kwargs kw f
        {| file := file e; src := src e; isEntry := isEntry e;
           isDynamicEntry := isDynamicEntry e; css := v;
           imports := imports e; dynamicImports := dynamicImports e |}
  | I_imports v :: kw =>
      bind_kwargs kw f
        {| file := file e; src := src e; isEntry := isEntry e;
           isDynamicEntry := isDynamicEntry e; css := css e;
           imports := v; dynamicImports := dynamicImports e |}
  | I_dynamicImports v :: kw =>
      bind_kwargs kw f
        {| file := file e; src := src e; isEntry := isEntry e;
           isDynamicEntry := isDynamicEntry e; css := css e;
           imports := imports e; dynamicImports := v |}
  | I_other k _ :: _ =>
      Raise (PyException "TypeError"
               ("ManifestEntry.__new__() got an unexpected keyword argument '" +:+ k +:+ "'"))
  end.

Definition defaults : t := {|
  file := ""; src := None; isEntry := false; isDynamicEntry := false;
  css := []; imports := []; dynamicImports := []
|}.

(** The call of [ManifestEntry] on the keyword arguments [kwargs]. *)
Definition new (kwargs : list item) : result t := bind_kwargs kwargs None defaults.

End ManifestEntry.

(** The pure collaborators: [urllib.parse], [json], [pathlib], the host
    framework's settings and static files storage, and the module
    [django_vite.core.tag_generator]. *)
Class Host := {
  urljoin : string -> string -> string;
  (** [json.loads] on the text of a manifest, read at the type of a manifest *)
  json_loads : string -> result manifest_json;
  (** [str(Path(s))] *)
  Path : string -> string;
  (** [str(Path(a) / b)] *)
  Path_div : string -> string -> string;
  STATIC_ROOT : string;
  STATIC_URL : string;
  (** [apps.is_installed("django.contrib.staticfiles")] *)
  staticfiles_installed : bool;
  staticfiles_storage_url : string -> string;
  TagGenerator_script : string -> attrs -> Tag;
  TagGenerator_stylesheet : string -> Tag;
  TagGenerator_stylesheet_preload : string -> Tag;
  TagGenerator_preload : string -> attrs -> Tag;
  attrs_to_str : attrs -> string
}.

(** ** The dev-server probe *)

(** [vite_is_serving] with the requests it issues: the second component lists
    the urls given to [session.get], in order.  [print_debug] only writes to
    the standard output and is left out. *)
Definition vite_is_serving_io (w : World) (config : DjangoViteConfig.t)
  : bool * list string :=
  if DjangoViteConfig.dev_mode config then
    let vite_webserver_url :=
      "http://" +:+ DjangoViteConfig.dev_server_host config +:+ ":" +:+
      pretty (DjangoViteConfig.dev_server_port config) +:+ "/" in
    (match session_get w vite_webserver_url with
     | Response status_code => Z.eqb status_code 404
     | MaxRetryError => false
     | ConnectionError => false
     end, [vite_webserver_url])
  else (false, []).

Definition vite_is_serving (w : World) (config : DjangoViteConfig.t) : bool :=
  (vite_is_serving_io w config).1.

(** [open_manifest]: a file object is what its [read()] gives. *)
Definition raise_for_status (status_code : Z) : result unit :=
  if (400 <=? status_code)%Z && (status_code <? 600)%Z
  then Raise (PyException "HTTPError" (pretty status_code +:+ " Error"))
  else Ok ().

Definition open_manifest (w : World) (path_to_manifest : string) : result (result string) :=
  match fs_open w path_to_manifest with
  | Some manifest_file => Ok manifest_file
  | None =>
      response ← requests_get w path_to_manifest;
      _ ← raise_for_status response.1;
      Ok (Ok response.2)
  end.

(** ** The manifest resolver *)

(** [django.core.checks.Warning]. *)
Record CheckMessage := {
  msg : exn;
  id : string;
  hint : string
}.

Module ManifestClient.

Record t := {
  _config : DjangoViteConfig.t;
  app_name : string;
  dev_mode : bool;
  manifest_path : string;
  legacy_polyfills_motif : string;
  _entries : gmap string ManifestEntry.t;
  legacy_polyfills_entry : option ManifestEntry.t
}.

(** [ParsedManifestOutput]. *)
Definition ParsedManifestOutput : Type :=
  gmap string ManifestEntry.t * option ManifestEntry.t.

(** The dict comprehension that keeps the items of a row whose key is a
    field of [ManifestEntry]. *)
Definition filtered_manifest_entry_data (manifest_entry_data : list item) : list item :=
  filter (fun i => item_key i ∈ ManifestEntry._fields) manifest_entry_data.

(** The loop over [manifest_json.items()], from the table and the legacy
    polyfills entry built so far. *)
Fixpoint parse_items (motif : string) (items : manifest_json)
    (entries : gmap string ManifestEntry.t)
    (legacy_polyfills_entry : option ManifestEntry.t) : result ParsedManifestOutput :=
  match items with
  | [] => Ok (entries, legacy_polyfills_entry)
  | (path, manifest_entry_data) :: rest =>
      manifest_entry ← ManifestEntry.new (filtered_manifest_entry_data manifest_entry_data);
      parse_items motif rest (<[path := manifest_entry]> entries)
        (if str_contains motif path then Some manifest_entry else legacy_polyfills_entry)
  end.

Section with_host.
Context `{Host}.

Definition _clean_manifest_path (config : DjangoViteConfig.t) : string :=
  match DjangoViteConfig.manifest_path config with
  | None =>
      Path_div (Path_div STATIC_ROOT (DjangoViteConfig.static_url_prefix config))
        "manifest.json"
  | Some (AStr "") =>
      Path_div (Path_div STATIC_ROOT (DjangoViteConfig.static_url_prefix config))
        "manifest.json"
  | Some (AStr initial_manifest_path) =>
      if negb (startswith initial_manifest_path "http")
      then Path initial_manifest_path
      else initial_manifest_path
  | Some (APath initial_manifest_path) => initial_manifest_path
  end.

Definition _parse_manifest (self : t) (w : World) : result ParsedManifestOutput :=
  if dev_mode self then Ok (∅, None)
  else
    match
      manifest_file ← open_manifest w (manifest_path self);
      manifest_content ← manifest_file;
      manifest_json ← json_loads manifest_content;
      parse_items (legacy_polyfills_motif self) manifest_json ∅ None
    with
    | Ok out => Ok out
    | Raise error =>
        Raise (DjangoViteManifestError
                 ("Cannot read Vite manifest file for app " +:+ app_name self +:+ " at " +:+
                  manifest_path self +:+ " : " +:+ exn_str error))
    end.

(** The constructor: [except DjangoViteManifestError: pass] keeps the
    empty table, any other exception leaves the constructor. *)
Definition __init__ (w : World) (config : DjangoViteConfig.t) (app_name : string)
  : result t :=
  let dev_mode :=
    if DjangoViteConfig.dev_mode config && vite_is_serving w config
    then DjangoViteConfig.dev_mode config else false in
  let self := {|
    _config := config;
    app_name := app_name;
    dev_mode := dev_mode;
    manifest_path := _clean_manifest_path config;
    legacy_polyfills_motif := DjangoViteConfig.legacy_polyfills_motif config;
    _entries := ∅;
    legacy_polyfills_entry := None
  |} in
  if negb dev_mode then
    match _parse_manifest self w with
    | Ok (entries, legacy) =>
        Ok {| _config := config;
              app_name := app_name;
              dev_mode := dev_mode;
              manifest_path := manifest_path self;
              legacy_polyfills_motif := legacy_polyfills_motif self;
              _entries := entries;
              legacy_polyfills_entry := legacy |}
    | Raise (DjangoViteManifestError _) => Ok self
    | Raise e => Raise e
    end
  else Ok self.

Definition check (self : t) (w : World) : result (list CheckMessage) :=
  match (if negb (dev_mode self) then _ ← _parse_manifest self w; Ok () else Ok ()) with
  | Ok _ => Ok []
  | Raise (DjangoViteManifestError m) =>
      Ok [ {| msg := DjangoViteManifestError m;
              id := "django_vite.W001";
              hint := "Make sure you have generated a manifest file, " +:+
                      "and that DJANGO_VITE[" +:+ dquote +:+ app_name self +:+ dquote +:+
                      "][" +:+ dquote +:+ "manifest_path" +:+ dquote +:+ "] " +:+
                      "points to the correct location." |} ]
  | Raise e => Raise e
  end.

End with_host.

Definition get (self : t) (path : string) : result ManifestEntry.t :=
  match _entries self !! path with
  | None =>
      Raise (DjangoViteAssetNotFoundError
               ("Cannot find " +:+ path +:+ " for app=" +:+ app_name self +:+
                " in Vite manifest at " +:+ manifest_path self))
  | Some manifest_entry => Ok manifest_entry
  end.

End ManifestClient.

(** ** The app client *)

Module DjangoViteAppClient.

Record t := {
  _config : DjangoViteConfig.t;
  app_name : string;
  dev_server_protocol : string;
  dev_server_host : string;
  dev_server_port : Z;
  static_url_prefix : string;
  ws_client_url : string;
  react_refresh_url : string;
  manifest : ManifestClient.t
}.

(** [GeneratedCssFilesOutput]. *)
Definition GeneratedCssFilesOutput : Type := list Tag * list string.

Section with_host.
Context `{Host}.

Definition __init__ (w : World) (config : DjangoViteConfig.t) (app_name : string)
  : result t :=
  manifest ← ManifestClient.__init__ w config app_name;
  Ok {| _config := config;
        app_name := app_name;
        dev_server_protocol := DjangoViteConfig.dev_server_protocol config;
        dev_server_host := DjangoViteConfig.dev_server_host config;
        dev_server_port := DjangoViteConfig.dev_server_port config;
        static_url_prefix := DjangoViteConfig.static_url_prefix config;
        ws_client_url := DjangoViteConfig.ws_client_url config;
        react_refresh_url := DjangoViteConfig.react_refresh_url config;
        manifest := manifest |}.

Definition _get_dev_server_url (self : t) (path : string) : string :=
  let static_url_base := urljoin STATIC_URL (static_url_prefix self) in
  let static_url_base :=
    if negb (endswith static_url_base "/") then static_url_base +:+ "/"
    else static_url_base in
  let static_url_base := urljoin "" (static_url_prefix self) in
  let static_url_base :=
    if negb (endswith static_url_base "/") then static_url_base +:+ "/"
    else static_url_base in
  urljoin
    (dev_server_protocol self +:+ "://" +:+ dev_server_host self +:+ ":" +:+
     pretty (dev_server_port self))
    (urljoin static_url_base path).

Definition _get_production_server_url (self : t) (path : string) : string :=
  let production_server_url :=
    match static_url_prefix self with
    | "" => path
    | prefix =>
        let prefix := if negb (endswith prefix "/") then prefix +:+ "/" else prefix in
        urljoin prefix path
    end in
  if staticfiles_installed then staticfiles_storage_url production_server_url
  else production_server_url.

(** The second loop of [_generate_css_files_of_asset], over the entry's own
    [css]: [tags] and [already_processed] are the two lists it appends to. *)
Fixpoint css_loop (self : t) (tag_generator : string -> Tag) (css : list string)
    (tags : list Tag) (already_processed : list string) : GeneratedCssFilesOutput :=
  match css with
  | [] => (tags, already_processed)
  | css_path :: rest =>
      if bool_decide (css_path ∉ already_processed) then
        let url := _get_production_server_url self css_path in
        css_loop self tag_generator rest (tags ++ [tag_generator url])
          (already_processed ++ [css_path])
      else css_loop self tag_generator rest tags already_processed
  end.

(** The first loop of [_generate_css_files_of_asset], over the entry's
    [imports]: [rec] is the recursive call on an import from the list
    [already_processed] as it is then. *)
Definition imports_loop
    (rec : string -> list string -> option (result GeneratedCssFilesOutput))
  : list string -> list Tag -> list string -> option (result GeneratedCssFilesOutput) :=
  fix imports_loop (imports : list string) (tags : list Tag)
      (already_processed : list string) :=
    match imports with
    | [] => Some (Ok (tags, already_processed))
    | import_path :: rest =>
        match rec import_path already_processed with
        | None => None
        | Some (Raise e) => Some (Raise e)
        | Some (Ok (new_tags, already_processed)) =>
            imports_loop rest (tags ++ new_tags) already_processed
        end
    end.

(** [_generate_css_files_of_asset].  Python passes the one list object
    [already_processed] down the recursion and appends to it in place, so
    what a recursive call appended is seen by the calls after it: the list
    is threaded through here, and the list returned is the list after the
    call.  [None] is a recursion that has not returned within [fuel]
    nested calls. *)
Fixpoint _generate_css_files_of_asset (fuel : nat) (self : t) (path : string)
    (already_processed : list string) (tag_generator : string -> Tag)
  : option (result GeneratedCssFilesOutput) :=
  match fuel with
  | O => None
  | S fuel =>
      match ManifestClient.get (manifest self) path with
      | Raise e => Some (Raise e)
      | Ok manifest_entry =>
          match
            imports_loop
              (fun import_path already_processed =>
                 _generate_css_files_of_asset fuel self import_path already_processed
                   tag_generator)
              (ManifestEntry.imports manifest_entry) [] already_processed
          with
          | None => None
          | Some (Raise e) => Some (Raise e)
          | Some (Ok (tags, already_processed)) =>
              Some (Ok (css_loop self tag_generator (ManifestEntry.css manifest_entry)
                          tags already_processed))
          end
      end
  end.

Definition _preload_css_files_of_asset (fuel : nat) (self : t) (path : string)
  : option (result (list Tag)) :=
  match _generate_css_files_of_asset fuel self path [] TagGenerator_stylesheet_preload with
  | None => None
  | Some r => Some (out ← r; Ok out.1)
  end.

Definition _load_css_files_of_asset (fuel : nat) (self : t) (path : string)
  : option (result (list Tag)) :=
  match _generate_css_files_of_asset fuel self path [] TagGenerator_stylesheet with
  | None => None
  | Some r => Some (out ← r; Ok out.1)
  end.

Definition preload_attrs : attrs :=
  [("type", "text/javascript"); ("crossorigin", "anonymous");
   ("rel", "modulepreload"); ("as", "script")].

(** The loop [for dep in manifest_entry.imports] that appends one preload
    tag per import to [tags]. *)
Fixpoint preload_imports (self : t) (imports : list string) (tags : list Tag)
  : result (list Tag) :=
  match imports with
  | [] => Ok tags
  | dep :: rest =>
      dep_manifest_entry ← ManifestClient.get (manifest self) dep;
      let dep_file := ManifestEntry.file dep_manifest_entry in
      let url := _get_production_server_url self dep_file in
      preload_imports self rest (tags ++ [TagGenerator_preload url preload_attrs])
  end.

Definition generate_vite_asset (fuel : nat) (self : t) (w : World) (path : string)
    (kwargs : attrs) : option (result string) :=
  if vite_is_serving w (_config self) then
    let url := _get_dev_server_url self path in
    Some (Ok (TagGenerator_script url (dict_update [("type", "module")] kwargs)))
  else
      match ManifestClient.get (manifest self) path with
      | Raise e => Some (Raise e)
      | Ok manifest_entry =>
          let scripts_attrs :=
            dict_update [("type", "module"); ("crossorigin", "")] kwargs in
          match _load_css_files_of_asset fuel self path with
          | None => None
          | Some (Raise e) => Some (Raise e)
          | Some (Ok css_tags) =>
              let tags := [] ++ css_tags in
              let url := _get_production_server_url self (ManifestEntry.file manifest_entry) in
              let tags := tags ++ [TagGenerator_script url scripts_attrs] in
              Some (tags ← preload_imports self (ManifestEntry.imports manifest_entry) tags;
                    Ok (join newline tags))
          end
      end.

Definition preload_vite_asset (fuel : nat) (self : t) (w : World) (path : string)
  : option (result string) :=
  if vite_is_serving w (_config self) then Some (Ok "")
  else
      match ManifestClient.get (manifest self) path with
      | Raise e => Some (Raise e)
      | Ok manifest_entry =>
          let manifest_file := ManifestEntry.file manifest_entry in
          let url := _get_production_server_url self manifest_file in
          let tags := [] ++ [TagGenerator_preload url preload_attrs] in
          match _preload_css_files_of_asset fuel self path with
          | None => None
          | Some (Raise e) => Some (Raise e)
          | Some (Ok css_tags) =>
              let tags := tags ++ css_tags in
              Some (tags ← preload_imports self (ManifestEntry.imports manifest_entry) tags;
                    Ok (join newline tags))
          end
      end.

Definition generate_vite_asset_url (self : t) (w : World) (path : string) : result string :=
  if vite_is_serving w (_config self) then Ok (_get_dev_server_url self path)
  else
    manifest_entry ← ManifestClient.get (manifest self) path;
    Ok (_get_production_server_url self (ManifestEntry.file manifest_entry)).

Definition generate_vite_legacy_polyfills (self : t) (w : World) (kwargs : attrs)
  : result string :=
  if vite_is_serving w (_config self) then Ok ""
  else
    match ManifestClient.legacy_polyfills_entry (manifest self) with
    | None =>
        Raise (DjangoViteAssetNotFoundError
                 ("Vite legacy polyfills not found in manifest at " +:+
                  ManifestClient.manifest_path (manifest self)))
    | Some polyfills_manifest_entry =>
        let scripts_attrs := dict_update [("nomodule", ""); ("crossorigin", "")] kwargs in
        let url :=
          _get_production_server_url self (ManifestEntry.file polyfills_manifest_entry) in
        Ok (TagGenerator_script url scripts_attrs)
    end.

Definition generate_vite_legacy_asset (self : t) (w : World) (path : string)
    (kwargs : attrs) : result string :=
  if vite_is_serving w (_config self) then Ok ""
  else
    manifest_entry ← ManifestClient.get (manifest self) path;
    let scripts_attrs := dict_update [("nomodule", ""); ("crossorigin", "")] kwargs in
    let url := _get_production_server_url self (ManifestEntry.file manifest_entry) in
    Ok (TagGenerator_script url scripts_attrs).

Definition generate_vite_ws_client (self : t) (w : World) (kwargs : attrs)
  : result string :=
  if negb (vite_is_serving w (_config self)) then Ok ""
  else
    let url := _get_dev_server_url self (ws_client_url self) in
    Ok (TagGenerator_script url (dict_update [("type", "module")] kwargs)).

Definition generate_vite_react_refresh_url (self : t) (w : World) (kwargs : attrs)
  : result string :=
  if negb (vite_is_serving w (_config self)) then Ok ""
  else
    let url := _get_dev_server_url self (react_refresh_url self) in
    let attrs_str := attrs_to_str kwargs in
    Ok ("<script type=" +:+ dquote +:+ "module" +:+ dquote +:+ " " +:+ attrs_str +:+ ">" +:+
        newline +:+
        "            import RefreshRuntime from '" +:+ url +:+ "'" +:+ newline +:+
        "            RefreshRuntime.injectIntoGlobalHook(window)" +:+ newline +:+
        "            window.$RefreshReg$ = () => {}" +:+ newline +:+
        "            window.$RefreshSig$ = () => (type) => type" +:+ newline +:+
        "            window.__vite_plugin_react_preamble_installed__ = true" +:+ newline +:+
        "        </script>").

End with_host.

End DjangoViteAppClient.

(** ** The registry *)

(** One keyword argument of [DjangoViteConfig], at the type of its field. *)
Inductive config_item :=
  | K_dev_mode (v : bool)
  | K_dev_server_protocol (v : string)
  | K_dev_server_host (v : string)
  | K_dev_server_port (v : Z)
  | K_static_url_prefix (v : string)
  | K_manifest_path (v : option path_or_str)
  | K_legacy_polyfills_motif (v : string)
  | K_ws_client_url (v : string)
  | K_react_refresh_url (v : string).

(** The field of the configuration that a keyword argument names. *)
Definition item_field (i : config_item) : string :=
  match i with
  | K_dev_mode _ => "dev_mode"
  | K_dev_server_protocol _ => "dev_server_protocol"
  | K_dev_server_host _ => "dev_server_host"
  | K_dev_server_port _ => "dev_server_port"
  | K_static_url_prefix _ => "static_url_prefix"
  | K_manifest_path _ => "manifest_path"
  | K_legacy_polyfills_motif _ => "legacy_polyfills_motif"
  | K_ws_client_url _ => "ws_client_url"
  | K_react_refresh_url _ => "react_refresh_url"
  end.

(** [DjangoViteConfig._replace] of the field that [i] names. *)
Definition config_set (i : config_item) (c : DjangoViteConfig.t) : DjangoViteConfig.t :=
  let '(DjangoViteConfig.Build_t a b c d e f g h k) := c in
  match i with
  | K_dev_mode v => DjangoViteConfig.Build_t v b c d e f g h k
  | K_dev_server_protocol v => DjangoViteConfig.Build_t a v c d e f g h k
  | K_dev_server_host v => DjangoViteConfig.Build_t a b v d e f g h k
  | K_dev_server_port v => DjangoViteConfig.Build_t a b c v e f g h k
  | K_static_url_prefix v => DjangoViteConfig.Build_t a b c d v f g h k
  | K_manifest_path v => DjangoViteConfig.Build_t a b c d e v g h k
  | K_legacy_polyfills_motif v => DjangoViteConfig.Build_t a b c d e f v h k
  | K_ws_client_url v => DjangoViteConfig.Build_t a b c d e f g v k
  | K_react_refresh_url v => DjangoViteConfig.Build_t a b c d e f g h v
  end.

(** The call of [DjangoViteConfig] on keyword arguments: the fields not named
    keep their defaults, and of two items for one field the later one (a dict
    has one) is kept. *)
Definition DjangoViteConfig_new (kwargs : list config_item) : DjangoViteConfig.t :=
  foldl (fun c i => config_set i c) DjangoViteConfig.default kwargs.

(** A value of the dict [settings.DJANGO_VITE]: a [DjangoViteConfig], or the
    dict of its keyword arguments. *)
Inductive config_arg :=
  | IsConfig (config : DjangoViteConfig.t)
  | IsDict (config : list config_item).

(** One legacy attribute set on the settings module, at the type of the
    config field it stands for. *)
Inductive legacy_setting :=
  | DJANGO_VITE_DEV_MODE (v : bool)
  | DJANGO_VITE_DEV_SERVER_PROTOCOL (v : string)
  | DJANGO_VITE_DEV_SERVER_HOST (v : string)
  | DJANGO_VITE_DEV_SERVER_PORT (v : Z)
  | DJANGO_VITE_STATIC_URL_PREFIX (v : string)
  | DJANGO_VITE_MANIFEST_PATH (v : option path_or_str)
  | DJANGO_VITE_LEGACY_POLYFILLS_MOTIF (v : string)
  | DJANGO_VITE_WS_CLIENT_URL (v : string)
  | DJANGO_VITE_REACT_REFRESH_URL (v : string)
  | DJANGO_VITE_ASSETS_PATH (v : string).

Definition legacy_key (s : legacy_setting) : string :=
  match s with
  | DJANGO_VITE_DEV_MODE _ => "DJANGO_VITE_DEV_MODE"
  | DJANGO_VITE_DEV_SERVER_PROTOCOL _ => "DJANGO_VITE_DEV_SERVER_PROTOCOL"
  | DJANGO_VITE_DEV_SERVER_HOST _ => "DJANGO_VITE_DEV_SERVER_HOST"
  | DJANGO_VITE_DEV_SERVER_PORT _ => "DJANGO_VITE_DEV_SERVER_PORT"
  | DJANGO_VITE_STATIC_URL_PREFIX _ => "DJANGO_VITE_STATIC_URL_PREFIX"
  | DJANGO_VITE_MANIFEST_PATH _ => "DJANGO_VITE_MANIFEST_PATH"
  | DJANGO_VITE_LEGACY_POLYFILLS_MOTIF _ => "DJANGO_VITE_LEGACY_POLYFILLS_MOTIF"
  | DJANGO_VITE_WS_CLIENT_URL _ => "DJANGO_VITE_WS_CLIENT_URL"
  | DJANGO_VITE_REACT_REFRESH_URL _ => "DJANGO_VITE_REACT_REFRESH_URL"
  | DJANGO_VITE_ASSETS_PATH _ => "DJANGO_VITE_ASSETS_PATH"
  end.

(** The settings module, as far as the registry reads it. *)
Record Settings := {
  (** the attribute [DJANGO_VITE]: [None] when it is not set *)
  DJANGO_VITE_setting : option (list (string * config_arg));
  (** the legacy attributes that are set *)
  legacy_settings : list legacy_setting
}.

Module DjangoViteAssetLoader.

Record t := {
  _apps : list (string * DjangoViteAppClient.t)
}.

Definition DJANGO_VITE : string := "DJANGO_VITE".

(** The dict that names, for each legacy setting, the field of the
    configuration it stands for. *)
Definition LEGACY_DJANGO_VITE_SETTINGS : list (string * option string) :=
  [("DJANGO_VITE_DEV_MODE", Some "dev_mode");
   ("DJANGO_VITE_DEV_SERVER_PROTOCOL", Some "dev_server_protocol");
   ("DJANGO_VITE_DEV_SERVER_HOST", Some "dev_server_host");
   ("DJANGO_VITE_DEV_SERVER_PORT", Some "dev_server_port");
   ("DJANGO_VITE_STATIC_URL_PREFIX", Some "static_url_prefix");
   ("DJANGO_VITE_MANIFEST_PATH", Some "manifest_path");
   ("DJANGO_VITE_LEGACY_POLYFILLS_MOTIF", Some "legacy_polyfills_motif");
   ("DJANGO_VITE_WS_CLIENT_URL", Some "ws_client_url");
   ("DJANGO_VITE_REACT_REFRESH_URL", Some "react_refresh_url");
   ("DJANGO_VITE_ASSETS_PATH", None)].

(** [cls.LEGACY_DJANGO_VITE_SETTINGS.keys()]. *)
Definition legacy_settings_keys : list string := LEGACY_DJANGO_VITE_SETTINGS.*1.

(** The keyword argument that the assignment
    [legacy_config[new_config_name] = getattr(settings, legacy_setting)] makes
    of a legacy attribute: the value under the name the table gives for its
    key, and [None] when the table gives no name. *)
Definition legacy_kwarg (s : legacy_setting) : option config_item :=
  match s with
  | DJANGO_VITE_DEV_MODE v => Some (K_dev_mode v)
  | DJANGO_VITE_DEV_SERVER_PROTOCOL v => Some (K_dev_server_protocol v)
  | DJANGO_VITE_DEV_SERVER_HOST v => Some (K_dev_server_host v)
  | DJANGO_VITE_DEV_SERVER_PORT v => Some (K_dev_server_port v)
  | DJANGO_VITE_STATIC_URL_PREFIX v => Some (K_static_url_prefix v)
  | DJANGO_VITE_MANIFEST_PATH v => Some (K_manifest_path v)
  | DJANGO_VITE_LEGACY_POLYFILLS_MOTIF v => Some (K_legacy_polyfills_motif v)
  | DJANGO_VITE_WS_CLIENT_URL v => Some (K_ws_client_url v)
  | DJANGO_VITE_REACT_REFRESH_URL v => Some (K_react_refresh_url v)
  | DJANGO_VITE_ASSETS_PATH _ => None
  end.

(** [dir(settings)], restricted to the names the registry looks for. *)
Definition dir (settings : Settings) : list string :=
  match DJANGO_VITE_setting settings with
  | Some _ => [DJANGO_VITE]
  | None => []
  end ++ map legacy_key (legacy_settings settings).

(** [getattr(settings, legacy_setting)]. *)
Definition getattr (settings : Settings) (name : string) : option legacy_setting :=
  List.find (fun s => String.eqb (legacy_key s) name) (legacy_settings settings).

Definition mixing_warning (applied_legacy_settings : list string) : string :=
  "You're mixing the new " +:+ DJANGO_VITE +:+ " setting with these " +:+
  "legacy settings: [" +:+ join ", " applied_legacy_settings +:+ "]. Those legacy " +:+
  "settings will be ignored since you have a " +:+ DJANGO_VITE +:+
  " setting configured. Please remove those legacy django-vite settings.".

Definition removal_warning (applied_legacy_settings : list string) : string :=
  "The settings [" +:+ join ", " applied_legacy_settings +:+ "] will be removed " +:+
  "in future releases of django-vite. Please switch to defining your " +:+
  "settings as " +:+ DJANGO_VITE +:+ " = {" +:+ dquote +:+ "default" +:+ dquote +:+
  ": {...},}.".

Section with_host.
Context `{Host}.

(** The loop of [_apply_django_vite_settings] over the items of the dict. *)
Fixpoint apply_items (w : World) (items : list (string * config_arg))
    (apps : list (string * DjangoViteAppClient.t))
  : result (list (string * DjangoViteAppClient.t)) :=
  match items with
  | [] => Ok apps
  | (app_name, config) :: rest =>
      let config :=
        match config with
        | IsConfig config => config
        | IsDict config => DjangoViteConfig_new config
        end in
      client ← DjangoViteAppClient.__init__ w config app_name;
      apply_items w rest (dict_set app_name client apps)
  end.

Definition _apply_django_vite_settings (w : World) (settings : Settings) (self : t)
  : result t :=
  match DJANGO_VITE_setting settings with
  | None => Ok self
  | Some [] => Ok self
  | Some django_vite_settings =>
      apps ← apply_items w django_vite_settings (_apps self);
      Ok {| _apps := apps |}
  end.

(** The loop that fills [legacy_config]; a dict of keyword arguments holds
    one item per field, a later assignment to a field replaces it. *)
Fixpoint legacy_config_of (settings : Settings) (applied_legacy_settings : list string)
    (legacy_config : list config_item) : list config_item :=
  match applied_legacy_settings with
  | [] => legacy_config
  | name :: rest =>
      match getattr settings name ≫= legacy_kwarg with
      | Some new_config => legacy_config_of settings rest (legacy_config ++ [new_config])
      | None => legacy_config_of settings rest legacy_config
      end
  end.

(** The result is the registry and the warnings given to [warnings.warn]. *)
Definition _apply_legacy_django_vite_settings (w : World) (settings : Settings) (self : t)
  : result (t * list string) :=
  let applied_settings := dir settings in
  let applied_legacy_settings :=
    filter (fun key => key ∈ applied_settings) legacy_settings_keys in
  match applied_legacy_settings with
  | [] => Ok (self, [])
  | _ =>
      if bool_decide (DJANGO_VITE ∈ applied_settings) then
        Ok (self, [mixing_warning applied_legacy_settings])
      else
        let legacy_config :=
          DjangoViteConfig_new (legacy_config_of settings applied_legacy_settings []) in
        client ← DjangoViteAppClient.__init__ w legacy_config DEFAULT_APP_NAME;
        Ok ({| _apps := dict_set DEFAULT_APP_NAME client (_apps self) |},
            [removal_warning applied_legacy_settings])
  end.

Definition _apply_default_fallback (w : World) (self : t) : result t :=
  match _apps self with
  | [] =>
      let default_config := DjangoViteConfig.default in
      client ← DjangoViteAppClient.__init__ w default_config DEFAULT_APP_NAME;
      Ok {| _apps := dict_set DEFAULT_APP_NAME client (_apps self) |}
  | _ => Ok self
  end.

(** [instance()], from the class attribute [_instance]: the registry is
    built on the first call and kept. *)
Definition instance (w : World) (settings : Settings) (_instance : option t)
  : result (t * list string) :=
  match _instance with
  | Some self => Ok (self, [])
  | None =>
      self ← _apply_django_vite_settings w settings {| _apps := [] |};
      '(self, warnings) ← _apply_legacy_django_vite_settings w settings self;
      self ← _apply_default_fallback w self;
      Ok (self, warnings)
  end.

Definition check (self : t) (w : World) : result (list CheckMessage) :=
  foldl (fun errors app_client =>
           errors ← errors;
           manifest_warnings ←
             ManifestClient.check (DjangoViteAppClient.manifest app_client.2) w;
           Ok (errors ++ manifest_warnings))
    (Ok []) (_apps self).

End with_host.

Definition _get_app_client (self : t) (app : string) : result DjangoViteAppClient.t :=
  match dict_get app (_apps self) with
  | None =>
      Raise (DjangoViteConfigNotFoundError
               ("Cannot find " +:+ app +:+ " in " +:+ DJANGO_VITE +:+ " settings."))
  | Some client => Ok client
  end.

Section routing.
Context `{Host}.

Definition generate_vite_asset (fuel : nat) (self : t) (w : World) (path app : string)
    (kwargs : attrs) : option (result string) :=
  match _get_app_client self app with
  | Raise e => Some (Raise e)
  | Ok app_client => DjangoViteAppClient.generate_vite_asset fuel app_client w path kwargs
  end.

Definition preload_vite_asset (fuel : nat) (self : t) (w : World) (path app : string)
  : option (result string) :=
  match _get_app_client self app with
  | Raise e => Some (Raise e)
  | Ok app_client => DjangoViteAppClient.preload_vite_asset fuel app_client w path
  end.

Definition generate_vite_asset_url (self : t) (w : World) (path app : string)
  : result string :=
  app_client ← _get_app_client self app;
  DjangoViteAppClient.generate_vite_asset_url app_client w path.

Definition generate_vite_legacy_polyfills (self : t) (w : World) (app : string)
    (kwargs : attrs) : result string :=
  app_client ← _get_app_client self app;
  DjangoViteAppClient.generate_vite_legacy_polyfills app_client w kwargs.

Definition generate_vite_legacy_asset (self : t) (w : World) (path app : string)
    (kwargs : attrs) : result string :=
  app_client ← _get_app_client self app;
  DjangoViteAppClient.generate_vite_legacy_asset app_client w path kwargs.

Definition generate_vite_ws_client (self : t) (w : World) (app : string) (kwargs : attrs)
  : result string :=
  app_client ← _get_app_client self app;
  DjangoViteAppClient.generate_vite_ws_client app_client w kwargs.

Definition generate_vite_react_refresh_url (self : t) (w : World) (app : string)
    (kwargs : attrs) : result string :=
  app_client ← _get_app_client self app;
  DjangoViteAppClient.generate_vite_react_refresh_url app_client w kwargs.

End routing.

End DjangoViteAssetLoader.

(** * Vocabulary of the statements *)

Section vocabulary.
Context `{Host}.

(** What the manifest source holds at a path: the document [json.loads]
    gives for the text read from the file, or from the url when the file
    cannot be opened. *)
Definition manifest_document (w : World) (path : string) : result manifest_json :=
  manifest_file ← open_manifest w path;
  manifest_content ← manifest_file;
  json_loads manifest_content.

Definition not_found_message (self : ManifestClient.t) (path : string) : string :=
  "Cannot find " +:+ path +:+ " for app=" +:+ ManifestClient.app_name self +:+
  " in Vite manifest at " +:+ ManifestClient.manifest_path self.

(** The hint of the diagnostic of [check]. *)
Definition check_hint (app_name : string) : string :=
  "Make sure you have generated a manifest file, " +:+
  "and that DJANGO_VITE[" +:+ dquote +:+ app_name +:+ dquote +:+
  "][" +:+ dquote +:+ "manifest_path" +:+ dquote +:+ "] " +:+
  "points to the correct location.".

Definition check_warning (app_name m : string) : CheckMessage :=
  {| msg := DjangoViteManifestError m; id := "django_vite.W001"; hint := check_hint app_name |}.

(** The url the probe is specified to request. *)
Definition dev_server_root (config : DjangoViteConfig.t) : string :=
  DjangoViteConfig.dev_server_protocol config +:+ "://" +:+
  DjangoViteConfig.dev_server_host config +:+ ":" +:+
  pretty (DjangoViteConfig.dev_server_port config) +:+ "/".

(** An app client with another manifest client in place of its own. *)
Definition with_manifest (client : DjangoViteAppClient.t) (manifest : ManifestClient.t)
  : DjangoViteAppClient.t :=
  {| DjangoViteAppClient._config := DjangoViteAppClient._config client;
     DjangoViteAppClient.app_name := DjangoViteAppClient.app_name client;
     DjangoViteAppClient.dev_server_protocol := DjangoViteAppClient.dev_server_protocol client;
     DjangoViteAppClient.dev_server_host := DjangoViteAppClient.dev_server_host client;
     DjangoViteAppClient.dev_server_port := DjangoViteAppClient.dev_server_port client;
     DjangoViteAppClient.static_url_prefix := DjangoViteAppClient.static_url_prefix client;
     DjangoViteAppClient.ws_client_url := DjangoViteAppClient.ws_client_url client;
     DjangoViteAppClient.react_refresh_url := DjangoViteAppClient.react_refresh_url client;
     DjangoViteAppClient.manifest := manifest |}.

(** A configuration of a dev server behind https. *)
Definition https_config : DjangoViteConfig.t :=
  {| DjangoViteConfig.dev_mode := true;
     DjangoViteConfig.dev_server_protocol := "https";
     DjangoViteConfig.dev_server_host := "localhost";
     DjangoViteConfig.dev_server_port := 5173;
     DjangoViteConfig.static_url_prefix := "";
     DjangoViteConfig.manifest_path := None;
     DjangoViteConfig.legacy_polyfills_motif := "legacy-polyfills";
     DjangoViteConfig.ws_client_url := "@vite/client";
     DjangoViteConfig.react_refresh_url := "@react-refresh" |}.

(** A machine whose dev server answers 404 on https only. *)
Definition https_world : World := {|
  session_get url :=
    if String.eqb url "https://localhost:5173/" then Response 404 else ConnectionError;
  fs_open _ := None;
  requests_get _ := Raise (PyException "MissingSchema" "Invalid URL: No scheme supplied")
|}.

(** The configuration a value of [settings.DJANGO_VITE] stands for. *)
Definition config_of_arg (config : config_arg) : DjangoViteConfig.t :=
  match config with
  | IsConfig config => config
  | IsDict config => DjangoViteConfig_new config
  end.

(** The app clients are those of the structured setting: one per item, in
    order, under its name, constructed from its configuration. *)
Definition registry_matches (w : World) (items : list (string * config_arg))
    (apps : list (string * DjangoViteAppClient.t)) : Prop :=
  Forall2 (fun item app =>
             app.1 = item.1 ∧
             DjangoViteAppClient.__init__ w (config_of_arg item.2) item.1 = Ok app.2)
    items apps.

(** The registry holds one app client, named default, of the given
    configuration. *)
Definition only_default (w : World) (config : DjangoViteConfig.t)
    (apps : list (string * DjangoViteAppClient.t)) : Prop :=
  ∃ client,
    apps = [(DEFAULT_APP_NAME, client)] ∧
    DjangoViteAppClient.__init__ w config DEFAULT_APP_NAME = Ok client.

(** The legacy keys that are set, in the order of the table. *)
Definition applied_legacy_settings (settings : Settings) : list string :=
  filter (fun key => key ∈ DjangoViteAssetLoader.dir settings)
    DjangoViteAssetLoader.legacy_settings_keys.

End vocabulary.

(** The field that [i] names holds the value of [i]. *)
Definition config_has (i : config_item) (c : DjangoViteConfig.t) : Prop :=
  match i with
  | K_dev_mode v => DjangoViteConfig.dev_mode c = v
  | K_dev_server_protocol v => DjangoViteConfig.dev_server_protocol c = v
  | K_dev_server_host v => DjangoViteConfig.dev_server_host c = v
  | K_dev_server_port v => DjangoViteConfig.dev_server_port c = v
  | K_static_url_prefix v => DjangoViteConfig.static_url_prefix c = v
  | K_manifest_path v => DjangoViteConfig.manifest_path c = v
  | K_legacy_polyfills_motif v => DjangoViteConfig.legacy_polyfills_motif c = v
  | K_ws_client_url v => DjangoViteConfig.ws_client_url c = v
  | K_react_refresh_url v => DjangoViteConfig.react_refresh_url c = v
  end.

(** The configuration holds the value of every legacy setting that is set and
    that the table maps to a field, and the default in every other field. *)
Definition mapped_one_to_one (settings : Settings) (c : DjangoViteConfig.t) : Prop :=
  (∀ name s i,
     DjangoViteAssetLoader.getattr settings name = Some s →
     DjangoViteAssetLoader.legacy_kwarg s = Some i →
     config_has i c) ∧
  (∀ i,
     (∀ s j, s ∈ legacy_settings settings →
             DjangoViteAssetLoader.legacy_kwarg s = Some j →
             item_field j ≠ item_field i) →
     config_has i c ↔ config_has i DjangoViteConfig.default).

(** A structured setting with no application, next to a legacy key. *)
Definition empty_structured_settings : Settings :=
  {| DJANGO_VITE_setting := Some []; legacy_settings := [DJANGO_VITE_DEV_SERVER_PORT 3000] |}.

(** Legacy keys only. *)
Definition legacy_only_settings : Settings :=
  {| DJANGO_VITE_setting := None;
     legacy_settings := [DJANGO_VITE_DEV_SERVER_PORT 3000; DJANGO_VITE_ASSETS_PATH "assets";
                         DJANGO_VITE_STATIC_URL_PREFIX "bundler"] |}.

(** The keys of the document that contain the motif, in key order. *)
Definition matching_keys (motif : string) (doc : manifest_json) : list string :=
  filter (fun path => str_contains motif path = true) doc.*1.

(** ** The import graph of a manifest table *)

(** [q] is listed in the imports of the entry of [p]. *)
Definition import_edge (M : gmap string ManifestEntry.t) (p q : string) : Prop :=
  ∃ e, M !! p = Some e ∧ q ∈ ManifestEntry.imports e.

(** [path] and every path it imports, directly or not, is a key. *)
Definition imports_resolve (M : gmap string ManifestEntry.t) (path : string) : Prop :=
  ∀ q, rtc (import_edge M) path q → is_Some (M !! q).

(** No path that [path] reaches lies on a cycle of imports. *)
Definition imports_acyclic (M : gmap string ManifestEntry.t) (path : string) : Prop :=
  ∀ q, rtc (import_edge M) path q → ¬ tc (import_edge M) q q.

(** Both at once, decided to a depth: the chains of imports from [path] stay
    within keys and end in fewer than [n] steps. *)
Fixpoint closed_within (M : gmap string ManifestEntry.t) (n : nat) (path : string) : bool :=
  match n with
  | O => false
  | S n =>
      match M !! path with
      | None => false
      | Some e => forallb (closed_within M n) (ManifestEntry.imports e)
      end
  end.

(** The CSS paths met on the way, repetitions included, in depth-first import
    order: those of each import in list order, then the entry's own. *)
Fixpoint css_in_depth (M : gmap string ManifestEntry.t) (n : nat) (path : string)
  : list string :=
  match n with
  | O => []
  | S n =>
      match M !! path with
      | None => []
      | Some e =>
          concat (map (css_in_depth M n) (ManifestEntry.imports e)) ++ ManifestEntry.css e
      end
  end.

Definition css_in_import_order (M : gmap string ManifestEntry.t) (path : string)
  : list string :=
  css_in_depth M (size M) path.

(** Each element once, at the place of its first occurrence. *)
Fixpoint first_occurrences (l : list string) : list string :=
  match l with
  | [] => []
  | x :: l => x :: filter (fun y => y ≠ x) (first_occurrences l)
  end.

(** The elements of [l] that are new to [seen], each once. *)
Fixpoint new_to (seen l : list string) : list string :=
  match l with
  | [] => []
  | x :: l => if bool_decide (x ∉ seen) then x :: new_to (seen ++ [x]) l else new_to seen l
  end.

(** A chain of imports from [p] through the paths of [l]. *)
Fixpoint import_chain (M : gmap string ManifestEntry.t) (p : string) (l : list string)
  : Prop :=
  match l with
  | [] => True
  | q :: l => import_edge M p q ∧ import_chain M q l
  end.

(** The table of the specification's example. *)
Definition example_table : gmap string ManifestEntry.t :=
  <["main.js" :=
      {| ManifestEntry.file := "main.abc123.js"; ManifestEntry.src := None;
         ManifestEntry.isEntry := false; ManifestEntry.isDynamicEntry := false;
         ManifestEntry.css := ["main.css"]; ManifestEntry.imports := ["lib.js"];
         ManifestEntry.dynamicImports := [] |}]>
  (<["lib.js" :=
      {| ManifestEntry.file := "lib.def456.js"; ManifestEntry.src := None;
         ManifestEntry.isEntry := false; ManifestEntry.isDynamicEntry := false;
         ManifestEntry.css := ["lib.css"]; ManifestEntry.imports := [];
         ManifestEntry.dynamicImports := [] |}]> ∅).

(** ** A sample environment *)

(** The manifest of the specification's example. *)
Definition example_doc : manifest_json :=
  [("main.js", [I_file "main.abc123.js"; I_imports ["lib.js"]; I_css ["main.css"]]);
   ("lib.js", [I_file "lib.def456.js"; I_css ["lib.css"]])].

(** Two keys that contain the default motif. *)
Definition polyfills_doc : manifest_json :=
  [("vite/legacy-polyfills-a", [I_file "polyfills-a.js"; I_other "name" "a"]);
   ("main.js", [I_file "main.js"]);
   ("vite/legacy-polyfills-b", [I_file "polyfills-b.js"])].

(** A row without [file] after a well-formed one. *)
Definition malformed_doc : manifest_json :=
  [("main.js", [I_file "main.abc123.js"]);
   ("lib.js", [I_src "lib.js"; I_css ["lib.css"]])].

(** Two entries that import each other. *)
Definition cyclic_doc : manifest_json :=
  [("a.js", [I_file "a.123.js"; I_imports ["b.js"]; I_css ["a.css"]]);
   ("b.js", [I_file "b.456.js"; I_imports ["a.js"]])].

(** A stylesheet reached along two chains of imports. *)
Definition diamond_doc : manifest_json :=
  [("main.js", [I_file "main.1.js"; I_imports ["a.js"; "b.js"]; I_css ["main.css"]]);
   ("a.js", [I_file "a.2.js"; I_imports ["shared.js"]; I_css ["a.css"]]);
   ("b.js", [I_file "b.3.js"; I_imports ["shared.js"]; I_css ["b.css"; "a.css"]]);
   ("shared.js", [I_file "shared.4.js"; I_css ["shared.css"]])].

(** A host whose [json.loads] knows the documents above by name, whose urls
    are joined by concatenation and whose tags show their url. *)
Definition sample_host : Host := {|
  urljoin base url := base +:+ url;
  json_loads text :=
    if String.eqb text "example" then Ok example_doc
    else if String.eqb text "polyfills" then Ok polyfills_doc
    else if String.eqb text "malformed" then Ok malformed_doc
    else if String.eqb text "cyclic" then Ok cyclic_doc
    else if String.eqb text "diamond" then Ok diamond_doc
    else Raise (PyException "JSONDecodeError" "Expecting value: line 1 column 1 (char 0)");
  Path s := s;
  Path_div a b := if String.eqb b "" then a else a +:+ "/" +:+ b;
  STATIC_ROOT := "/static";
  STATIC_URL := "/static/";
  staticfiles_installed := false;
  staticfiles_storage_url name := "/static/" +:+ name;
  TagGenerator_script url attrs := "<script src=" +:+ url +:+ ">";
  TagGenerator_stylesheet url := "<link rel=stylesheet href=" +:+ url +:+ ">";
  TagGenerator_stylesheet_preload url := "<link rel=preload href=" +:+ url +:+ ">";
  TagGenerator_preload url attrs := "<link rel=modulepreload href=" +:+ url +:+ ">";
  attrs_to_str attrs := join " " (map (fun kv => kv.1 +:+ "=" +:+ kv.2) attrs)
|}.

(** A machine on which every file opens and reads as [content], and no dev
    server answers. *)
Definition file_world (content : string) : World := {|
  session_get _ := ConnectionError;
  fs_open _ := Some (Ok content);
  requests_get _ := Raise (PyException "ConnectionError" "Connection refused")
|}.

(** A machine with no manifest, on which the dev server answers 404. *)
Definition dev_world : World := {|
  session_get _ := Response 404;
  fs_open _ := None;
  requests_get _ := Raise (PyException "MissingSchema" "Invalid URL: No scheme supplied")
|}.

(** A machine with no manifest and no dev server. *)
Definition bare_world : World := {|
  session_get _ := ConnectionError;
  fs_open _ := None;
  requests_get _ := Raise (PyException "MissingSchema" "Invalid URL: No scheme supplied")
|}.

(** ** Further samples *)

(** An entry with a file, imports and stylesheets, the other fields at
    their defaults. *)
Definition plain_entry (file : string) (imports css : list string) : ManifestEntry.t :=
  {| ManifestEntry.file := file; ManifestEntry.src := None;
     ManifestEntry.isEntry := false; ManifestEntry.isDynamicEntry := false;
     ManifestEntry.css := css; ManifestEntry.imports := imports;
     ManifestEntry.dynamicImports := [] |}.

(** A manifest client of the default configuration that holds a given table. *)
Definition table_manifest (M : gmap string ManifestEntry.t) : ManifestClient.t :=
  {| ManifestClient._config := DjangoViteConfig.default;
     ManifestClient.app_name := "default";
     ManifestClient.dev_mode := false;
     ManifestClient.manifest_path := "/static/manifest.json";
     ManifestClient.legacy_polyfills_motif := "legacy-polyfills";
     ManifestClient._entries := M;
     ManifestClient.legacy_polyfills_entry := None |}.

(** An app client of the default configuration over a given table. *)
Definition table_client (M : gmap string ManifestEntry.t) : DjangoViteAppClient.t :=
  {| DjangoViteAppClient._config := DjangoViteConfig.default;
     DjangoViteAppClient.app_name := "default";
     DjangoViteAppClient.dev_server_protocol := "http";
     DjangoViteAppClient.dev_server_host := "localhost";
     DjangoViteAppClient.dev_server_port := 5173;
     DjangoViteAppClient.static_url_prefix := "";
     DjangoViteAppClient.ws_client_url := "@vite/client";
     DjangoViteAppClient.react_refresh_url := "@react-refresh";
     DjangoViteAppClient.manifest := table_manifest M |}.

(** A stylesheet reached along two chains of imports. *)
Definition diamond_table : gmap string ManifestEntry.t :=
  <["main.js" := plain_entry "main.1.js" ["a.js"; "b.js"] ["main.css"]]>
  (<["a.js" := plain_entry "a.2.js" ["shared.js"] ["a.css"]]>
  (<["b.js" := plain_entry "b.3.js" ["shared.js"] ["b.css"; "a.css"]]>
  (<["shared.js" := plain_entry "shared.4.js" [] ["shared.css"]]> ∅))).




(** An app client with another static url prefix. *)
Definition with_static_url_prefix (client : DjangoViteAppClient.t) (prefix : string)
  : DjangoViteAppClient.t :=
  {| DjangoViteAppClient._config := DjangoViteAppClient._config client;
     DjangoViteAppClient.app_name := DjangoViteAppClient.app_name client;
     DjangoViteAppClient.dev_server_protocol := DjangoViteAppClient.dev_server_protocol client;
     DjangoViteAppClient.dev_server_host := DjangoViteAppClient.dev_server_host client;
     DjangoViteAppClient.dev_server_port := DjangoViteAppClient.dev_server_port client;
     DjangoViteAppClient.static_url_prefix := prefix;
     DjangoViteAppClient.ws_client_url := DjangoViteAppClient.ws_client_url client;
     DjangoViteAppClient.react_refresh_url := DjangoViteAppClient.react_refresh_url client;
     DjangoViteAppClient.manifest := DjangoViteAppClient.manifest client |}.

(** The sample host with the static files behind another url. *)
Definition cdn_host : Host := {|
  urljoin := @urljoin sample_host;
  json_loads := @json_loads sample_host;
  Path := @Path sample_host;
  Path_div := @Path_div sample_host;
  STATIC_ROOT := "/srv/static";
  STATIC_URL := "https://cdn.example.com/static/";
  staticfiles_installed := true;
  staticfiles_storage_url := @staticfiles_storage_url sample_host;
  TagGenerator_script := @TagGenerator_script sample_host;
  TagGenerator_stylesheet := @TagGenerator_stylesheet sample_host;
  TagGenerator_stylesheet_preload := @TagGenerator_stylesheet_preload sample_host;
  TagGenerator_preload := @TagGenerator_preload sample_host;
  attrs_to_str := @attrs_to_str sample_host
|}.

(** The entry holds the value of the item in the field that the item names;
    an item of another key says nothing. *)
Definition entry_has (i : item) (e : ManifestEntry.t) : Prop :=
  match i with
  | I_file v => ManifestEntry.file e = v
  | I_src v => ManifestEntry.src e = Some v
  | I_isEntry v => ManifestEntry.isEntry e = v
  | I_isDynamicEntry v => ManifestEntry.isDynamicEntry e = v
  | I_css v => ManifestEntry.css e = v
  | I_imports v => ManifestEntry.imports e = v
  | I_dynamicImports v => ManifestEntry.dynamicImports e = v
  | I_other _ _ => True
  end.

(** The items that are not of a field of [ManifestEntry] have other keys. *)
Definition other_keys_unknown (row : list item) : bool :=
  forallb (fun i =>
             match i with
             | I_other k _ => bool_decide (k ∉ ManifestEntry._fields)
             | _ => true
             end) row.

(** The exception for an application that the registry does not hold. *)
Definition config_not_found (app : string) : exn :=
  DjangoViteConfigNotFoundError
    ("Cannot find " +:+ app +:+ " in " +:+ DjangoViteAssetLoader.DJANGO_VITE +:+ " settings.").

(** Two applications, neither of them named default. *)
Definition two_apps_settings : Settings :=
  {| DJANGO_VITE_setting :=
       Some [("site", IsDict [K_static_url_prefix "site"]);
             ("admin", IsConfig DjangoViteConfig.default)];
     legacy_settings := [] |}.

(** A configuration whose manifest is served by another machine. *)
Definition remote_config : DjangoViteConfig.t :=
  {| DjangoViteConfig.dev_mode := false;
     DjangoViteConfig.dev_server_protocol := "http";
     DjangoViteConfig.dev_server_host := "localhost";
     DjangoViteConfig.dev_server_port := 5173;
     DjangoViteConfig.static_url_prefix := "";
     DjangoViteConfig.manifest_path := Some (AStr "https://cdn.example.org/manifest.json");
     DjangoViteConfig.legacy_polyfills_motif := "legacy-polyfills";
     DjangoViteConfig.ws_client_url := "@vite/client";
     DjangoViteConfig.react_refresh_url := "@react-refresh" |}.

(** A machine with no file, on which every url answers with the given status
    and body. *)
Definition remote_world (status : Z) (text : string) : World := {|
  session_get _ := ConnectionError;
  fs_open _ := None;
  requests_get _ := Ok (status, text)
|}.

(** * Properties *)

(** ** Python strings and dicts *)

Arguments str_contains : simpl never.
Arguments endswith : simpl never.

Lemma dict_get_set_eq {V} (k : string) (v : V) d : dict_get k (dict_set k v d) = Some v.
Proof.
  induction d as [|[k' v'] d IH]; simpl.
  - by rewrite String.eqb_refl.
  - destruct (String.eqb k' k) eqn:E; simpl.
    + by rewrite String.eqb_refl.
    + by rewrite E.
Qed.

Lemma dict_get_set_ne {V} (k k0 : string) (v : V) d :
  k ≠ k0 → dict_get k0 (dict_set k v d) = dict_get k0 d.
Proof.
  intros Hne. induction d as [|[k' v'] d IH]; simpl.
  - destruct (String.eqb k k0) eqn:E; [|done].
    by apply String.eqb_eq in E.
  - destruct (String.eqb k' k) eqn:E; simpl.
    + apply String.eqb_eq in E as ->.
      destruct (String.eqb k k0) eqn:E'; [|done].
      by apply String.eqb_eq in E'.
    + by rewrite IH.
Qed.

(** An application registered under a name is the one the registry routes
    that name to, and a name that is not registered raises. *)
Lemma _get_app_client_registered name client apps :
  DjangoViteAssetLoader._get_app_client
    {| DjangoViteAssetLoader._apps := dict_set name client apps |} name = Ok client.
Proof. unfold DjangoViteAssetLoader._get_app_client. simpl. by rewrite dict_get_set_eq. Qed.

Lemma _get_app_client_other name other client apps :
  name ≠ other →
  DjangoViteAssetLoader._get_app_client
    {| DjangoViteAssetLoader._apps := dict_set name client apps |} other =
  DjangoViteAssetLoader._get_app_client {| DjangoViteAssetLoader._apps := apps |} other.
Proof.
  intros Hne. unfold DjangoViteAssetLoader._get_app_client. simpl.
  by rewrite dict_get_set_ne.
Qed.

(** ** The manifest resolver *)

Section manifest_client.
Context `{Host}.

Lemma _parse_manifest_document self w :
  ManifestClient.dev_mode self = false →
  ManifestClient._parse_manifest self w =
    match
      doc ← manifest_document w (ManifestClient.manifest_path self);
      ManifestClient.parse_items (ManifestClient.legacy_polyfills_motif self) doc ∅ None
    with
    | Ok out => Ok out
    | Raise error =>
        Raise (DjangoViteManifestError
                 ("Cannot read Vite manifest file for app " +:+ ManifestClient.app_name self +:+
                  " at " +:+ ManifestClient.manifest_path self +:+ " : " +:+ exn_str error))
    end.
Proof.
  intros Hdev. unfold ManifestClient._parse_manifest, manifest_document. rewrite Hdev.
  by destruct (open_manifest w _) as [[c|e]|e].
Qed.

(** The manifest source fails in one of four ways: the file does not open
    and the fetch raises; the fetch answers with an error status; the file
    opens and reading it raises; the text does not decode. *)
Lemma manifest_document_raises w path err :
  manifest_document w path = Raise err ↔
    (fs_open w path = None ∧ requests_get w path = Raise err) ∨
    (∃ status text, fs_open w path = None ∧ requests_get w path = Ok (status, text) ∧
                    raise_for_status status = Raise err) ∨
    fs_open w path = Some (Raise err) ∨
    (∃ content,
       (fs_open w path = Some (Ok content) ∨
        ∃ status, fs_open w path = None ∧ requests_get w path = Ok (status, content) ∧
                  raise_for_status status = Ok ()) ∧
       json_loads content = Raise err).
Proof.
  unfold manifest_document, open_manifest.
  destruct (fs_open w path) as [[content|e]|]; simpl.
  - split.
    + intros Hj. right. right. right. exists content. split; [by left|done].
    + intros [[? _]|[(? & ? & ? & _)|[?|(c & [[= <-]|(? & ? & _)] & Hj)]]]; done.
  - split.
    + intros [= ->]. right. right. by left.
    + intros [[? _]|[(? & ? & ? & _)|[[= ->]|(c & [?|(? & ? & _)] & _)]]]; done.
  - destruct (requests_get w path) as [[status text]|e]; simpl.
    + destruct (raise_for_status status) as [[]|e] eqn:Hst; simpl.
      * split.
        -- intros Hj. right. right. right. exists text. split; [|done]. right. by exists status.
        -- intros [[_ ?]|[(? & ? & _ & [= <- <-] & ?)|[?|(c & [?|(? & _ & [= <- <-] & _)] & Hj)]]];
             done || congruence.
      * split.
        -- intros [= ->]. right. left. by exists status, text.
        -- intros [[_ ?]|[(? & ? & _ & [= <- <-] & ?)|[?|(c & [?|(? & _ & [= <- <-] & ?)] & _)]]];
             done || congruence.
    + split.
      * intros [= ->]. by left.
      * intros [[_ [= ->]]|[(? & ? & _ & ? & _)|[?|(c & [?|(? & _ & ? & _)] & _)]]]; done.
Qed.

(** [_parse_manifest] raises nothing but [DjangoViteManifestError]. *)
Lemma _parse_manifest_raises self w e :
  ManifestClient._parse_manifest self w = Raise e → is_manifest_error e = true.
Proof.
  unfold ManifestClient._parse_manifest.
  destruct (ManifestClient.dev_mode self); [done|].
  match goal with |- context [match ?r with Ok _ => _ | Raise _ => _ end] => destruct r end;
    by intros [= <-].
Qed.

(** The fields of a client that the constructor fixes before it parses. *)
Lemma __init___fields w config app_name self :
  ManifestClient.__init__ w config app_name = Ok self →
  ManifestClient._config self = config ∧
  ManifestClient.app_name self = app_name ∧
  ManifestClient.dev_mode self =
    DjangoViteConfig.dev_mode config && vite_is_serving w config ∧
  ManifestClient.manifest_path self = ManifestClient._clean_manifest_path config ∧
  ManifestClient.legacy_polyfills_motif self = DjangoViteConfig.legacy_polyfills_motif config.
Proof.
  unfold ManifestClient.__init__.
  destruct (DjangoViteConfig.dev_mode config) eqn:Hd; simpl;
    [destruct (vite_is_serving w config) eqn:Hs; simpl|].
  - by intros [= <-].
  - match goal with |- context [ManifestClient._parse_manifest ?s w] =>
      destruct (ManifestClient._parse_manifest s w) as [[? ?]|[]] end;
      try done; by intros [= <-].
  - match goal with |- context [ManifestClient._parse_manifest ?s w] =>
      destruct (ManifestClient._parse_manifest s w) as [[? ?]|[]] end;
      try done; by intros [= <-].
Qed.

Lemma __init___returns w config app_name :
  ∃ self, ManifestClient.__init__ w config app_name = Ok self.
Proof.
  unfold ManifestClient.__init__.
  destruct (negb _); [|by eexists].
  match goal with |- context [ManifestClient._parse_manifest ?s w] =>
    destruct (ManifestClient._parse_manifest s w) as [[? ?]|e] eqn:Hp end;
    [by eexists|].
  apply _parse_manifest_raises in Hp. destruct e; try done. by eexists.
Qed.

(** The table and the legacy polyfills entry of a client are what
    [_parse_manifest] gave the constructor, and are empty when it raised. *)
Lemma __init___parse w config app_name self :
  ManifestClient.__init__ w config app_name = Ok self →
  (ManifestClient._entries self, ManifestClient.legacy_polyfills_entry self) =
    match ManifestClient._parse_manifest self w with
    | Ok out => out
    | Raise _ => (∅, None)
    end.
Proof.
  unfold ManifestClient.__init__.
  assert (∃ b, (if DjangoViteConfig.dev_mode config && vite_is_serving w config
                then DjangoViteConfig.dev_mode config else false) = b) as [b ->]
    by by eexists.
  destruct b; simpl; [by intros [= <-]|].
  match goal with |- context [ManifestClient._parse_manifest ?s w] =>
    destruct (ManifestClient._parse_manifest s w) as [[E L]|e] eqn:Hp end.
  - intros [= <-]. simpl.
    unfold ManifestClient._parse_manifest in *; simpl in *. by rewrite Hp.
  - pose proof (_parse_manifest_raises _ _ _ Hp) as He.
    destruct e; try done. intros [= <-]. simpl.
    unfold ManifestClient._parse_manifest in *; simpl in *. by rewrite Hp.
Qed.

Lemma get_Some (self : ManifestClient.t) path e :
  ManifestClient._entries self !! path = Some e → ManifestClient.get self path = Ok e.
Proof. unfold ManifestClient.get. by intros ->. Qed.

Lemma get_None (self : ManifestClient.t) path :
  ManifestClient._entries self !! path = None →
  ManifestClient.get self path =
    Raise (DjangoViteAssetNotFoundError (not_found_message self path)).
Proof. unfold ManifestClient.get. by intros ->. Qed.

End manifest_client.

(** ** The loop over the rows of the document *)

Lemma bind_kwargs_no_file kwargs e :
  "file" ∉ item_key <$> kwargs → ∃ err, ManifestEntry.bind_kwargs kwargs None e = Raise err.
Proof.
  revert e. induction kwargs as [|i kw IH]; intros e Hno; simpl; [by eexists|].
  rewrite fmap_cons, not_elem_of_cons in Hno. destruct Hno as [Hi Hkw].
  destruct i; simpl in *; try done; eauto.
Qed.

Lemma parse_items_row_raises motif doc key row err :
  (key, row) ∈ doc →
  ManifestEntry.new (ManifestClient.filtered_manifest_entry_data row) = Raise err →
  ∀ entries legacy, ∃ err', ManifestClient.parse_items motif doc entries legacy = Raise err'.
Proof.
  intros Hin Hrow. induction doc as [|[k r] doc IH]; [by apply elem_of_nil in Hin|].
  intros entries legacy. simpl.
  destruct (ManifestEntry.new (ManifestClient.filtered_manifest_entry_data r)) as [e|e] eqn:Hr;
    simpl; [|by eexists].
  apply elem_of_cons in Hin as [[= -> ->]|Hin]; [congruence|]. by apply IH.
Qed.

(** The table after the loop: the rows of the document, over the table the
    loop started from. *)
Lemma parse_items_entries motif doc :
  ∀ entries legacy E L,
    ManifestClient.parse_items motif doc entries legacy = Ok (E, L) →
    NoDup doc.*1 →
    (∀ path row, (path, row) ∈ doc →
       ∃ e, ManifestEntry.new (ManifestClient.filtered_manifest_entry_data row) = Ok e ∧
            E !! path = Some e) ∧
    (∀ path, path ∉ doc.*1 → E !! path = entries !! path).
Proof.
  induction doc as [|[k r] doc IH]; intros entries legacy E L; simpl.
  - intros [= <- <-] _. split; [|done]. intros ?? Hin. by apply elem_of_nil in Hin.
  - destruct (ManifestEntry.new (ManifestClient.filtered_manifest_entry_data r)) as [e|e] eqn:Hr;
      simpl; [|done].
    intros Hp Hnd. apply NoDup_cons in Hnd as [Hk Hnd].
    destruct (IH _ _ _ _ Hp Hnd) as [Hrows Hother]. split.
    + intros path row Hin. apply elem_of_cons in Hin as [[= -> ->]|Hin]; [|by apply Hrows].
      exists e. split; [done|]. rewrite (Hother _ Hk). apply lookup_insert_eq.
    + intros path Hpath. apply not_elem_of_cons in Hpath as [Hne Hpath].
      rewrite (Hother _ Hpath). by apply lookup_insert_ne.
Qed.

(** The legacy polyfills entry after the loop is the entry of the last
    matching key, and what the loop started from when no key matches. *)
Lemma parse_items_legacy motif doc :
  ∀ entries legacy E L,
    ManifestClient.parse_items motif doc entries legacy = Ok (E, L) →
    NoDup doc.*1 →
    L = match last (matching_keys motif doc) with
        | Some path => E !! path
        | None => legacy
        end.
Proof.
  induction doc as [|[k r] doc IH]; intros entries legacy E L; simpl.
  - by intros [= <- <-] _.
  - destruct (ManifestEntry.new (ManifestClient.filtered_manifest_entry_data r)) as [e|e] eqn:Hr;
      simpl; [|done].
    intros Hp Hnd. apply NoDup_cons in Hnd as [Hk Hnd].
    rewrite (IH _ _ _ _ Hp Hnd).
    destruct (parse_items_entries _ _ _ _ _ _ Hp Hnd) as [_ Hother].
    unfold matching_keys. rewrite fmap_cons. simpl. rewrite filter_cons.
    case_decide as Hm.
    + rewrite Hm, last_cons.
      destruct (last _); [done|]. rewrite (Hother _ Hk). by rewrite lookup_insert_eq.
    + by destruct (str_contains motif k).
Qed.

(** ** Lookups *)

(** The table of a client that parsed the document. *)
Lemma parsed_client_rows `{Host} w config app_name self doc :
  ManifestClient.__init__ w config app_name = Ok self →
  ManifestClient.dev_mode self = false →
  manifest_document w (ManifestClient.manifest_path self) = Ok doc →
  NoDup doc.*1 →
  (∃ out, ManifestClient.parse_items (ManifestClient.legacy_polyfills_motif self)
            doc ∅ None = Ok out) →
  (∀ path row, (path, row) ∈ doc →
     ∃ e, ManifestEntry.new (ManifestClient.filtered_manifest_entry_data row) = Ok e ∧
          ManifestClient.get self path = Ok e) ∧
  (∀ path, path ∉ doc.*1 →
     ManifestClient.get self path =
       Raise (DjangoViteAssetNotFoundError (not_found_message self path))).
Proof.
  intros Hinit Hdev Hdoc Hnd [[E L] Hok].
  pose proof (__init___parse _ _ _ _ Hinit) as Hparse.
  rewrite (_parse_manifest_document _ _ Hdev), Hdoc in Hparse. simpl in Hparse.
  rewrite Hok in Hparse. injection Hparse as HE HL.
  destruct (parse_items_entries _ _ _ _ _ _ Hok Hnd) as [Hrows Hother]. split.
  - intros path row Hin. destruct (Hrows _ _ Hin) as (e & He & Hl).
    exists e. split; [done|]. apply get_Some. by rewrite HE.
  - intros path Hpath. apply get_None. rewrite HE, (Hother _ Hpath). apply lookup_empty.
Qed.

(** C3: on a client whose manifest was parsed, [get] of a key of the document
    returns the entry constructed from that key's row, and [get] of any path
    that is not a key raises [DjangoViteAssetNotFoundError] with a message that
    names the path, the application and the manifest path; so does every [get]
    on a client that skipped parsing because the dev server was live. *)
Theorem get_returns_the_row_entry `{Host} w config app_name self :
  ManifestClient.__init__ w config app_name = Ok self →
  (∀ doc,
     ManifestClient.dev_mode self = false →
     manifest_document w (ManifestClient.manifest_path self) = Ok doc →
     NoDup doc.*1 →
     (∃ out, ManifestClient.parse_items (ManifestClient.legacy_polyfills_motif self)
               doc ∅ None = Ok out) →
     (∀ path row, (path, row) ∈ doc →
        ∃ e, ManifestEntry.new (ManifestClient.filtered_manifest_entry_data row) = Ok e ∧
             ManifestClient.get self path = Ok e) ∧
     (∀ path, path ∉ doc.*1 →
        ManifestClient.get self path =
          Raise (DjangoViteAssetNotFoundError (not_found_message self path)))) ∧
  (ManifestClient.dev_mode self = true →
   ∀ path, ManifestClient.get self path =
             Raise (DjangoViteAssetNotFoundError (not_found_message self path))) ∧
  (∀ path,
     match ManifestClient._entries self !! path with
     | Some e => ManifestClient.get self path = Ok e
     | None => ManifestClient.get self path =
                 Raise (DjangoViteAssetNotFoundError (not_found_message self path))
     end).
Proof.
  intros Hinit. pose proof (__init___parse _ _ _ _ Hinit) as Hparse.
  split; [|split].
  - intros doc Hdev Hdoc Hnd Hok. by eapply parsed_client_rows.
  - intros Hdev path. apply get_None.
    unfold ManifestClient._parse_manifest in Hparse. rewrite Hdev in Hparse.
    injection Hparse as -> _. apply lookup_empty.
  - intros path. destruct (_ !! path) eqn:E; [by apply get_Some|by apply get_None].
Qed.

Lemma get_returns_the_row_entry_witness :
  ∃ self,
    @ManifestClient.__init__ sample_host (file_world "example")
      DjangoViteConfig.default "default" = Ok self ∧
    ManifestClient.get self "lib.js" =
      Ok {| ManifestEntry.file := "lib.def456.js"; ManifestEntry.src := None;
            ManifestEntry.isEntry := false; ManifestEntry.isDynamicEntry := false;
            ManifestEntry.css := ["lib.css"]; ManifestEntry.imports := [];
            ManifestEntry.dynamicImports := [] |} ∧
    ManifestClient.get self "missing.js" =
      Raise (DjangoViteAssetNotFoundError
               "Cannot find missing.js for app=default in Vite manifest at /static/manifest.json").
Proof.
  eexists. split; [vm_compute; reflexivity|].
  match goal with |- context [ManifestClient.get ?s _] => set (self := s) end.
  assert (@ManifestClient.__init__ sample_host (file_world "example")
            DjangoViteConfig.default "default" = Ok self) as Hinit
    by (vm_compute; reflexivity).
  destruct (get_returns_the_row_entry _ _ _ _ Hinit) as (Hdoc & _ & _).
  destruct (Hdoc example_doc eq_refl eq_refl) as [Hrows Hother].
  { apply (bool_decide_unpack _). vm_compute. reflexivity. }
  { eexists. vm_compute. reflexivity. }
  split.
  - destruct (Hrows "lib.js" [I_file "lib.def456.js"; I_css ["lib.css"]]) as (e & He & Hg).
    { unfold example_doc. repeat constructor. }
    rewrite Hg. injection He as <-. reflexivity.
  - rewrite Hother; [reflexivity|].
    apply (bool_decide_unpack _). vm_compute. reflexivity.
Defined.

(** ** Parse failures *)

Section parse_failures.
Context `{Host}.

(** A client whose constructor parsed and failed keeps the empty table. *)
Lemma __init___parse_raises w config app_name :
  DjangoViteConfig.dev_mode config && vite_is_serving w config = false →
  ∀ self, ManifestClient.__init__ w config app_name = Ok self →
  raises (ManifestClient._parse_manifest self w) is_manifest_error →
  ManifestClient._entries self = ∅ ∧
  ManifestClient.legacy_polyfills_entry self = None ∧
  ∀ path, ManifestClient.get self path =
            Raise (DjangoViteAssetNotFoundError (not_found_message self path)).
Proof.
  intros Hdev self Hinit Hr. pose proof (__init___parse _ _ _ _ Hinit) as Hparse.
  destruct (ManifestClient._parse_manifest self w); [done|].
  injection Hparse as HE HL. split; [done|]. split; [done|].
  intros path. apply get_None. rewrite HE. apply lookup_empty.
Qed.

Lemma check_cases (self : ManifestClient.t) w :
  ManifestClient.dev_mode self = false →
  ((∃ out, ManifestClient._parse_manifest self w = Ok out) ∧
   ManifestClient.check self w = Ok []) ∨
  (∃ m, ManifestClient._parse_manifest self w = Raise (DjangoViteManifestError m) ∧
        ManifestClient.check self w = Ok [check_warning (ManifestClient.app_name self) m]).
Proof.
  intros Hdev. unfold ManifestClient.check. rewrite Hdev. simpl.
  destruct (ManifestClient._parse_manifest self w) as [out|e] eqn:Hp; simpl.
  - left. eauto.
  - right. pose proof (_parse_manifest_raises _ _ _ Hp). destruct e; try done. eauto.
Qed.

End parse_failures.

(** C8: when the dev mode of the client is off and the manifest source cannot
    be read, fetched or decoded, the constructor returns a client with an
    empty table; every later [get] raises [DjangoViteAssetNotFoundError];
    [check] parses again, never raises, and returns one warning, with the id
    django_vite.W001 and a hint that names the application's manifest path
    setting, when the parse raises, and no warning when it succeeds. *)
Theorem unreadable_manifest_is_swallowed `{Host} w config app_name err :
  DjangoViteConfig.dev_mode config && vite_is_serving w config = false →
  manifest_document w (ManifestClient._clean_manifest_path config) = Raise err →
  ∃ self,
    ManifestClient.__init__ w config app_name = Ok self ∧
    ManifestClient._entries self = ∅ ∧
    ManifestClient.legacy_polyfills_entry self = None ∧
    (∀ path, ManifestClient.get self path =
               Raise (DjangoViteAssetNotFoundError (not_found_message self path))) ∧
    (∃ m, ManifestClient.check self w = Ok [check_warning app_name m]) ∧
    (∀ w',
       ((∃ out, ManifestClient._parse_manifest self w' = Ok out) ∧
        ManifestClient.check self w' = Ok []) ∨
       (∃ m, ManifestClient._parse_manifest self w' = Raise (DjangoViteManifestError m) ∧
             ManifestClient.check self w' = Ok [check_warning app_name m])).
Proof.
  intros Hdev Hdoc. destruct (__init___returns w config app_name) as [self Hinit].
  exists self. split; [done|].
  destruct (__init___fields _ _ _ _ Hinit) as (_ & Happ & Hd & Hpath & _).
  rewrite Hdev in Hd.
  assert (∃ m, ManifestClient._parse_manifest self w = Raise (DjangoViteManifestError m))
    as [m Hm].
  { rewrite (_parse_manifest_document _ _ Hd), Hpath, Hdoc. simpl. eauto. }
  destruct (__init___parse_raises _ _ _ Hdev _ Hinit) as (HE & HL & Hget).
  { by rewrite Hm. }
  split; [done|]. split; [done|]. split; [done|]. split.
  - exists m. destruct (check_cases self w Hd) as [[[out Hout] _]|(m' & Hm' & Hc)];
      [congruence|]. rewrite Hc, <- Happ. congruence.
  - intros w'. rewrite <- Happ. by apply check_cases.
Qed.

Lemma unreadable_manifest_is_swallowed_witness :
  ∃ self,
    @ManifestClient.__init__ sample_host bare_world DjangoViteConfig.default "default" = Ok self ∧
    ManifestClient._entries self = ∅ ∧
    ManifestClient.get self "main.js" =
      Raise (DjangoViteAssetNotFoundError
               "Cannot find main.js for app=default in Vite manifest at /static/manifest.json") ∧
    @ManifestClient.check sample_host self (file_world "example") = Ok [].
Proof.
  destruct (unreadable_manifest_is_swallowed (H := sample_host) bare_world
              DjangoViteConfig.default "default"
              (PyException "MissingSchema" "Invalid URL: No scheme supplied")
              eq_refl eq_refl) as (self & Hinit & HE & _ & Hget & _ & Hcheck).
  exists self. split; [done|]. split; [done|]. split.
  - rewrite Hget. unfold not_found_message.
    destruct (__init___fields _ _ _ _ Hinit) as (_ & -> & _ & -> & _). reflexivity.
  - destruct (Hcheck (file_world "example")) as [[_ Hc]|(m & Hm & _)]; [done|].
    destruct (__init___fields _ _ _ _ Hinit) as (_ & Happ & Hd & Hpath & Hmotif).
    rewrite (_parse_manifest_document _ _ Hd), Hpath, Hmotif in Hm.
    vm_compute in Hm. discriminate.
Defined.

(** C10: when a row of the document has no [file] item once the unknown items
    are dropped, the loop over the document raises whatever rows come before
    or after it; a client that parses such a document gets
    [DjangoViteManifestError] from [_parse_manifest], keeps no entry of the
    document, and raises [DjangoViteAssetNotFoundError] for every path. *)
Theorem row_without_file_fails_the_parse `{Host} (doc : manifest_json) key row :
  (key, row) ∈ doc →
  "file" ∉ item_key <$> ManifestClient.filtered_manifest_entry_data row →
  (∀ motif entries legacy,
     ∃ err, ManifestClient.parse_items motif doc entries legacy = Raise err) ∧
  (∀ w config app_name,
     DjangoViteConfig.dev_mode config && vite_is_serving w config = false →
     manifest_document w (ManifestClient._clean_manifest_path config) = Ok doc →
     ∃ self,
       ManifestClient.__init__ w config app_name = Ok self ∧
       raises (ManifestClient._parse_manifest self w) is_manifest_error ∧
       ManifestClient._entries self = ∅ ∧
       ManifestClient.legacy_polyfills_entry self = None ∧
       ∀ path, ManifestClient.get self path =
                 Raise (DjangoViteAssetNotFoundError (not_found_message self path))).
Proof.
  intros Hin Hfile.
  destruct (bind_kwargs_no_file _ ManifestEntry.defaults Hfile) as [err Herr].
  assert (∀ motif entries legacy,
            ∃ err, ManifestClient.parse_items motif doc entries legacy = Raise err) as Hloop.
  { intros motif. by eapply parse_items_row_raises. }
  split; [done|].
  intros w config app_name Hdev Hdoc.
  destruct (__init___returns w config app_name) as [self Hinit].
  exists self. split; [done|].
  destruct (__init___fields _ _ _ _ Hinit) as (_ & Happ & Hd & Hpath & _).
  rewrite Hdev in Hd.
  assert (raises (ManifestClient._parse_manifest self w) is_manifest_error) as Hr.
  { rewrite (_parse_manifest_document _ _ Hd), Hpath, Hdoc. simpl.
    destruct (Hloop (ManifestClient.legacy_polyfills_motif self) ∅ None) as [e ->]. done. }
  split; [done|]. by eapply __init___parse_raises.
Qed.

Lemma row_without_file_fails_the_parse_witness :
  ∃ self,
    @ManifestClient.__init__ sample_host (file_world "malformed")
      DjangoViteConfig.default "default" = Ok self ∧
    ManifestClient._entries self = ∅ ∧
    ManifestClient.get self "main.js" =
      Raise (DjangoViteAssetNotFoundError
               "Cannot find main.js for app=default in Vite manifest at /static/manifest.json").
Proof.
  destruct (row_without_file_fails_the_parse (H := sample_host) malformed_doc
              "lib.js" [I_src "lib.js"; I_css ["lib.css"]]) as [_ Hclient].
  { unfold malformed_doc. repeat constructor. }
  { apply (bool_decide_unpack _). vm_compute. reflexivity. }
  destruct (Hclient (file_world "malformed") DjangoViteConfig.default "default"
              eq_refl eq_refl) as (self & Hinit & _ & HE & _ & Hget).
  exists self. split; [done|]. split; [done|].
  rewrite Hget. unfold not_found_message.
  destruct (__init___fields _ _ _ _ Hinit) as (_ & -> & _ & -> & _). reflexivity.
Defined.

(** ** The legacy polyfills entry *)

Section legacy_polyfills.
Context `{Host}.

(** On a client that parsed the document, the retained entry is the entry
    of the last key that contains the motif. *)
Lemma legacy_polyfills_entry_last w config app_name self doc :
  ManifestClient.__init__ w config app_name = Ok self →
  ManifestClient.dev_mode self = false →
  manifest_document w (ManifestClient.manifest_path self) = Ok doc →
  NoDup doc.*1 →
  (∃ out, ManifestClient.parse_items (ManifestClient.legacy_polyfills_motif self)
            doc ∅ None = Ok out) →
  match last (matching_keys (ManifestClient.legacy_polyfills_motif self) doc) with
  | Some path =>
      ∃ e, ManifestClient.legacy_polyfills_entry self = Some e ∧
           ManifestClient.get self path = Ok e
  | None => ManifestClient.legacy_polyfills_entry self = None
  end.
Proof.
  intros Hinit Hdev Hdoc Hnd [[E L] Hok].
  pose proof (__init___parse _ _ _ _ Hinit) as Hparse.
  rewrite (_parse_manifest_document _ _ Hdev), Hdoc in Hparse. simpl in Hparse.
  rewrite Hok in Hparse. injection Hparse as HE HL.
  pose proof (parse_items_legacy _ _ _ _ _ _ Hok Hnd) as Hlast.
  destruct (parse_items_entries _ _ _ _ _ _ Hok Hnd) as [Hrows _].
  destruct (last _) as [path|] eqn:Hl; [|by rewrite HL].
  assert (path ∈ doc.*1) as Hin.
  { apply last_Some_elem_of in Hl. unfold matching_keys in Hl.
    by apply list_elem_of_filter in Hl as [_ ?]. }
  apply list_elem_of_fmap in Hin as ([k row] & -> & Hin). simpl in *.
  destruct (Hrows _ _ Hin) as (e & _ & He).
  exists e. split; [by rewrite HL, Hlast|]. apply get_Some. by rewrite HE.
Qed.

Lemma generate_vite_legacy_polyfills_absent (self : DjangoViteAppClient.t) w kwargs :
  vite_is_serving w (DjangoViteAppClient._config self) = false →
  ManifestClient.legacy_polyfills_entry (DjangoViteAppClient.manifest self) = None →
  DjangoViteAppClient.generate_vite_legacy_polyfills self w kwargs =
    Raise (DjangoViteAssetNotFoundError
             ("Vite legacy polyfills not found in manifest at " +:+
              ManifestClient.manifest_path (DjangoViteAppClient.manifest self))).
Proof.
  intros Hs Hl. unfold DjangoViteAppClient.generate_vite_legacy_polyfills.
  by rewrite Hs, Hl.
Qed.

End legacy_polyfills.

(** C6: on a parsed manifest, when one key contains the motif, the legacy
    polyfills entry is that key's entry; when several do, it is the entry of
    the last of them in the key order of the document; when none does, there
    is no legacy polyfills entry and [generate_vite_legacy_polyfills], the dev
    server not serving, raises [DjangoViteAssetNotFoundError]. *)
Theorem legacy_polyfills_entry_detection `{Host} w config app_name self doc :
  ManifestClient.__init__ w config app_name = Ok self →
  ManifestClient.dev_mode self = false →
  manifest_document w (ManifestClient.manifest_path self) = Ok doc →
  NoDup doc.*1 →
  (∃ out, ManifestClient.parse_items (ManifestClient.legacy_polyfills_motif self)
            doc ∅ None = Ok out) →
  (∀ key, matching_keys (ManifestClient.legacy_polyfills_motif self) doc = [key] →
     ∃ e, ManifestClient.legacy_polyfills_entry self = Some e ∧
          ManifestClient.get self key = Ok e) ∧
  (∀ keys key, matching_keys (ManifestClient.legacy_polyfills_motif self) doc = keys ++ [key] →
     ∃ e, ManifestClient.legacy_polyfills_entry self = Some e ∧
          ManifestClient.get self key = Ok e) ∧
  (matching_keys (ManifestClient.legacy_polyfills_motif self) doc = [] →
     ManifestClient.legacy_polyfills_entry self = None ∧
     ∀ (client : DjangoViteAppClient.t) w' kwargs,
       DjangoViteAppClient.manifest client = self →
       vite_is_serving w' (DjangoViteAppClient._config client) = false →
       raises (DjangoViteAppClient.generate_vite_legacy_polyfills client w' kwargs)
         is_asset_not_found).
Proof.
  intros Hinit Hdev Hdoc Hnd Hok.
  pose proof (legacy_polyfills_entry_last _ _ _ _ _ Hinit Hdev Hdoc Hnd Hok) as Hlast.
  split; [|split].
  - intros key Hk. by rewrite Hk in Hlast.
  - intros keys key Hk. by rewrite Hk, last_snoc in Hlast.
  - intros Hk. rewrite Hk in Hlast. simpl in Hlast. split; [done|].
    intros client w' kwargs <- Hs.
    by rewrite generate_vite_legacy_polyfills_absent.
Qed.

Lemma legacy_polyfills_entry_detection_witness :
  ∃ self,
    @ManifestClient.__init__ sample_host (file_world "polyfills")
      DjangoViteConfig.default "default" = Ok self ∧
    matching_keys "legacy-polyfills" polyfills_doc =
      ["vite/legacy-polyfills-a"] ++ ["vite/legacy-polyfills-b"] ∧
    ∃ e, ManifestClient.legacy_polyfills_entry self = Some e ∧
         ManifestClient.get self "vite/legacy-polyfills-b" = Ok e ∧
         ManifestEntry.file e = "polyfills-b.js".
Proof.
  destruct (__init___returns (H := sample_host) (file_world "polyfills")
              DjangoViteConfig.default "default") as [self Hinit].
  exists self. split; [done|]. split; [by vm_compute|].
  destruct (__init___fields _ _ _ _ Hinit) as (_ & _ & Hd & Hpath & Hmotif).
  destruct (legacy_polyfills_entry_detection _ _ _ _ polyfills_doc Hinit Hd)
    as (_ & Hlast & _).
  { by rewrite Hpath. }
  { apply (bool_decide_unpack _). by vm_compute. }
  { rewrite Hmotif. eexists. by vm_compute. }
  destruct (Hlast ["vite/legacy-polyfills-a"] "vite/legacy-polyfills-b")
    as (e & He & Hget).
  { rewrite Hmotif. by vm_compute. }
  exists e. split; [done|]. split; [done|].
  destruct (parsed_client_rows _ _ _ _ polyfills_doc Hinit Hd) as [Hrows _].
  { by rewrite Hpath. }
  { apply (bool_decide_unpack _). by vm_compute. }
  { rewrite Hmotif. eexists. by vm_compute. }
  destruct (Hrows "vite/legacy-polyfills-b" [I_file "polyfills-b.js"]) as (e' & He' & Hget').
  { unfold polyfills_doc. repeat constructor. }
  vm_compute in He'. injection He' as <-.
  rewrite Hget in Hget'. by injection Hget' as ->.
Defined.

(** C7, as the code has it: when two or more keys of a parsed manifest contain
    the motif, the one entry retained is the entry of the last of them in the
    key order of the document. *)
Theorem legacy_polyfills_entry_several_keys `{Host} w config app_name self doc
    first second others key :
  ManifestClient.__init__ w config app_name = Ok self →
  ManifestClient.dev_mode self = false →
  manifest_document w (ManifestClient.manifest_path self) = Ok doc →
  NoDup doc.*1 →
  (∃ out, ManifestClient.parse_items (ManifestClient.legacy_polyfills_motif self)
            doc ∅ None = Ok out) →
  matching_keys (ManifestClient.legacy_polyfills_motif self) doc = first :: second :: others →
  last (second :: others) = Some key →
  ∃ e, ManifestClient.legacy_polyfills_entry self = Some e ∧
       ManifestClient.get self key = Ok e ∧
       ∀ e', ManifestClient.legacy_polyfills_entry self = Some e' → e' = e.
Proof.
  intros Hinit Hdev Hdoc Hnd Hok Hkeys Hkey.
  pose proof (legacy_polyfills_entry_last _ _ _ _ _ Hinit Hdev Hdoc Hnd Hok) as Hlast.
  rewrite Hkeys, last_cons, Hkey in Hlast. destruct Hlast as (e & He & Hget).
  exists e. split; [done|]. split; [done|]. intros e' He'. congruence.
Qed.

Lemma legacy_polyfills_entry_several_keys_witness :
  ∃ self,
    @ManifestClient.__init__ sample_host (file_world "polyfills")
      DjangoViteConfig.default "default" = Ok self ∧
    ∃ e, ManifestClient.legacy_polyfills_entry self = Some e ∧
         ManifestClient.get self "vite/legacy-polyfills-b" = Ok e.
Proof.
  destruct (__init___returns (H := sample_host) (file_world "polyfills")
              DjangoViteConfig.default "default") as [self Hinit].
  exists self. split; [done|].
  destruct (__init___fields _ _ _ _ Hinit) as (_ & _ & Hd & Hpath & Hmotif).
  destruct (legacy_polyfills_entry_several_keys _ _ _ _ polyfills_doc
              "vite/legacy-polyfills-a" "vite/legacy-polyfills-b" []
              "vite/legacy-polyfills-b" Hinit Hd) as (e & He & Hget & _).
  { by rewrite Hpath. }
  { apply (bool_decide_unpack _). by vm_compute. }
  { rewrite Hmotif. eexists. by vm_compute. }
  { rewrite Hmotif. by vm_compute. }
  { reflexivity. }
  by exists e.
Defined.

(** On the sample document with two matching keys, the entry retained is not
    the entry of the first matching key. *)
Lemma first_matching_key_is_not_retained :
  ∃ self e_first e_last,
    @ManifestClient.__init__ sample_host (file_world "polyfills")
      DjangoViteConfig.default "default" = Ok self ∧
    matching_keys (ManifestClient.legacy_polyfills_motif self) polyfills_doc =
      ["vite/legacy-polyfills-a"; "vite/legacy-polyfills-b"] ∧
    ManifestClient.get self "vite/legacy-polyfills-a" = Ok e_first ∧
    ManifestClient.get self "vite/legacy-polyfills-b" = Ok e_last ∧
    ManifestClient.legacy_polyfills_entry self = Some e_last ∧
    ManifestEntry.file e_first = "polyfills-a.js" ∧
    ManifestEntry.file e_last = "polyfills-b.js" ∧
    ManifestClient.legacy_polyfills_entry self ≠ Some e_first.
Proof.
  eexists _, _, _. split; [vm_compute; reflexivity|].
  split; [by vm_compute|]. split; [vm_compute; reflexivity|].
  split; [vm_compute; reflexivity|]. split; [by vm_compute|].
  split; [done|]. split; [done|]. by vm_compute.
Qed.

(** ** The dev-server probe *)

(** With [dev_mode] off the probe answers false and requests nothing. *)
Lemma vite_is_serving_dev_mode_off w config :
  DjangoViteConfig.dev_mode config = false → vite_is_serving_io w config = (false, []).
Proof. unfold vite_is_serving_io. by intros ->. Qed.

(** With [dev_mode] on the probe requests one url, over http whatever the
    configured protocol, and answers true exactly on a 404. *)
Lemma vite_is_serving_dev_mode_on w config :
  DjangoViteConfig.dev_mode config = true →
  let url := "http://" +:+ DjangoViteConfig.dev_server_host config +:+ ":" +:+
             pretty (DjangoViteConfig.dev_server_port config) +:+ "/" in
  (vite_is_serving_io w config).2 = [url] ∧
  (vite_is_serving w config = true ↔ session_get w url = Response 404) ∧
  (session_get w url = MaxRetryError → vite_is_serving w config = false) ∧
  (session_get w url = ConnectionError → vite_is_serving w config = false).
Proof.
  intros Hd url. unfold vite_is_serving, vite_is_serving_io. rewrite Hd. simpl.
  fold url. split; [done|].
  destruct (session_get w url) as [status| |] eqn:Hg; simpl.
  - split; [|split; done]. rewrite Z.eqb_eq. split; [by intros ->|by intros [= ->]].
  - split; [|done]. split; done.
  - split; [|done]. split; done.
Qed.

(** C4, at a configuration with [dev_server_protocol] https: the probe requests
    the http url, not the url built from the configured protocol, and answers
    false although the dev server answers 404 on the configured url. *)
Theorem probe_ignores_dev_server_protocol :
  vite_is_serving_io https_world https_config = (false, ["http://localhost:5173/"]) ∧
  dev_server_root https_config = "https://localhost:5173/" ∧
  session_get https_world (dev_server_root https_config) = Response 404.
Proof. by vm_compute. Qed.

(** ** The dev-mode short circuit *)

Section dev_mode.
Context `{Host}.

Lemma AppClient__init___returns w config app_name :
  ∃ client,
    DjangoViteAppClient.__init__ w config app_name = Ok client ∧
    DjangoViteAppClient._config client = config ∧
    ManifestClient.__init__ w config app_name = Ok (DjangoViteAppClient.manifest client).
Proof.
  unfold DjangoViteAppClient.__init__.
  destruct (__init___returns w config app_name) as [m ->]. simpl. by eexists.
Qed.

Lemma serving_results (client : DjangoViteAppClient.t) w path kwargs fuel :
  vite_is_serving w (DjangoViteAppClient._config client) = true →
  DjangoViteAppClient.generate_vite_legacy_asset client w path kwargs = Ok "" ∧
  DjangoViteAppClient.preload_vite_asset fuel client w path = Some (Ok "") ∧
  DjangoViteAppClient.generate_vite_legacy_polyfills client w kwargs = Ok "" ∧
  DjangoViteAppClient.generate_vite_asset fuel client w path kwargs =
    Some (Ok (TagGenerator_script (DjangoViteAppClient._get_dev_server_url client path)
                (dict_update [("type", "module")] kwargs))).
Proof.
  intros Hs.
  unfold DjangoViteAppClient.generate_vite_legacy_asset,
    DjangoViteAppClient.preload_vite_asset,
    DjangoViteAppClient.generate_vite_legacy_polyfills,
    DjangoViteAppClient.generate_vite_asset.
  by rewrite Hs.
Qed.

End dev_mode.

(** C5: whatever the machine held when the client was constructed (no
    manifest, an unreadable or a malformed one), the constructor returns a
    client, and when the probe answers true [generate_vite_legacy_asset],
    [preload_vite_asset] and [generate_vite_legacy_polyfills] return the empty
    string and [generate_vite_asset] returns one script tag for the dev-server
    url; none raises, and none depends on the manifest client: the results are
    the same with any other manifest client in its place. *)
Theorem serving_bypasses_the_manifest `{Host} w0 w config app_name path kwargs fuel :
  vite_is_serving w config = true →
  ∃ client,
    DjangoViteAppClient.__init__ w0 config app_name = Ok client ∧
    ∀ manifest,
      let client' := with_manifest client manifest in
      DjangoViteAppClient.generate_vite_legacy_asset client' w path kwargs = Ok "" ∧
      DjangoViteAppClient.preload_vite_asset fuel client' w path = Some (Ok "") ∧
      DjangoViteAppClient.generate_vite_legacy_polyfills client' w kwargs = Ok "" ∧
      DjangoViteAppClient.generate_vite_asset fuel client' w path kwargs =
        Some (Ok (TagGenerator_script (DjangoViteAppClient._get_dev_server_url client path)
                    (dict_update [("type", "module")] kwargs))) ∧
      with_manifest client (DjangoViteAppClient.manifest client) = client.
Proof.
  intros Hs. destruct (AppClient__init___returns w0 config app_name) as (client & Hc & Hcfg & _).
  exists client. split; [done|]. intros manifest client'.
  destruct (serving_results client' w path kwargs fuel) as (? & ? & ? & ?).
  { simpl. by rewrite Hcfg. }
  repeat split; try done. by destruct client.
Qed.

Lemma serving_bypasses_the_manifest_witness :
  ∃ client,
    @DjangoViteAppClient.__init__ sample_host (file_world "malformed")
      https_config "default" = Ok client ∧
    ManifestClient._entries (DjangoViteAppClient.manifest client) = ∅ ∧
    @DjangoViteAppClient.generate_vite_legacy_asset sample_host client dev_world "main.js" []
      = Ok "" ∧
    @DjangoViteAppClient.generate_vite_asset sample_host 0 client dev_world "main.js" []
      = Some (Ok "<script src=https://localhost:5173/main.js>").
Proof.
  destruct (serving_bypasses_the_manifest (H := sample_host) (file_world "malformed") dev_world
              https_config "default" "main.js" [] 0 eq_refl) as (client & Hc & Hops).
  exists client. destruct (Hops (DjangoViteAppClient.manifest client)) as (H1 & _ & _ & H4 & Hid).
  simpl in H1, H4. rewrite Hid in H1, H4.
  split; [done|]. split.
  - vm_compute in Hc. by injection Hc as <-.
  - split; [done|]. rewrite H4. vm_compute in Hc. by injection Hc as <-.
Defined.

(** ** The registry *)

Lemma dict_set_fresh {V} (k : string) (v : V) d : k ∉ d.*1 → dict_set k v d = d ++ [(k, v)].
Proof.
  induction d as [|[k' v'] d IH]; simpl; [done|].
  rewrite not_elem_of_cons. intros [Hne Hd].
  destruct (String.eqb k' k) eqn:E.
  - apply String.eqb_eq in E. congruence.
  - by rewrite IH.
Qed.

Lemma config_has_set_same i c : config_has i (config_set i c).
Proof. by destruct i, c. Qed.

Lemma config_has_set_other i j c :
  item_field i ≠ item_field j → config_has i (config_set j c) ↔ config_has i c.
Proof. by destruct i, j, c. Qed.

(** Keyword arguments for distinct fields: each field named holds its value,
    every other field is kept. *)
Lemma foldl_config_set_has items :
  NoDup (item_field <$> items) →
  ∀ c,
    (∀ i, i ∈ items → config_has i (foldl (fun c i => config_set i c) c items)) ∧
    (∀ i, item_field i ∉ item_field <$> items →
          config_has i (foldl (fun c i => config_set i c) c items) ↔ config_has i c).
Proof.
  induction items as [|j items IH]; intros Hnd c; simpl.
  - split; [|done]. intros i Hi. by apply elem_of_nil in Hi.
  - rewrite fmap_cons in Hnd. apply NoDup_cons in Hnd as [Hj Hnd].
    destruct (IH Hnd (config_set j c)) as [Hin Hout]. split.
    + intros i Hi. apply elem_of_cons in Hi as [->|Hi]; [|by apply Hin].
      rewrite (Hout _ Hj). apply config_has_set_same.
    + intros i Hi. apply not_elem_of_cons in Hi as [Hne Hi].
      rewrite (Hout _ Hi). by apply config_has_set_other.
Qed.

(** The typed mapping agrees with the table of names of the source. *)
Lemma legacy_kwarg_table s :
  dict_get (legacy_key s) DjangoViteAssetLoader.LEGACY_DJANGO_VITE_SETTINGS =
    Some (item_field <$> DjangoViteAssetLoader.legacy_kwarg s).
Proof. by destruct s. Qed.

Lemma legacy_key_in_keys s : legacy_key s ∈ DjangoViteAssetLoader.legacy_settings_keys.
Proof. destruct s; apply (bool_decide_unpack _); by vm_compute. Qed.

Lemma legacy_key_not_DJANGO_VITE s : legacy_key s ≠ DjangoViteAssetLoader.DJANGO_VITE.
Proof. by destruct s. Qed.

Lemma getattr_Some settings name s :
  DjangoViteAssetLoader.getattr settings name = Some s →
  legacy_key s = name ∧ s ∈ legacy_settings settings.
Proof.
  unfold DjangoViteAssetLoader.getattr. intros Hf.
  apply find_some in Hf as [Hin Heq]. apply String.eqb_eq in Heq.
  split; [done|]. by apply list_elem_of_In.
Qed.

Lemma getattr_None settings name :
  name ∉ legacy_key <$> legacy_settings settings →
  DjangoViteAssetLoader.getattr settings name = None.
Proof.
  intros Hn. unfold DjangoViteAssetLoader.getattr.
  destruct (find _ _) as [s|] eqn:Hf; [|done].
  apply find_some in Hf as [Hin Heq]. apply String.eqb_eq in Heq.
  destruct Hn. apply list_elem_of_fmap. exists s. split; [done|]. by apply list_elem_of_In.
Qed.

Lemma legacy_key_dir settings key :
  key ∈ DjangoViteAssetLoader.legacy_settings_keys →
  key ∈ DjangoViteAssetLoader.dir settings ↔ key ∈ legacy_key <$> legacy_settings settings.
Proof.
  intros Hkey. unfold DjangoViteAssetLoader.dir. rewrite elem_of_app.
  split; [|by right]. intros [Hd|]; [|done].
  destruct (DJANGO_VITE_setting settings); [|by apply elem_of_nil in Hd].
  apply list_elem_of_singleton in Hd as ->.
  revert Hkey. apply (bool_decide_unpack _). by vm_compute.
Qed.

(** The legacy keys are applied exactly when a legacy attribute is set. *)
Lemma applied_legacy_settings_nil settings :
  applied_legacy_settings settings = [] ↔ legacy_settings settings = [].
Proof.
  unfold applied_legacy_settings. split.
  - intros Hnil. destruct (legacy_settings settings) as [|s l] eqn:Hl; [done|].
    assert (legacy_key s ∈ filter (fun key => key ∈ DjangoViteAssetLoader.dir settings)
              DjangoViteAssetLoader.legacy_settings_keys) as Hin.
    { apply list_elem_of_filter. split; [|apply legacy_key_in_keys].
      apply legacy_key_dir; [apply legacy_key_in_keys|]. rewrite Hl, fmap_cons. by left. }
    rewrite Hnil in Hin. by apply elem_of_nil in Hin.
  - intros Hl. unfold DjangoViteAssetLoader.dir. rewrite Hl. simpl.
    destruct (DJANGO_VITE_setting settings); by vm_compute.
Qed.

(** The loop that fills [legacy_config] collects, in the order of the table,
    the keyword argument of every legacy attribute that is set. *)
Lemma legacy_config_of_omap settings (keys : list string) :
  ∀ legacy_config,
    DjangoViteAssetLoader.legacy_config_of settings
      (filter (fun key => key ∈ legacy_key <$> legacy_settings settings) keys) legacy_config =
    legacy_config ++
    omap (fun key => DjangoViteAssetLoader.getattr settings key ≫=
                     DjangoViteAssetLoader.legacy_kwarg) keys.
Proof.
  induction keys as [|key keys IH]; intros acc; simpl; [by rewrite app_nil_r|].
  rewrite filter_cons. case_decide as Hin.
  - simpl. destruct (_ ≫= _) as [i|]; rewrite IH; [by rewrite <- app_assoc|done].
  - rewrite (getattr_None _ _ Hin). simpl. apply IH.
Qed.

Lemma filter_ext_elem_of {A} (P Q : A → Prop) `{∀ x, Decision (P x)} `{∀ x, Decision (Q x)}
    (l : list A) :
  (∀ x, x ∈ l → P x ↔ Q x) → filter P l = filter Q l.
Proof.
  induction l as [|a l IH]; intros HPQ; [done|].
  rewrite !filter_cons, IH by (intros x Hx; apply HPQ; by right).
  assert (P a ↔ Q a) as Ha by (apply HPQ; by left).
  repeat case_decide; tauto.
Qed.

Lemma applied_legacy_settings_filter settings :
  applied_legacy_settings settings =
    filter (fun key => key ∈ legacy_key <$> legacy_settings settings)
      DjangoViteAssetLoader.legacy_settings_keys.
Proof.
  unfold applied_legacy_settings. apply filter_ext_elem_of.
  intros key Hkey. by apply legacy_key_dir.
Qed.

Lemma NoDup_omap_fmap {A B C} `{EqDecision C} (g : A → option B) (h : B → C) (φ : A → C)
    (l : list A) :
  (∀ a b, a ∈ l → g a = Some b → h b = φ a) →
  NoDup (φ <$> l) → NoDup (h <$> omap g l).
Proof.
  induction l as [|a l IH]; intros Hφ Hnd; simpl; [constructor|].
  rewrite fmap_cons in Hnd. apply NoDup_cons in Hnd as [Ha Hnd].
  assert (NoDup (h <$> omap g l)) as Hrec.
  { apply IH; [|done]. intros a' b Ha'. apply Hφ. by right. }
  destruct (g a) as [b|] eqn:Hg; [|done].
  rewrite fmap_cons. apply NoDup_cons. split; [|done].
  intros Hin. apply list_elem_of_fmap in Hin as (b' & Hb' & Hin).
  apply list_elem_of_omap in Hin as (a' & Ha' & Hg').
  destruct Ha. apply list_elem_of_fmap. exists a'. split; [|done].
  rewrite <- (Hφ a b) by (done || by left).
  rewrite <- (Hφ a' b') by (done || by right). done.
Qed.

(** The configuration made of the legacy settings holds each of them in the
    field the table names, and the defaults elsewhere. *)
Lemma legacy_config_one_to_one settings :
  mapped_one_to_one settings
    (DjangoViteConfig_new
       (DjangoViteAssetLoader.legacy_config_of settings (applied_legacy_settings settings) [])).
Proof.
  rewrite applied_legacy_settings_filter, legacy_config_of_omap. simpl.
  set (g := fun key => DjangoViteAssetLoader.getattr settings key ≫=
                       DjangoViteAssetLoader.legacy_kwarg).
  set (items := omap g DjangoViteAssetLoader.legacy_settings_keys).
  assert (∀ key j, g key = Some j →
            ∃ s, DjangoViteAssetLoader.getattr settings key = Some s ∧
                 DjangoViteAssetLoader.legacy_kwarg s = Some j) as Hg.
  { intros key j. unfold g. destruct (DjangoViteAssetLoader.getattr settings key) as [s|];
      simpl; [|done]. eauto. }
  assert (NoDup (item_field <$> items)) as Hnd.
  { apply (NoDup_omap_fmap g item_field
             (fun key => match dict_get key DjangoViteAssetLoader.LEGACY_DJANGO_VITE_SETTINGS with
                         | Some (Some field) => field
                         | _ => ""
                         end)).
    - intros key j _ Hj. destruct (Hg _ _ Hj) as (s & Hs & Hk).
      apply getattr_Some in Hs as [<- _]. by rewrite legacy_kwarg_table, Hk.
    - apply (bool_decide_unpack _). by vm_compute. }
  destruct (foldl_config_set_has items Hnd DjangoViteConfig.default) as [Hin Hout].
  split.
  - intros name s i Hs Hi. apply Hin. apply list_elem_of_omap. exists name. split.
    + apply getattr_Some in Hs as [<- _]. apply legacy_key_in_keys.
    + unfold g. by rewrite Hs.
  - intros i Hi. apply Hout. intros Hf.
    apply list_elem_of_fmap in Hf as (j & Hij & Hj).
    apply list_elem_of_omap in Hj as (key & _ & Hj).
    destruct (Hg _ _ Hj) as (s & Hs & Hk). apply getattr_Some in Hs as [_ Hs].
    by apply (Hi s j).
Qed.

Section registry.
Context `{Host}.

Lemma apply_items_returns w items :
  ∀ apps, ∃ apps', DjangoViteAssetLoader.apply_items w items apps = Ok apps'.
Proof.
  induction items as [|[name config] items IH]; intros apps; simpl; [by eexists|].
  match goal with |- context [DjangoViteAppClient.__init__ w ?c name] =>
    destruct (AppClient__init___returns w c name) as (client & -> & _) end.
  simpl. apply IH.
Qed.

(** Over distinct names that are not registered yet, the loop appends one
    client per item. *)
Lemma apply_items_matches w items :
  ∀ apps,
    NoDup items.*1 →
    (∀ name, name ∈ items.*1 → name ∉ apps.*1) →
    ∃ apps',
      DjangoViteAssetLoader.apply_items w items apps = Ok (apps ++ apps') ∧
      registry_matches w items apps'.
Proof.
  induction items as [|[name config] items IH]; intros apps Hnd Hfresh; simpl.
  - exists []. rewrite app_nil_r. split; [done|constructor].
  - apply NoDup_cons in Hnd as [Hname Hnd].
    destruct (AppClient__init___returns w (config_of_arg config) name) as (client & Hc & _).
    unfold config_of_arg in Hc. rewrite Hc. simpl.
    rewrite dict_set_fresh by (apply Hfresh; by left).
    destruct (IH (apps ++ [(name, client)]) Hnd) as (apps' & -> & Hm).
    { intros name' Hin. rewrite fmap_app, not_elem_of_app. split.
      - apply Hfresh. by right.
      - simpl. rewrite list_elem_of_singleton. intros ->. done. }
    exists ((name, client) :: apps'). rewrite <- app_assoc. split; [done|].
    constructor; [|done]. split; [done|]. by simpl.
Qed.

Lemma dict_set_not_nil {V} (k : string) (v : V) d : dict_set k v d ≠ [].
Proof. destruct d as [|[k' v'] d]; simpl; [done|]. by destruct (String.eqb k' k). Qed.

Lemma apply_items_not_nil w items :
  ∀ apps apps',
    apps ≠ [] → DjangoViteAssetLoader.apply_items w items apps = Ok apps' → apps' ≠ [].
Proof.
  induction items as [|[name config] items IH]; intros apps apps' Hne; simpl.
  - by intros [= <-].
  - destruct (DjangoViteAppClient.__init__ w _ name) as [client|]; simpl; [|done].
    apply IH, dict_set_not_nil.
Qed.

End registry.

Section registry_layers.
Context `{Host}.

Lemma DJANGO_VITE_in_dir settings :
  DjangoViteAssetLoader.DJANGO_VITE ∈ DjangoViteAssetLoader.dir settings ↔
  is_Some (DJANGO_VITE_setting settings).
Proof.
  unfold DjangoViteAssetLoader.dir. rewrite elem_of_app.
  destruct (DJANGO_VITE_setting settings); split.
  - by eexists.
  - intros _. left. by left.
  - intros [Hn|Hl]; [by apply elem_of_nil in Hn|].
    apply list_elem_of_fmap in Hl as (s & Hs & _).
    symmetry in Hs. by apply legacy_key_not_DJANGO_VITE in Hs.
  - by intros [? ?].
Qed.

(** What [_apply_legacy_django_vite_settings] does, by the settings. *)
Lemma _apply_legacy_django_vite_settings_cases w settings self :
  DjangoViteAssetLoader._apply_legacy_django_vite_settings w settings self =
    match legacy_settings settings, DJANGO_VITE_setting settings with
    | [], _ => Ok (self, [])
    | _ :: _, Some _ =>
        Ok (self, [DjangoViteAssetLoader.mixing_warning (applied_legacy_settings settings)])
    | _ :: _, None =>
        client ← DjangoViteAppClient.__init__ w
                   (DjangoViteConfig_new
                      (DjangoViteAssetLoader.legacy_config_of settings
                         (applied_legacy_settings settings) []))
                   DEFAULT_APP_NAME;
        Ok ({| DjangoViteAssetLoader._apps :=
                 dict_set DEFAULT_APP_NAME client (DjangoViteAssetLoader._apps self) |},
            [DjangoViteAssetLoader.removal_warning (applied_legacy_settings settings)])
    end.
Proof.
  unfold DjangoViteAssetLoader._apply_legacy_django_vite_settings.
  fold (applied_legacy_settings settings).
  pose proof (applied_legacy_settings_nil settings) as Hnil.
  pose proof (DJANGO_VITE_in_dir settings) as Hdir.
  destruct (applied_legacy_settings settings) as [|key applied] eqn:Ha.
  - by rewrite (proj1 Hnil eq_refl).
  - destruct (legacy_settings settings) as [|s l]; [by pose proof (proj2 Hnil eq_refl)|].
    destruct (DJANGO_VITE_setting settings).
    + rewrite bool_decide_eq_true_2 by (apply Hdir; by eexists). done.
    + rewrite bool_decide_eq_false_2; [done|]. rewrite Hdir. by intros [? ?].
Qed.

End registry_layers.

(** C9, as the code has it: [instance] returns a registry.  With the
    structured setting and legacy keys both set, the app clients are those of
    the structured setting when it names an application, the legacy keys are
    ignored and the mixing warning is given; a structured setting that names
    no application leaves one default app client of the default configuration.
    With legacy keys only, the registry holds one app client, named default,
    whose configuration has the value of each legacy key in its field and the
    defaults elsewhere, and the removal warning is given.  With neither, it
    holds one default app client of the default configuration. *)
Theorem registry_layering `{Host} w settings :
  ∃ loader warnings,
    DjangoViteAssetLoader.instance w settings None = Ok (loader, warnings) ∧
    match DJANGO_VITE_setting settings with
    | Some items =>
        (items ≠ [] → NoDup items.*1 →
         registry_matches w items (DjangoViteAssetLoader._apps loader)) ∧
        (items = [] →
         only_default w DjangoViteConfig.default (DjangoViteAssetLoader._apps loader)) ∧
        (legacy_settings settings ≠ [] →
         warnings = [DjangoViteAssetLoader.mixing_warning (applied_legacy_settings settings)]) ∧
        (legacy_settings settings = [] → warnings = [])
    | None =>
        (legacy_settings settings ≠ [] →
         ∃ config,
           mapped_one_to_one settings config ∧
           only_default w config (DjangoViteAssetLoader._apps loader) ∧
           warnings = [DjangoViteAssetLoader.removal_warning (applied_legacy_settings settings)]) ∧
        (legacy_settings settings = [] →
         only_default w DjangoViteConfig.default (DjangoViteAssetLoader._apps loader) ∧
         warnings = [])
    end.
Proof.
  unfold DjangoViteAssetLoader.instance, DjangoViteAssetLoader._apply_django_vite_settings.
  destruct (DJANGO_VITE_setting settings) as [[|item items]|] eqn:Hs; simpl.
  - (* the structured setting names no application *)
    rewrite _apply_legacy_django_vite_settings_cases, Hs.
    destruct (AppClient__init___returns w DjangoViteConfig.default DEFAULT_APP_NAME)
      as (client & Hc & _).
    destruct (legacy_settings settings) as [|s l]; simpl;
      unfold DjangoViteAssetLoader._apply_default_fallback; simpl; rewrite Hc; simpl.
    all: eexists _, _; (split; [done|]); split_and!; intros; try done; by exists client.
  - (* the structured setting names applications *)
    destruct (apply_items_returns w (item :: items) []) as [apps Happs].
    simpl in Happs. rewrite Happs. simpl.
    rewrite _apply_legacy_django_vite_settings_cases, Hs.
    assert (NoDup (item :: items).*1 → registry_matches w (item :: items) apps) as Hm.
    { intros Hnd. destruct (apply_items_matches w (item :: items) [] Hnd) as (apps' & Ha & Hm).
      { intros ? _ Hin. by apply elem_of_nil in Hin. }
      simpl in Ha. rewrite Ha in Happs. by injection Happs as <-. }
    assert (∀ warnings : list string,
              DjangoViteAssetLoader._apply_default_fallback w
                {| DjangoViteAssetLoader._apps := apps |} ≫=
                (fun self => Ok (self, warnings)) =
              Ok ({| DjangoViteAssetLoader._apps := apps |}, warnings)) as Hfb.
    { intros warnings. unfold DjangoViteAssetLoader._apply_default_fallback. simpl.
      destruct apps as [|app apps]; [|done].
      destruct item as [name config]. simpl in Happs.
      destruct (DjangoViteAppClient.__init__ w _ name) as [client|]; [|done]. simpl in Happs.
      by apply apply_items_not_nil in Happs. }
    clear Happs.
    destruct (legacy_settings settings) as [|s l]; simpl; rewrite Hfb;
      eexists _, _; (split; [done|]); split_and!; intros; try done; by apply Hm.
  - (* no structured setting *)
    rewrite _apply_legacy_django_vite_settings_cases, Hs.
    destruct (legacy_settings settings) as [|s l] eqn:Hl; simpl.
    + destruct (AppClient__init___returns w DjangoViteConfig.default DEFAULT_APP_NAME)
        as (client & Hc & _).
      unfold DjangoViteAssetLoader._apply_default_fallback; simpl; rewrite Hc; simpl.
      eexists _, _; (split; [done|]); split_and!; intros; try done.
      split; [by exists client|done].
    + match goal with |- context [DjangoViteAppClient.__init__ w ?c DEFAULT_APP_NAME] =>
        destruct (AppClient__init___returns w c DEFAULT_APP_NAME) as (client & Hc & _) end.
      rewrite Hc. simpl. eexists _, _; (split; [done|]); split; [|done].
      intros _. eexists. split; [apply legacy_config_one_to_one|].
      split; [by exists client|done].
Qed.

(** With a structured setting that names no application next to a legacy key,
    the registry holds a default app client, which the structured setting
    does not name. *)
Lemma empty_structured_setting_gets_default_app :
  ∃ loader warnings,
    @DjangoViteAssetLoader.instance sample_host bare_world empty_structured_settings None =
      Ok (loader, warnings) ∧
    DJANGO_VITE_setting empty_structured_settings = Some [] ∧
    legacy_settings empty_structured_settings ≠ [] ∧
    (DjangoViteAssetLoader._apps loader).*1 = ["default"] ∧
    ¬ @registry_matches sample_host bare_world [] (DjangoViteAssetLoader._apps loader).
Proof.
  eexists _, _. split; [vm_compute; reflexivity|].
  split; [done|]. split; [done|]. split; [done|].
  intros Hm. inversion Hm.
Qed.

(** The legacy keys of the sample settings reach the fields of the default
    app client. *)
Lemma legacy_only_settings_default_app :
  ∃ loader warnings client,
    @DjangoViteAssetLoader.instance sample_host bare_world legacy_only_settings None =
      Ok (loader, warnings) ∧
    DjangoViteAssetLoader._apps loader = [("default", client)] ∧
    DjangoViteConfig.dev_server_port (DjangoViteAppClient._config client) = 3000%Z ∧
    DjangoViteConfig.static_url_prefix (DjangoViteAppClient._config client) = "bundler" ∧
    DjangoViteConfig.dev_server_host (DjangoViteAppClient._config client) = "localhost" ∧
    applied_legacy_settings legacy_only_settings =
      ["DJANGO_VITE_DEV_SERVER_PORT"; "DJANGO_VITE_STATIC_URL_PREFIX";
       "DJANGO_VITE_ASSETS_PATH"].
Proof.
  eexists _, _, _. split; [vm_compute; reflexivity|].
  split; [reflexivity|]. by vm_compute.
Qed.

(** ** First occurrences *)

Lemma filter_filter_comm (P Q : string → Prop) `{∀ x, Decision (P x)} `{∀ x, Decision (Q x)}
    (l : list string) :
  filter P (filter Q l) = filter Q (filter P l).
Proof.
  induction l as [|x l IH]; [done|].
  rewrite !filter_cons. repeat case_decide; rewrite ?filter_cons;
    repeat case_decide; try done; by rewrite IH.
Qed.

Lemma filter_all (Q : string → Prop) `{∀ x, Decision (Q x)} (l : list string) :
  (∀ y, y ∈ l → Q y) → filter Q l = l.
Proof.
  induction l as [|x l IH]; intros HQ; [done|].
  rewrite filter_cons, decide_True by (apply HQ; by left).
  rewrite IH; [done|]. intros y Hy. apply HQ. by right.
Qed.

Lemma first_occurrences_filter (P : string → Prop) `{∀ x, Decision (P x)} l :
  first_occurrences (filter P l) = filter P (first_occurrences l).
Proof.
  induction l as [|x l IH]; [done|]. simpl.
  rewrite !filter_cons. case_decide as Hx; simpl.
  - by rewrite IH, filter_filter_comm.
  - rewrite IH, filter_filter_comm. symmetry. apply filter_all.
    intros y Hy. apply list_elem_of_filter in Hy as [Hy _]. by intros ->.
Qed.

Lemma elem_of_first_occurrences l x : x ∈ first_occurrences l ↔ x ∈ l.
Proof.
  induction l as [|y l IH]; [done|]. simpl.
  rewrite !elem_of_cons, list_elem_of_filter, IH.
  destruct (decide (x = y)); tauto.
Qed.

Lemma NoDup_first_occurrences l : NoDup (first_occurrences l).
Proof.
  induction l as [|x l IH]; simpl; [constructor|].
  apply NoDup_cons. split; [|by apply NoDup_filter].
  rewrite list_elem_of_filter. tauto.
Qed.

Lemma new_to_first_occurrences seen l :
  new_to seen l = first_occurrences (filter (fun x => x ∉ seen) l).
Proof.
  revert seen. induction l as [|x l IH]; intros seen; [done|]. simpl.
  rewrite filter_cons. case_bool_decide as Hx; case_decide; try done.
  simpl. f_equal.
  rewrite IH, <- first_occurrences_filter, list_filter_filter. f_equal.
  apply list_filter_iff. intros y. rewrite not_elem_of_app, list_elem_of_singleton.
  tauto.
Qed.

Lemma new_to_nil l : new_to [] l = first_occurrences l.
Proof.
  rewrite new_to_first_occurrences. f_equal.
  induction l as [|x l IH]; [done|]. rewrite filter_cons, decide_True, IH; [done|].
  apply not_elem_of_nil.
Qed.

Lemma elem_of_new_to seen l x : x ∈ new_to seen l ↔ x ∈ l ∧ x ∉ seen.
Proof.
  rewrite new_to_first_occurrences, elem_of_first_occurrences, list_elem_of_filter. tauto.
Qed.

Lemma new_to_app seen l1 l2 :
  new_to seen (l1 ++ l2) = new_to seen l1 ++ new_to (seen ++ new_to seen l1) l2.
Proof.
  revert seen. induction l1 as [|x l1 IH]; intros seen; simpl.
  - by rewrite app_nil_r.
  - case_bool_decide; [|apply IH]. simpl. f_equal. by rewrite IH, <- app_assoc.
Qed.

(** A path stands in the output right after the distinct paths met before its
    first occurrence. *)
Lemma first_occurrences_position before c after :
  c ∉ before →
  ∃ rest,
    first_occurrences (before ++ c :: after) = first_occurrences before ++ c :: rest ∧
    c ∉ rest.
Proof.
  intros Hc. rewrite <- !new_to_nil, new_to_app. simpl.
  rewrite bool_decide_eq_true_2.
  - eexists. split; [done|]. rewrite elem_of_new_to, not_elem_of_app, list_elem_of_singleton.
    tauto.
  - rewrite elem_of_new_to. tauto.
Qed.

(** ** The import graph *)

Lemma forallb_elem_of {A} (f : A → bool) (l : list A) :
  forallb f l = true ↔ ∀ x, x ∈ l → f x = true.
Proof.
  rewrite forallb_forall. split; intros Hf x Hx; apply Hf; by apply list_elem_of_In.
Qed.

Section import_graph.
Variable M : gmap string ManifestEntry.t.

Lemma closed_within_S n p e :
  M !! p = Some e →
  closed_within M (S n) p = forallb (closed_within M n) (ManifestEntry.imports e).
Proof. intros He. simpl. by rewrite He. Qed.

Lemma css_in_depth_S n p e :
  M !! p = Some e →
  css_in_depth M (S n) p =
    concat (map (css_in_depth M n) (ManifestEntry.imports e)) ++ ManifestEntry.css e.
Proof. intros He. simpl. by rewrite He. Qed.

Lemma closed_within_mono (n m : nat) p :
  closed_within M n p = true → (n ≤ m)%nat → closed_within M m p = true.
Proof.
  revert m p. induction n as [|n IH]; intros m p Hc Hle; [done|].
  destruct m as [|m]; [lia|]. simpl in *.
  destruct (M !! p) as [e|]; [|done].
  rewrite forallb_elem_of in Hc |- *. intros q Hq. apply IH; [by apply Hc|lia].
Qed.

Lemma closed_within_step n p q :
  closed_within M n p = true → import_edge M p q →
  ∃ n', n = S n' ∧ closed_within M n' q = true.
Proof.
  intros Hc (e & He & Hq). destruct n as [|n]; [done|]. simpl in Hc. rewrite He in Hc.
  exists n. split; [done|]. rewrite forallb_elem_of in Hc. by apply Hc.
Qed.

Lemma closed_within_rtc n p q :
  closed_within M n p = true → rtc (import_edge M) p q → closed_within M n q = true.
Proof.
  intros Hc Hr. revert n Hc. induction Hr as [p|p r q Hpr Hrq IH]; intros n Hc; [done|].
  destruct (closed_within_step _ _ _ Hc Hpr) as (n' & -> & Hr).
  apply IH. apply (closed_within_mono n'); [done|lia].
Qed.

Lemma closed_within_tc n p q :
  closed_within M n p = true → tc (import_edge M) p q →
  ∃ n', (n' < n)%nat ∧ closed_within M n' q = true.
Proof.
  intros Hc Ht. revert n Hc. induction Ht as [p q Hpq|p r q Hpr Hrq IH]; intros n Hc.
  - destruct (closed_within_step _ _ _ Hc Hpq) as (n' & -> & Hq). exists n'. split; [lia|done].
  - destruct (closed_within_step _ _ _ Hc Hpr) as (n' & -> & Hr).
    destruct (IH _ Hr) as (n'' & Hlt & Hq). exists n''. split; [lia|done].
Qed.

(** A path whose chains of imports close within a depth reaches keys only,
    and no cycle. *)
Lemma closed_within_resolve n p : closed_within M n p = true → imports_resolve M p.
Proof.
  intros Hc q Hr. pose proof (closed_within_rtc _ _ _ Hc Hr) as Hq.
  destruct n as [|n]; [done|]. simpl in Hq. by destruct (M !! q).
Qed.

Lemma closed_within_acyclic n p : closed_within M n p = true → imports_acyclic M p.
Proof.
  intros Hc q Hr. pose proof (closed_within_rtc _ _ _ Hc Hr) as Hq. clear Hc Hr p.
  revert q Hq. induction (lt_wf n) as [n _ IH]. intros q Hq Ht.
  destruct (closed_within_tc _ _ _ Hq Ht) as (n' & Hlt & Hq'). by apply (IH n' Hlt q).
Qed.

Lemma css_in_depth_stable (n m : nat) p :
  closed_within M n p = true → (n ≤ m)%nat → css_in_depth M m p = css_in_depth M n p.
Proof.
  revert m p. induction n as [|n IH]; intros m p Hc Hle; [done|].
  destruct m as [|m]; [lia|]. simpl in *.
  destruct (M !! p) as [e|]; [|done]. f_equal. f_equal.
  rewrite forallb_elem_of in Hc. apply map_ext_in. intros q Hq.
  apply IH; [|lia]. apply Hc. by apply list_elem_of_In.
Qed.

Lemma import_chain_tc p l q : import_chain M p l → q ∈ l → tc (import_edge M) p q.
Proof.
  revert p. induction l as [|r l IH]; intros p Hch Hq; [by apply elem_of_nil in Hq|].
  destruct Hch as [Hpr Hch]. apply elem_of_cons in Hq as [->|Hq]; [by apply tc_once|].
  eapply tc_l; [done|]. by apply IH.
Qed.

Lemma import_chain_rtc p l q : import_chain M p l → q ∈ p :: l → rtc (import_edge M) p q.
Proof.
  intros Hch Hq. apply elem_of_cons in Hq as [->|Hq]; [done|].
  apply tc_rtc. by eapply import_chain_tc.
Qed.

(** A chain that visits a path twice goes round a cycle. *)
Lemma import_chain_repeats p l :
  import_chain M p l → ¬ NoDup (p :: l) →
  ∃ q, rtc (import_edge M) p q ∧ tc (import_edge M) q q.
Proof.
  revert p. induction l as [|r l IH]; intros p Hch Hnd.
  - destruct Hnd. apply NoDup_singleton.
  - destruct (decide (p ∈ r :: l)) as [Hp|Hp].
    + exists p. split; [done|]. by eapply import_chain_tc.
    + destruct Hch as [Hpr Hch]. destruct (IH r Hch) as (q & Hrq & Hq).
      { intros Hnd'. apply Hnd. by apply NoDup_cons. }
      exists q. split; [|done]. by eapply rtc_l.
Qed.

(** A path that does not close within a depth starts a chain of that many
    imports. *)
Lemma open_chain n p :
  imports_resolve M p → closed_within M n p = false →
  ∃ l, length l = n ∧ import_chain M p l.
Proof.
  revert p. induction n as [|n IH]; intros p Hres Hc; [by exists []|].
  simpl in Hc. destruct (Hres p) as [e He]; [done|]. rewrite He in Hc.
  assert (∃ q, q ∈ ManifestEntry.imports e ∧ closed_within M n q = false) as (q & Hq & Hcq).
  { clear He. induction (ManifestEntry.imports e) as [|r rs IHr]; [done|]. simpl in Hc.
    destruct (closed_within M n r) eqn:Hr.
    - destruct (IHr Hc) as (q & Hq & Hcq). exists q. split; [by right|done].
    - exists r. split; [by left|done]. }
  assert (import_edge M p q) as Hpq by by exists e.
  destruct (IH q) as (l & Hlen & Hch); [|done|].
  { intros r Hr. apply Hres. by eapply rtc_l. }
  exists (q :: l). split; [by rewrite <- Hlen|done].
Qed.

(** In a table, chains of imports without a cycle and within keys close
    within the number of keys. *)
Lemma closed_within_size p :
  imports_resolve M p → imports_acyclic M p → closed_within M (size M) p = true.
Proof.
  intros Hres Hacy. destruct (closed_within M (size M) p) eqn:Hc; [done|].
  destruct (open_chain _ _ Hres Hc) as (l & Hlen & Hch).
  destruct (decide (NoDup (p :: l))) as [Hnd|Hnd].
  - assert (p :: l ⊆+ elements (dom M)) as Hsub.
    { apply NoDup_submseteq; [done|]. intros q Hq. apply elem_of_elements, elem_of_dom.
      apply Hres. by apply import_chain_rtc with l. }
    apply submseteq_length in Hsub. simpl in Hsub.
    assert (length (elements (dom M)) = size M) as Hsize by apply size_dom.
    lia.
  - destruct (import_chain_repeats _ _ Hch Hnd) as (q & Hpq & Hq). by destruct (Hacy q).
Qed.

End import_graph.

(** ** The CSS walk *)

Section css_walk.
Context `{Host}.
Variable self : DjangoViteAppClient.t.
Variable tag_generator : string → Tag.

Local Abbreviation M := (ManifestClient._entries (DjangoViteAppClient.manifest self)).
Local Abbreviation css_tag :=
  (fun css_path => tag_generator (DjangoViteAppClient._get_production_server_url self css_path)).

Lemma css_loop_new_to css :
  ∀ tags seen,
    DjangoViteAppClient.css_loop self tag_generator css tags seen =
      (tags ++ map css_tag (new_to seen css), seen ++ new_to seen css).
Proof.
  induction css as [|c css IH]; intros tags seen; simpl.
  - by rewrite !app_nil_r.
  - case_bool_decide; [|apply IH]. rewrite IH. simpl. by rewrite <- !app_assoc.
Qed.

(** The loop over the imports, when each recursive call returns the new paths
    of its import. *)
Lemma imports_loop_new_to rec (raw : string → list string) imports :
  (∀ import_path seen, import_path ∈ imports →
     rec import_path seen =
       Some (Ok (map css_tag (new_to seen (raw import_path)),
                 seen ++ new_to seen (raw import_path)))) →
  ∀ tags seen,
    DjangoViteAppClient.imports_loop rec imports tags seen =
      Some (Ok (tags ++ map css_tag (new_to seen (concat (map raw imports))),
                seen ++ new_to seen (concat (map raw imports)))).
Proof.
  induction imports as [|ip imports IH]; intros Hrec tags seen; simpl.
  - by rewrite !app_nil_r.
  - rewrite Hrec by by left. rewrite IH by (intros; apply Hrec; by right).
    by rewrite new_to_app, map_app, !app_assoc.
Qed.

(** The loop over the imports never returns when the recursive call on one
    import does not and the calls on the imports before it return. *)
Lemma imports_loop_diverges rec imports :
  (∀ import_path seen, import_path ∈ imports →
     rec import_path seen = None ∨ ∃ out, rec import_path seen = Some (Ok out)) →
  (∃ import_path, import_path ∈ imports ∧ ∀ seen, rec import_path seen = None) →
  ∀ tags seen, DjangoViteAppClient.imports_loop rec imports tags seen = None.
Proof.
  induction imports as [|ip imports IH]; intros Hrec (bad & Hbad & Hnone) tags seen.
  - by apply elem_of_nil in Hbad.
  - simpl. destruct (Hrec ip seen) as [Hn|[[new_tags seen'] Hs]];
      [by left|by rewrite Hn|].
    rewrite Hs. apply IH; [intros; apply Hrec; by right|].
    apply elem_of_cons in Hbad as [->|Hbad]; [|by exists bad].
    by rewrite Hnone in Hs.
Qed.

(** Within the depth the imports close in, the walk returns the tags of the
    CSS paths that are new to the list it was given, in depth-first import
    order, and the list extended with them. *)
Lemma walk_closed (n : nat) :
  ∀ (fuel : nat) path seen,
    closed_within M n path = true → (n ≤ fuel)%nat →
    DjangoViteAppClient._generate_css_files_of_asset fuel self path seen tag_generator =
      Some (Ok (map css_tag (new_to seen (css_in_depth M n path)),
                seen ++ new_to seen (css_in_depth M n path))).
Proof.
  induction n as [|n IH]; intros fuel path seen Hc Hle; [done|].
  destruct fuel as [|fuel]; [lia|]. simpl in *.
  unfold ManifestClient.get. destruct (M !! path) as [e|]; [|done].
  rewrite forallb_elem_of in Hc.
  rewrite (imports_loop_new_to _ (css_in_depth M n)).
  - rewrite css_loop_new_to. simpl. by rewrite new_to_app, map_app, !app_assoc.
  - intros ip seen' Hip. apply IH; [by apply Hc|lia].
Qed.

(** When the imports reach keys only and do not close within the fuel, the
    walk does not return. *)
Lemma walk_open (fuel : nat) :
  ∀ path seen,
    imports_resolve M path → closed_within M fuel path = false →
    DjangoViteAppClient._generate_css_files_of_asset fuel self path seen tag_generator = None.
Proof.
  induction fuel as [|fuel IH]; intros path seen Hres Hc; [done|]. simpl in *.
  destruct (Hres path) as [e He]; [done|].
  unfold ManifestClient.get. rewrite He in *.
  assert (∀ ip, ip ∈ ManifestEntry.imports e → imports_resolve M ip) as Hip.
  { intros ip Hin q Hq. apply Hres. eapply rtc_l; [by exists e|done]. }
  rewrite imports_loop_diverges; [done| |].
  - intros ip seen' Hin. destruct (closed_within M fuel ip) eqn:Hcip.
    + right. eexists. by apply (walk_closed fuel).
    + left. apply IH; [by apply Hip|done].
  - assert (∃ ip, ip ∈ ManifestEntry.imports e ∧ closed_within M fuel ip = false)
      as (ip & Hin & Hcip).
    { clear He Hip. induction (ManifestEntry.imports e) as [|r rs IHr]; [done|]. simpl in Hc.
      destruct (closed_within M fuel r) eqn:Hr.
      - destruct (IHr Hc) as (q & Hq & Hcq). exists q. split; [by right|done].
      - exists r. split; [by left|done]. }
    exists ip. split; [done|]. intros seen'. apply IH; [by apply Hip|done].
Qed.

(** The loop that appends the preload tags, when every import is a key. *)
Lemma preload_imports_resolved imports :
  (∀ dep, dep ∈ imports → is_Some (M !! dep)) →
  ∀ tags,
    ∃ preloads,
      DjangoViteAppClient.preload_imports self imports tags = Ok (tags ++ preloads) ∧
      Forall2 (fun dep tag =>
                 ∃ e, M !! dep = Some e ∧
                      tag = TagGenerator_preload
                              (DjangoViteAppClient._get_production_server_url self
                                 (ManifestEntry.file e))
                              DjangoViteAppClient.preload_attrs)
        imports preloads.
Proof.
  induction imports as [|dep imports IH]; intros Hres tags; simpl.
  - exists []. by rewrite app_nil_r.
  - destruct (Hres dep) as [e He]; [by left|].
    unfold ManifestClient.get. rewrite He. simpl.
    edestruct IH as (preloads & -> & Hpre); [intros; apply Hres; by right|].
    eexists (_ :: preloads). rewrite <- app_assoc. split; [done|].
    constructor; [|done]. by exists e.
Qed.

End css_walk.

(** C2: when the imports that [path] reaches are keys and form no cycle, the
    CSS collection returns, with the same result for every sufficient fuel and
    so on every run; the paths it emits are those met in depth-first import
    order (each import's, in list order, before the entry's own), each once,
    at the place of its first occurrence, and the tags are the tags of these
    paths in that order. *)
Theorem css_collection_first_encounter_order `{Host} (self : DjangoViteAppClient.t)
    (tag_generator : string → Tag) path :
  let M := ManifestClient._entries (DjangoViteAppClient.manifest self) in
  imports_resolve M path →
  imports_acyclic M path →
  let raw := css_in_import_order M path in
  let out := first_occurrences raw in
  (∀ fuel : nat, (size M ≤ fuel)%nat →
     DjangoViteAppClient._generate_css_files_of_asset fuel self path [] tag_generator =
       Some (Ok (map (fun css_path =>
                        tag_generator
                          (DjangoViteAppClient._get_production_server_url self css_path))
                   out, out))) ∧
  (∀ fuel1 fuel2 : nat, (size M ≤ fuel1)%nat → (size M ≤ fuel2)%nat →
     DjangoViteAppClient._generate_css_files_of_asset fuel1 self path [] tag_generator =
     DjangoViteAppClient._generate_css_files_of_asset fuel2 self path [] tag_generator) ∧
  NoDup out ∧
  (∀ c, c ∈ out ↔ c ∈ raw) ∧
  (∀ before c after,
     raw = before ++ c :: after → c ∉ before →
     ∃ rest, out = first_occurrences before ++ c :: rest ∧ c ∉ rest) ∧
  (∀ e, M !! path = Some e →
     raw = concat (map (css_in_import_order M) (ManifestEntry.imports e)) ++
           ManifestEntry.css e).
Proof.
  intros M Hres Hacy raw out.
  pose proof (closed_within_size M path Hres Hacy) as Hc.
  assert (∀ fuel : nat, (size M ≤ fuel)%nat →
            DjangoViteAppClient._generate_css_files_of_asset fuel self path [] tag_generator =
              Some (Ok (map (fun css_path =>
                               tag_generator
                                 (DjangoViteAppClient._get_production_server_url self css_path))
                          out, out))) as Hwalk.
  { intros fuel Hle. rewrite (walk_closed self tag_generator (size M)) by done.
    by rewrite new_to_nil. }
  split; [done|]. split; [intros; by rewrite !Hwalk|].
  split; [apply NoDup_first_occurrences|].
  split; [intros; apply elem_of_first_occurrences|].
  split.
  - intros before c after Hraw Hc'. unfold out. rewrite Hraw.
    by apply first_occurrences_position.
  - intros e He. unfold raw, css_in_import_order.
    destruct (size M) as [|k] eqn:Hk; [done|].
    rewrite (closed_within_S _ _ _ _ He), forallb_elem_of in Hc.
    rewrite (css_in_depth_S _ _ _ _ He). f_equal. f_equal.
    apply map_ext_in. intros q Hq.
    symmetry. apply css_in_depth_stable; [|lia]. apply Hc. by apply list_elem_of_In.
Qed.

Lemma css_collection_first_encounter_order_witness :
  ∃ client,
    @DjangoViteAppClient.__init__ sample_host (file_world "diamond")
      DjangoViteConfig.default "default" = Ok client ∧
    css_in_import_order (ManifestClient._entries (DjangoViteAppClient.manifest client)) "main.js" =
      ["shared.css"; "a.css"; "shared.css"; "b.css"; "a.css"; "main.css"] ∧
    @DjangoViteAppClient._generate_css_files_of_asset sample_host 4 client "main.js" []
      (@TagGenerator_stylesheet sample_host) =
      Some (Ok (["<link rel=stylesheet href=shared.css>"; "<link rel=stylesheet href=a.css>";
                 "<link rel=stylesheet href=b.css>"; "<link rel=stylesheet href=main.css>"],
                ["shared.css"; "a.css"; "b.css"; "main.css"])).
Proof.
  eexists. split; [vm_compute; reflexivity|].
  match goal with |- context [DjangoViteAppClient.manifest ?c] => set (client := c) end.
  split; [by vm_compute|].
  destruct (css_collection_first_encounter_order (H := sample_host) client
              (@TagGenerator_stylesheet sample_host) "main.js") as [Hwalk _].
  { apply (closed_within_resolve _ 3). by vm_compute. }
  { apply (closed_within_acyclic _ 3). by vm_compute. }
  rewrite Hwalk by (vm_compute; lia). by vm_compute.
Defined.

(** ** The tags of an asset *)

(** C1, as the code has it: when the dev server is not serving, the path and
    the paths it imports, directly or not, are keys, and these imports form no
    cycle, [generate_vite_asset] returns, joined by line feeds and in this
    order: the stylesheet tags of the CSS paths met in depth-first import
    order, each once at its first occurrence; one script tag for the file of the
    entry; one modulepreload tag for the file of each path in the entry's own
    imports, in list order.  On the table of the example, for main.js: the
    stylesheet tags of lib.css and main.css, the script tag of main.abc123.js,
    the preload tag of lib.def456.js. *)
Theorem generate_vite_asset_order `{Host} :
  (∀ (client : DjangoViteAppClient.t) w path kwargs entry (fuel : nat),
     let M := ManifestClient._entries (DjangoViteAppClient.manifest client) in
     let url := DjangoViteAppClient._get_production_server_url client in
     vite_is_serving w (DjangoViteAppClient._config client) = false →
     imports_resolve M path →
     imports_acyclic M path →
     M !! path = Some entry →
     (size M ≤ fuel)%nat →
     ∃ preloads,
       Forall2 (fun dep tag =>
                  ∃ e, M !! dep = Some e ∧
                       tag = TagGenerator_preload (url (ManifestEntry.file e))
                               DjangoViteAppClient.preload_attrs)
         (ManifestEntry.imports entry) preloads ∧
       DjangoViteAppClient.generate_vite_asset fuel client w path kwargs =
         Some (Ok (join newline
                     (map (fun css_path => TagGenerator_stylesheet (url css_path))
                        (first_occurrences (css_in_import_order M path)) ++
                      [TagGenerator_script (url (ManifestEntry.file entry))
                         (dict_update [("type", "module"); ("crossorigin", "")] kwargs)] ++
                      preloads)))) ∧
  (∀ (client : DjangoViteAppClient.t) w kwargs (fuel : nat),
     let url := DjangoViteAppClient._get_production_server_url client in
     vite_is_serving w (DjangoViteAppClient._config client) = false →
     ManifestClient._entries (DjangoViteAppClient.manifest client) = example_table →
     (2 ≤ fuel)%nat →
     DjangoViteAppClient.generate_vite_asset fuel client w "main.js" kwargs =
       Some (Ok (join newline
                   [TagGenerator_stylesheet (url "lib.css");
                    TagGenerator_stylesheet (url "main.css");
                    TagGenerator_script (url "main.abc123.js")
                      (dict_update [("type", "module"); ("crossorigin", "")] kwargs);
                    TagGenerator_preload (url "lib.def456.js")
                      DjangoViteAppClient.preload_attrs]))).
Proof.
  assert (∀ (client : DjangoViteAppClient.t) w path kwargs entry (fuel : nat),
     let M := ManifestClient._entries (DjangoViteAppClient.manifest client) in
     let url := DjangoViteAppClient._get_production_server_url client in
     vite_is_serving w (DjangoViteAppClient._config client) = false →
     imports_resolve M path →
     imports_acyclic M path →
     M !! path = Some entry →
     (size M ≤ fuel)%nat →
     ∃ preloads,
       Forall2 (fun dep tag =>
                  ∃ e, M !! dep = Some e ∧
                       tag = TagGenerator_preload (url (ManifestEntry.file e))
                               DjangoViteAppClient.preload_attrs)
         (ManifestEntry.imports entry) preloads ∧
       DjangoViteAppClient.generate_vite_asset fuel client w path kwargs =
         Some (Ok (join newline
                     (map (fun css_path => TagGenerator_stylesheet (url css_path))
                        (first_occurrences (css_in_import_order M path)) ++
                      [TagGenerator_script (url (ManifestEntry.file entry))
                         (dict_update [("type", "module"); ("crossorigin", "")] kwargs)] ++
                      preloads)))) as Hgen.
  { intros client w path kwargs entry fuel M url Hs Hres Hacy He Hfuel.
    pose proof (closed_within_size M path Hres Hacy) as Hc.
    destruct (preload_imports_resolved client (ManifestEntry.imports entry)) with
      (tags := map (fun css_path => TagGenerator_stylesheet (url css_path))
                 (first_occurrences (css_in_import_order M path)) ++
               [TagGenerator_script (url (ManifestEntry.file entry))
                  (dict_update [("type", "module"); ("crossorigin", "")] kwargs)])
      as (preloads & Hpre & Hall).
    { intros dep Hdep. apply Hres. apply rtc_once. by exists entry. }
    exists preloads. split; [done|].
    unfold DjangoViteAppClient.generate_vite_asset, DjangoViteAppClient._load_css_files_of_asset.
    rewrite Hs. unfold ManifestClient.get. fold M. rewrite He.
    rewrite (walk_closed client _ (size M)) by done. simpl.
    rewrite new_to_nil. fold M url. unfold css_in_import_order in *.
    rewrite Hpre. simpl. by rewrite <- app_assoc. }
  split; [done|].
  intros client w kwargs fuel url Hs HM Hfuel.
  destruct (Hgen client w "main.js" kwargs
              {| ManifestEntry.file := "main.abc123.js"; ManifestEntry.src := None;
                 ManifestEntry.isEntry := false; ManifestEntry.isDynamicEntry := false;
                 ManifestEntry.css := ["main.css"]; ManifestEntry.imports := ["lib.js"];
                 ManifestEntry.dynamicImports := [] |} fuel Hs)
    as (preloads & Hpre & ->).
  - rewrite HM. apply (closed_within_resolve _ 2). by vm_compute.
  - rewrite HM. apply (closed_within_acyclic _ 2). by vm_compute.
  - rewrite HM. by vm_compute.
  - rewrite HM. by vm_compute.
  - simpl in Hpre. rewrite HM in *.
    apply Forall2_cons_inv_l in Hpre as (tag & rest & (e & He & ->) & Hrest & ->).
    apply Forall2_nil_inv_l in Hrest as ->.
    vm_compute in He. injection He as <-.
    replace (css_in_import_order example_table "main.js") with ["lib.css"; "main.css"]
      by by vm_compute.
    done.
Qed.

Lemma generate_vite_asset_order_witness :
  ∃ client,
    @DjangoViteAppClient.__init__ sample_host (file_world "diamond")
      DjangoViteConfig.default "default" = Ok client ∧
    @DjangoViteAppClient.generate_vite_asset sample_host 4 client (file_world "diamond")
      "main.js" [] =
      Some (Ok (join newline
                  ["<link rel=stylesheet href=shared.css>"; "<link rel=stylesheet href=a.css>";
                   "<link rel=stylesheet href=b.css>"; "<link rel=stylesheet href=main.css>";
                   "<script src=main.1.js>";
                   "<link rel=modulepreload href=a.2.js>";
                   "<link rel=modulepreload href=b.3.js>"])).
Proof.
  eexists. split; [vm_compute; reflexivity|].
  match goal with |- context [DjangoViteAppClient.generate_vite_asset _ ?c] =>
    set (client := c) end.
  destruct (generate_vite_asset_order (H := sample_host)) as [Hgen _].
  destruct (Hgen client (file_world "diamond") "main.js" []
              {| ManifestEntry.file := "main.1.js"; ManifestEntry.src := None;
                 ManifestEntry.isEntry := false; ManifestEntry.isDynamicEntry := false;
                 ManifestEntry.css := ["main.css"]; ManifestEntry.imports := ["a.js"; "b.js"];
                 ManifestEntry.dynamicImports := [] |} 4)
    as (preloads & Hpre & ->).
  - reflexivity.
  - apply (closed_within_resolve _ 3). by vm_compute.
  - apply (closed_within_acyclic _ 3). by vm_compute.
  - by vm_compute.
  - vm_compute. lia.
  - simpl in Hpre.
    apply Forall2_cons_inv_l in Hpre as (t1 & r1 & (e1 & He1 & ->) & Hpre & ->).
    apply Forall2_cons_inv_l in Hpre as (t2 & r2 & (e2 & He2 & ->) & Hpre & ->).
    apply Forall2_nil_inv_l in Hpre as ->.
    vm_compute in He1. injection He1 as <-. vm_compute in He2. injection He2 as <-.
    by vm_compute.
Defined.

(** On a table whose two entries import each other, every path is a key and
    [generate_vite_asset] never returns, whatever the fuel. *)
Lemma cyclic_manifest_never_returns :
  ∃ client,
    @DjangoViteAppClient.__init__ sample_host (file_world "cyclic")
      DjangoViteConfig.default "default" = Ok client ∧
    vite_is_serving (file_world "cyclic") (DjangoViteAppClient._config client) = false ∧
    imports_resolve (ManifestClient._entries (DjangoViteAppClient.manifest client)) "a.js" ∧
    ∀ fuel,
      @DjangoViteAppClient.generate_vite_asset sample_host fuel client (file_world "cyclic")
        "a.js" [] = None.
Proof.
  eexists. split; [vm_compute; reflexivity|].
  match goal with |- context [DjangoViteAppClient.manifest ?c] => set (client := c) end.
  set (M := ManifestClient._entries (DjangoViteAppClient.manifest client)).
  split; [done|].
  assert (∀ p q, import_edge M p q →
            p = "a.js" ∧ q = "b.js" ∨ p = "b.js" ∧ q = "a.js") as Hedge.
  { intros p q (e & He & Hq).
    destruct (decide (p = "a.js")) as [->|Ha]; [|destruct (decide (p = "b.js")) as [->|Hb]].
    - vm_compute in He. injection He as <-. simpl in Hq.
      apply list_elem_of_singleton in Hq as ->. by left.
    - vm_compute in He. injection He as <-. simpl in Hq.
      apply list_elem_of_singleton in Hq as ->. by right.
    - exfalso. assert (p ∈ dom M) as Hp by (apply elem_of_dom; by eexists).
      revert Hp. replace (dom M) with ({["a.js"; "b.js"]} : gset string)
        by (apply (bool_decide_unpack _); by vm_compute).
      by intros [?%elem_of_singleton|?%elem_of_singleton]%elem_of_union. }
  assert (imports_resolve M "a.js") as Hres.
  { assert (∀ p q, rtc (import_edge M) p q →
              p = "a.js" ∨ p = "b.js" → q = "a.js" ∨ q = "b.js") as Hrtc.
    { intros p q Hr. induction Hr as [p|p r q Hpr _ IH]; [done|]. intros _. apply IH.
      destruct (Hedge _ _ Hpr) as [[_ ->]|[_ ->]]; auto. }
    intros q Hq.
    destruct (Hrtc _ _ Hq (or_introl eq_refl)) as [-> | ->]; eexists; vm_compute; reflexivity. }
  split; [done|].
  assert (tc (import_edge M) "a.js" "a.js") as Hcycle.
  { apply tc_l with "b.js"; [|apply tc_once]; eexists; split;
      try (vm_compute; reflexivity); simpl; by left. }
  intros fuel.
  unfold DjangoViteAppClient.generate_vite_asset, DjangoViteAppClient._load_css_files_of_asset.
  change (vite_is_serving (file_world "cyclic") (DjangoViteAppClient._config client))
    with false.
  destruct (ManifestClient.get (DjangoViteAppClient.manifest client) "a.js") eqn:Hget;
    [|by vm_compute in Hget].
  rewrite walk_open; [done|done|].
  destruct (closed_within M fuel "a.js") eqn:Hc; [|done].
  by destruct (closed_within_acyclic M fuel "a.js" Hc "a.js").
Qed.

(** * Further properties of the code *)

(** ** Outcomes of the CSS walk *)

Section css_walk_outcomes.
Context `{Host}.
Variable self : DjangoViteAppClient.t.
Variable tag_generator : string → Tag.

Local Abbreviation M := (ManifestClient._entries (DjangoViteAppClient.manifest self)).


Lemma imports_loop_return rec imports :
  ∀ tags seen out,
    DjangoViteAppClient.imports_loop rec imports tags seen = Some (Ok out) →
    ∀ import_path, import_path ∈ imports →
      ∃ seen' out', rec import_path seen' = Some (Ok out').
Proof.
  induction imports as [|ip imports IH]; intros tags seen out; simpl.
  - intros _ ip Hin. by apply elem_of_nil in Hin.
  - destruct (rec ip seen) as [[[new_tags seen']|e']|] eqn:Hrec; [|done|done].
    intros Hl ip' Hin. apply elem_of_cons in Hin as [->|Hin]; [by eauto|].
    by eapply IH.
Qed.

(** A walk that returns has closed its imports within its fuel. *)
Lemma walk_return_closed (fuel : nat) :
  ∀ path seen out,
    DjangoViteAppClient._generate_css_files_of_asset fuel self path seen tag_generator =
      Some (Ok out) →
    closed_within M fuel path = true.
Proof.
  induction fuel as [|fuel IH]; intros path seen out; [done|]. simpl.
  unfold ManifestClient.get. destruct (M !! path) as [e|]; [|done].
  destruct (DjangoViteAppClient.imports_loop _ _ _ _) as [[[tags seen']|e']|] eqn:Hl;
    [|done|done].
  intros _. apply forallb_elem_of. intros ip Hin.
  destruct (imports_loop_return _ _ _ _ _ Hl ip Hin) as (s' & out' & Hr). by eapply IH.
Qed.


End css_walk_outcomes.




(** X2: the CSS walk returns a result for some fuel exactly when the
    requested path and every path it imports, directly or not, is a key and
    these imports form no cycle. *)
Theorem css_walk_returns_iff_closed `{Host} (self : DjangoViteAppClient.t)
    (tag_generator : string → Tag) path seen :
  (∃ (fuel : nat) out,
     DjangoViteAppClient._generate_css_files_of_asset fuel self path seen tag_generator =
       Some (Ok out)) ↔
  imports_resolve (ManifestClient._entries (DjangoViteAppClient.manifest self)) path ∧
  imports_acyclic (ManifestClient._entries (DjangoViteAppClient.manifest self)) path.
Proof.
  split.
  - intros (fuel & out & Hw). apply walk_return_closed in Hw.
    split; [by eapply closed_within_resolve|by eapply closed_within_acyclic].
  - intros [Hres Hacy]. eexists _, _. apply (walk_closed self tag_generator); [|done].
    by apply closed_within_size.
Qed.



(** X4: a CSS walk that returns hands back the list it was given, extended
    at its end by the CSS paths it emitted: these are the paths met in
    depth-first import order that were not in the list, each once, and the
    tags are theirs in the same order; a list without repetition stays so. *)
Theorem css_walk_extends_already_processed `{Host} (self : DjangoViteAppClient.t)
    (tag_generator : string → Tag) (fuel : nat) path seen tags seen' :
  DjangoViteAppClient._generate_css_files_of_asset fuel self path seen tag_generator =
    Some (Ok (tags, seen')) →
  ∃ new,
    seen' = seen ++ new ∧
    tags = map (fun css_path =>
                  tag_generator (DjangoViteAppClient._get_production_server_url self css_path))
             new ∧
    NoDup new ∧
    (∀ c, c ∈ new ↔
          c ∈ css_in_import_order
                (ManifestClient._entries (DjangoViteAppClient.manifest self)) path ∧
          c ∉ seen) ∧
    (NoDup seen → NoDup seen').
Proof.
  intros Hw. pose proof (walk_return_closed _ _ _ _ _ _ Hw) as Hc.
  rewrite (walk_closed self tag_generator fuel) in Hw by done.
  injection Hw as <- <-.
  set (M := ManifestClient._entries (DjangoViteAppClient.manifest self)) in *.
  assert (css_in_depth M fuel path = css_in_import_order M path) as Hraw.
  { unfold css_in_import_order.
    pose proof (closed_within_size M path (closed_within_resolve _ _ _ Hc)
                  (closed_within_acyclic _ _ _ Hc)) as Hs.
    destruct (decide (fuel ≤ size M)%nat).
    - symmetry. by apply css_in_depth_stable.
    - apply css_in_depth_stable; [done|lia]. }
  exists (new_to seen (css_in_depth M fuel path)).
  split; [done|]. split; [done|].
  assert (NoDup (new_to seen (css_in_depth M fuel path))) as Hnd.
  { rewrite new_to_first_occurrences. apply NoDup_first_occurrences. }
  split; [done|]. split.
  - intros c. by rewrite elem_of_new_to, Hraw.
  - intros Hseen. apply NoDup_app. split; [done|]. split; [|done].
    intros c Hc1 Hc2. apply elem_of_new_to in Hc2 as [_ Hc2]. done.
Qed.

Lemma css_walk_extends_already_processed_witness :
  ∃ new,
    ["a.css"; "other.css"] ++ ["shared.css"; "b.css"; "main.css"] =
      ["a.css"; "other.css"] ++ new ∧
    NoDup new.
Proof.
  destruct (css_walk_extends_already_processed (H := sample_host) (table_client diamond_table)
              (@TagGenerator_stylesheet sample_host) 3 "main.js" ["a.css"; "other.css"]
              ["<link rel=stylesheet href=shared.css>"; "<link rel=stylesheet href=b.css>";
               "<link rel=stylesheet href=main.css>"]
              (["a.css"; "other.css"] ++ ["shared.css"; "b.css"; "main.css"]) eq_refl)
    as (new & Hseen & _ & Hnd & _).
  by exists new.
Defined.

(** X5: when the dev server is not serving, the path and the paths it
    imports are keys and the imports form no cycle, [preload_vite_asset]
    returns, joined by line feeds and in this order: the modulepreload tag of
    the entry's file, the stylesheet preload tags of the CSS paths met in
    depth-first import order, each once at its first occurrence, and one
    modulepreload tag for the file of each path in the entry's own imports. *)
Theorem preload_vite_asset_order `{Host} (client : DjangoViteAppClient.t) w path entry
    (fuel : nat) :
  vite_is_serving w (DjangoViteAppClient._config client) = false →
  imports_resolve (ManifestClient._entries (DjangoViteAppClient.manifest client)) path →
  imports_acyclic (ManifestClient._entries (DjangoViteAppClient.manifest client)) path →
  ManifestClient._entries (DjangoViteAppClient.manifest client) !! path = Some entry →
  (size (ManifestClient._entries (DjangoViteAppClient.manifest client)) ≤ fuel)%nat →
  ∃ preloads,
    Forall2 (fun dep tag =>
               ∃ e, ManifestClient._entries (DjangoViteAppClient.manifest client) !! dep =
                      Some e ∧
                    tag = TagGenerator_preload
                            (DjangoViteAppClient._get_production_server_url client
                               (ManifestEntry.file e))
                            DjangoViteAppClient.preload_attrs)
      (ManifestEntry.imports entry) preloads ∧
    DjangoViteAppClient.preload_vite_asset fuel client w path =
      Some (Ok (join newline
                  ([TagGenerator_preload
                      (DjangoViteAppClient._get_production_server_url client
                         (ManifestEntry.file entry))
                      DjangoViteAppClient.preload_attrs] ++
                   map (fun css_path =>
                          TagGenerator_stylesheet_preload
                            (DjangoViteAppClient._get_production_server_url client css_path))
                     (first_occurrences
                        (css_in_import_order
                           (ManifestClient._entries (DjangoViteAppClient.manifest client))
                           path)) ++
                   preloads))).
Proof.
  intros Hs Hres Hacy He Hfuel.
  set (M := ManifestClient._entries (DjangoViteAppClient.manifest client)) in *.
  pose proof (closed_within_size M path Hres Hacy) as Hc.
  match goal with |- context [join newline (?first ++ ?css ++ _)] =>
    destruct (preload_imports_resolved client (ManifestEntry.imports entry))
      with (tags := first ++ css) as (preloads & Hpre & Hall) end.
  { intros dep Hdep. apply Hres. apply rtc_once. by exists entry. }
  exists preloads. split; [done|].
  unfold DjangoViteAppClient.preload_vite_asset,
    DjangoViteAppClient._preload_css_files_of_asset.
  rewrite Hs. unfold ManifestClient.get. fold M. rewrite He.
  rewrite (walk_closed client _ (size M)) by done. simpl.
  rewrite new_to_nil. fold M. unfold css_in_import_order in *.
  simpl in Hpre. rewrite Hpre. done.
Qed.

Lemma preload_vite_asset_order_witness :
  @DjangoViteAppClient.preload_vite_asset sample_host 4 (table_client diamond_table)
    bare_world "main.js" =
    Some (Ok (join newline
                ["<link rel=modulepreload href=main.1.js>";
                 "<link rel=preload href=shared.css>"; "<link rel=preload href=a.css>";
                 "<link rel=preload href=b.css>"; "<link rel=preload href=main.css>";
                 "<link rel=modulepreload href=a.2.js>";
                 "<link rel=modulepreload href=b.3.js>"])).
Proof.
  destruct (preload_vite_asset_order (H := sample_host) (table_client diamond_table)
              bare_world "main.js"
              (plain_entry "main.1.js" ["a.js"; "b.js"] ["main.css"]) 4)
    as (preloads & Hpre & ->).
  - reflexivity.
  - apply (closed_within_resolve _ 3). by vm_compute.
  - apply (closed_within_acyclic _ 3). by vm_compute.
  - by vm_compute.
  - vm_compute. lia.
  - simpl in Hpre.
    apply Forall2_cons_inv_l in Hpre as (t1 & r1 & (e1 & He1 & ->) & Hpre & ->).
    apply Forall2_cons_inv_l in Hpre as (t2 & r2 & (e2 & He2 & ->) & Hpre & ->).
    apply Forall2_nil_inv_l in Hpre as ->.
    vm_compute in He1. injection He1 as <-. vm_compute in He2. injection He2 as <-.
    by vm_compute.
Defined.

(** ** The probe, the parse and the health check *)

(** X6: with [dev_mode] off the probe answers false and requests nothing;
    with [dev_mode] on it requests the one url made of the scheme http, the
    configured host and the configured port, and answers true exactly when the
    response has status 404: any other status, [MaxRetryError] and
    [ConnectionError] give false. *)
Theorem probe_answers_on_404_over_http w config :
  (DjangoViteConfig.dev_mode config = false → vite_is_serving_io w config = (false, [])) ∧
  (DjangoViteConfig.dev_mode config = true →
   ∃ url,
     url = "http://" +:+ DjangoViteConfig.dev_server_host config +:+ ":" +:+
           pretty (DjangoViteConfig.dev_server_port config) +:+ "/" ∧
     (vite_is_serving_io w config).2 = [url] ∧
     (vite_is_serving w config = true ↔ session_get w url = Response 404)).
Proof.
  split; [apply vite_is_serving_dev_mode_off|].
  intros Hd. destruct (vite_is_serving_dev_mode_on w config Hd) as (Hurl & Hiff & _).
  eexists. split; [done|]. by split.
Qed.

(** X7: [_parse_manifest] raises nothing but [DjangoViteManifestError], and
    only on a client whose dev mode is off; the message names the application
    and the manifest path and ends with the text of the error that made the
    read, the fetch, the decoding or the construction of an entry fail. *)
Theorem parse_manifest_wraps_every_failure `{Host} (self : ManifestClient.t) w e :
  ManifestClient._parse_manifest self w = Raise e →
  ManifestClient.dev_mode self = false ∧
  ∃ inner,
    e = DjangoViteManifestError
          ("Cannot read Vite manifest file for app " +:+ ManifestClient.app_name self +:+
           " at " +:+ ManifestClient.manifest_path self +:+ " : " +:+ exn_str inner) ∧
    (manifest_document w (ManifestClient.manifest_path self) = Raise inner ∨
     ∃ doc,
       manifest_document w (ManifestClient.manifest_path self) = Ok doc ∧
       ManifestClient.parse_items (ManifestClient.legacy_polyfills_motif self) doc ∅ None =
         Raise inner).
Proof.
  intros Hp. destruct (ManifestClient.dev_mode self) eqn:Hd.
  { unfold ManifestClient._parse_manifest in Hp. by rewrite Hd in Hp. }
  split; [done|]. rewrite (_parse_manifest_document _ _ Hd) in Hp.
  destruct (manifest_document w _) as [doc|inner] eqn:Hdoc; simpl in Hp.
  - destruct (ManifestClient.parse_items _ doc ∅ None) as [out|inner] eqn:Hitems; [done|].
    injection Hp as <-. exists inner. split; [done|]. right. by exists doc.
  - injection Hp as <-. exists inner. split; [done|]. by left.
Qed.

Lemma parse_manifest_wraps_every_failure_witness :
  ∃ inner,
    DjangoViteManifestError
      "Cannot read Vite manifest file for app default at /static/manifest.json : Expecting value: line 1 column 1 (char 0)" =
    DjangoViteManifestError
      ("Cannot read Vite manifest file for app default at /static/manifest.json : " +:+
       exn_str inner) ∧
    @manifest_document sample_host (file_world "<html>") "/static/manifest.json" = Raise inner.
Proof.
  destruct (parse_manifest_wraps_every_failure (H := sample_host) (table_manifest ∅)
              (file_world "<html>")
              (DjangoViteManifestError
                 "Cannot read Vite manifest file for app default at /static/manifest.json : Expecting value: line 1 column 1 (char 0)")
              eq_refl) as (_ & inner & He & [Hdoc|(doc & Hdoc & _)]).
  - by exists inner.
  - by vm_compute in Hdoc.
Defined.

(** X8: a client constructed while [dev_mode] is on and the dev server
    answers keeps its dev mode and its empty table for good: it never parses,
    its [check] reports nothing on any machine, and once the dev server has
    stopped, every operation that needs the manifest raises
    [DjangoViteAssetNotFoundError], however valid the manifest file is. *)
Theorem dev_mode_client_never_parses `{Host} w0 config app_name :
  DjangoViteConfig.dev_mode config = true →
  vite_is_serving w0 config = true →
  ∃ self,
    ManifestClient.__init__ w0 config app_name = Ok self ∧
    ManifestClient.dev_mode self = true ∧
    ManifestClient._entries self = ∅ ∧
    ManifestClient.legacy_polyfills_entry self = None ∧
    (∀ w, ManifestClient._parse_manifest self w = Ok (∅, None)) ∧
    (∀ w, ManifestClient.check self w = Ok []) ∧
    ∀ (client : DjangoViteAppClient.t) w path kwargs (fuel : nat),
      DjangoViteAppClient.manifest client = self →
      vite_is_serving w (DjangoViteAppClient._config client) = false →
      let not_found :=
        DjangoViteAssetNotFoundError (not_found_message self path) in
      DjangoViteAppClient.generate_vite_asset fuel client w path kwargs =
        Some (Raise not_found) ∧
      DjangoViteAppClient.preload_vite_asset fuel client w path = Some (Raise not_found) ∧
      DjangoViteAppClient.generate_vite_asset_url client w path = Raise not_found ∧
      DjangoViteAppClient.generate_vite_legacy_asset client w path kwargs = Raise not_found ∧
      raises (DjangoViteAppClient.generate_vite_legacy_polyfills client w kwargs)
        is_asset_not_found.
Proof.
  intros Hd Hs. destruct (__init___returns w0 config app_name) as [self Hinit].
  exists self. split; [done|].
  destruct (__init___fields _ _ _ _ Hinit) as (_ & _ & Hdev & _).
  rewrite Hd, Hs in Hdev. simpl in Hdev.
  pose proof (__init___parse _ _ _ _ Hinit) as Hparse.
  assert (∀ w, ManifestClient._parse_manifest self w = Ok (∅, None)) as Hnever.
  { intros w. unfold ManifestClient._parse_manifest. by rewrite Hdev. }
  rewrite Hnever in Hparse. injection Hparse as HE HL.
  split; [done|]. split; [done|]. split; [done|]. split; [done|]. split.
  { intros w. unfold ManifestClient.check. by rewrite Hdev. }
  intros client w path kwargs fuel Hm Hw not_found.
  assert (ManifestClient.get (DjangoViteAppClient.manifest client) path = Raise not_found)
    as Hget.
  { rewrite Hm. apply get_None. rewrite HE. apply lookup_empty. }
  unfold DjangoViteAppClient.generate_vite_asset, DjangoViteAppClient.preload_vite_asset,
    DjangoViteAppClient.generate_vite_asset_url, DjangoViteAppClient.generate_vite_legacy_asset,
    DjangoViteAppClient.generate_vite_legacy_polyfills.
  rewrite Hw, Hget, Hm, HL. by simpl.
Qed.

Lemma dev_mode_client_never_parses_witness :
  ∃ client,
    @DjangoViteAppClient.__init__ sample_host dev_world https_config "default" = Ok client ∧
    @manifest_document sample_host (file_world "example") "/static/manifest.json" =
      Ok example_doc ∧
    @DjangoViteAppClient.generate_vite_asset sample_host 5 client (file_world "example")
      "main.js" [] =
      Some (Raise (DjangoViteAssetNotFoundError
                     "Cannot find main.js for app=default in Vite manifest at /static/manifest.json")).
Proof.
  destruct (dev_mode_client_never_parses (H := sample_host) dev_world https_config "default"
              eq_refl eq_refl) as (self & Hinit & _ & _ & _ & _ & _ & Hops).
  destruct (AppClient__init___returns (H := sample_host) dev_world https_config "default")
    as (client & Hc & Hcfg & Hm).
  rewrite Hinit in Hm. injection Hm as Hm.
  exists client. split; [done|]. split; [by vm_compute|].
  destruct (Hops client (file_world "example") "main.js" [] 5 (eq_sym Hm)) as [-> _].
  { by rewrite Hcfg. }
  unfold not_found_message.
  destruct (__init___fields _ _ _ _ Hinit) as (_ & -> & _ & -> & _). reflexivity.
Defined.

(** X9: [check] never raises.  On a manifest client it returns no warning
    exactly when [_parse_manifest] succeeds, which it always does in dev mode,
    and otherwise the one warning django_vite.W001 that carries the error; on
    the registry it returns at most one such warning per application. *)
Theorem check_never_raises `{Host} :
  (∀ (self : ManifestClient.t) w,
     ∃ msgs,
       ManifestClient.check self w = Ok msgs ∧
       (msgs = [] ∨ ∃ m, msgs = [check_warning (ManifestClient.app_name self) m]) ∧
       (ManifestClient.dev_mode self = true → msgs = []) ∧
       (msgs = [] ↔ ∃ out, ManifestClient._parse_manifest self w = Ok out)) ∧
  (∀ (loader : DjangoViteAssetLoader.t) w,
     ∃ msgs,
       DjangoViteAssetLoader.check loader w = Ok msgs ∧
       (length msgs ≤ length (DjangoViteAssetLoader._apps loader))%nat ∧
       Forall (fun m => id m = "django_vite.W001" ∧ is_manifest_error (msg m) = true) msgs).
Proof.
  assert (∀ (self : ManifestClient.t) w,
     ∃ msgs,
       ManifestClient.check self w = Ok msgs ∧
       (msgs = [] ∨ ∃ m, msgs = [check_warning (ManifestClient.app_name self) m]) ∧
       (ManifestClient.dev_mode self = true → msgs = []) ∧
       (msgs = [] ↔ ∃ out, ManifestClient._parse_manifest self w = Ok out)) as Hclient.
  { intros self w. destruct (ManifestClient.dev_mode self) eqn:Hd.
    - exists []. unfold ManifestClient.check, ManifestClient._parse_manifest. rewrite Hd.
      simpl. split; [done|]. split; [by left|]. split; [done|]. split; [by eexists|done].
    - destruct (check_cases self w Hd) as [[[out Hout] ->]|(m & Hm & ->)].
      + exists []. split; [done|]. split; [by left|]. split; [done|]. split; [by eexists|done].
      + eexists. split; [done|]. split; [right; by eexists|]. split; [done|].
        split; [done|]. intros [out Hout]. congruence. }
  split; [done|].
  intros [apps] w. unfold DjangoViteAssetLoader.check. simpl.
  assert (∀ acc,
            ∃ msgs,
              foldl (fun errors app_client =>
                       errors ← errors;
                       manifest_warnings ←
                         ManifestClient.check (DjangoViteAppClient.manifest app_client.2) w;
                       Ok (errors ++ manifest_warnings)) (Ok acc) apps = Ok (acc ++ msgs) ∧
              (length msgs ≤ length apps)%nat ∧
              Forall (fun m => id m = "django_vite.W001" ∧ is_manifest_error (msg m) = true)
                msgs) as Hfold.
  { induction apps as [|[name client] apps IH]; intros acc; simpl.
    - exists []. by rewrite app_nil_r.
    - destruct (Hclient (DjangoViteAppClient.manifest client) w) as (ms & -> & Hms & _).
      simpl. destruct (IH (acc ++ ms)) as (msgs & -> & Hlen & Hall).
      exists (ms ++ msgs). rewrite <- app_assoc. split; [done|].
      destruct Hms as [->|[m ->]]; simpl; (split; [lia|]); [done|].
      constructor; [|done]. done. }
  destruct (Hfold []) as (msgs & -> & Hlen & Hall). by exists msgs.
Qed.

(** ** Urls and attributes *)

Lemma endswith_cons c s suffix :
  endswith (String c s) suffix = String.eqb (String c s) suffix || endswith s suffix.
Proof. reflexivity. Qed.

Lemma endswith_app_slash s : endswith (s +:+ "/") "/" = true.
Proof.
  induction s as [|c s IH]; [done|].
  change (String c s +:+ "/") with (String c (s +:+ "/")).
  rewrite endswith_cons, IH. apply orb_true_r.
Qed.

(** X10: a static url prefix is taken with one slash at its end whether or
    not it is written with it: a non-empty prefix that does not end in a slash
    and the same prefix followed by a slash give the same production url for
    every path. *)
Theorem production_url_prefix_slash `{Host} (client : DjangoViteAppClient.t) prefix path :
  prefix ≠ "" →
  endswith prefix "/" = false →
  DjangoViteAppClient._get_production_server_url (with_static_url_prefix client prefix) path =
  DjangoViteAppClient._get_production_server_url
    (with_static_url_prefix client (prefix +:+ "/")) path.
Proof.
  intros Hne Hend. unfold DjangoViteAppClient._get_production_server_url. simpl.
  destruct prefix as [|c prefix]; [done|].
  change (String c prefix +:+ "/") with (String c (prefix +:+ "/")).
  rewrite Hend. simpl.
  change (String c (prefix +:+ "/")) with (String c prefix +:+ "/").
  by rewrite endswith_app_slash.
Qed.

Lemma production_url_prefix_slash_witness :
  @DjangoViteAppClient._get_production_server_url sample_host
    (with_static_url_prefix (table_client example_table) "bundler") "main.abc123.js" =
    "bundler/main.abc123.js" ∧
  @DjangoViteAppClient._get_production_server_url sample_host
    (with_static_url_prefix (table_client example_table) "bundler/") "main.abc123.js" =
    "bundler/main.abc123.js".
Proof.
  change "bundler/" with ("bundler" +:+ "/").
  rewrite <- (production_url_prefix_slash (H := sample_host) (table_client example_table)
                "bundler" "main.abc123.js") by done.
  by vm_compute.
Defined.

(** X11: the url of an asset on the dev server does not depend on the
    [STATIC_URL] of the settings, nor on any collaborator but [urljoin]: it is
    made of the configured protocol, host and port, the static url prefix and
    the path alone. *)
Theorem dev_server_url_ignores_STATIC_URL (H1 H2 : Host) (client : DjangoViteAppClient.t) path :
  (∀ base url, @urljoin H1 base url = @urljoin H2 base url) →
  @DjangoViteAppClient._get_dev_server_url H1 client path =
  @DjangoViteAppClient._get_dev_server_url H2 client path.
Proof.
  intros Hjoin. unfold DjangoViteAppClient._get_dev_server_url. simpl.
  by rewrite !Hjoin.
Qed.

Lemma dev_server_url_ignores_STATIC_URL_witness :
  @DjangoViteAppClient._get_dev_server_url sample_host
    (with_static_url_prefix (table_client example_table) "bundler") "main.js" =
    "http://localhost:5173bundler/main.js" ∧
  @DjangoViteAppClient._get_dev_server_url cdn_host
    (with_static_url_prefix (table_client example_table) "bundler") "main.js" =
    "http://localhost:5173bundler/main.js".
Proof.
  rewrite <- (dev_server_url_ignores_STATIC_URL sample_host cdn_host) by done.
  by vm_compute.
Defined.

Lemma dict_get_None {V} (k : string) (d : list (string * V)) : k ∉ d.*1 → dict_get k d = None.
Proof.
  induction d as [|[k' v'] d IH]; simpl; [done|].
  rewrite not_elem_of_cons. intros [Hne Hd].
  destruct (String.eqb k' k) eqn:E; [|by apply IH].
  apply String.eqb_eq in E. congruence.
Qed.

Lemma dict_set_keys {V} (k : string) (v : V) (d : list (string * V)) :
  (dict_set k v d).*1 = if decide (k ∈ d.*1) then d.*1 else d.*1 ++ [k].
Proof.
  induction d as [|[k' v'] d IH]; [done|].
  cbn [dict_set]. rewrite fmap_cons. cbn [fst].
  destruct (String.eqb k' k) eqn:E.
  - apply String.eqb_eq in E as ->. rewrite fmap_cons. cbn [fst].
    rewrite decide_True; [done|by left].
  - rewrite fmap_cons, IH. cbn [fst]. assert (k ≠ k') as Hne.
    { intros ->. by rewrite String.eqb_refl in E. }
    destruct (decide (k ∈ d.*1)).
    + rewrite decide_True; [done|by right].
    + rewrite decide_False; [done|]. by intros [?|?]%elem_of_cons.
Qed.

(** The dict display with distinct keyword arguments: the caller's value for
    a key it gives, the fixed one otherwise; the fixed keys keep their place
    and the caller's other keys follow in order. *)
Lemma dict_update_lookup (kwargs : attrs) :
  ∀ d : attrs,
    NoDup kwargs.*1 →
    (∀ k, dict_get k (dict_update d kwargs) =
          match dict_get k kwargs with
          | Some v => Some v
          | None => dict_get k d
          end) ∧
    (dict_update d kwargs).*1 = d.*1 ++ filter (fun k => k ∉ d.*1) kwargs.*1.
Proof.
  unfold dict_update.
  induction kwargs as [|[k v] kwargs IH]; intros d Hnd.
  - split; [done|]. simpl. by rewrite app_nil_r.
  - rewrite fmap_cons in Hnd |- *. cbn [fst foldl snd] in *.
    apply NoDup_cons in Hnd as [Hk Hnd]. destruct (IH (dict_set k v d) Hnd) as [Hget Hkeys].
    split.
    + intros k0. rewrite Hget. cbn [dict_get]. destruct (String.eqb k k0) eqn:E.
      * apply String.eqb_eq in E as <-.
        rewrite (dict_get_None k kwargs Hk). by rewrite dict_get_set_eq.
      * rewrite dict_get_set_ne; [done|]. intros ->. by rewrite String.eqb_refl in E.
    + rewrite Hkeys, dict_set_keys, filter_cons. destruct (decide (k ∈ d.*1)) as [Hin|Hin].
      * rewrite decide_False by tauto. done.
      * rewrite decide_True by done. rewrite <- app_assoc. simpl. do 2 f_equal.
        apply filter_ext_elem_of. intros k0 Hk0.
        rewrite not_elem_of_app, list_elem_of_singleton. split; [tauto|].
        intros Hd. split; [done|]. by intros ->.
Qed.

(** X12: when the dev server is not serving and the path is a key,
    [generate_vite_legacy_asset] returns one script tag for the url of the
    entry's file, with attributes in which the caller's keyword arguments
    take precedence: a key the caller gives has the caller's value, nomodule
    and crossorigin are empty unless the caller gives them, they come first
    and the caller's other keys follow in the caller's order. *)
Theorem legacy_asset_attributes `{Host} (client : DjangoViteAppClient.t) w path
    (kwargs : attrs) entry :
  NoDup kwargs.*1 →
  vite_is_serving w (DjangoViteAppClient._config client) = false →
  ManifestClient._entries (DjangoViteAppClient.manifest client) !! path = Some entry →
  ∃ scripts_attrs : attrs,
    DjangoViteAppClient.generate_vite_legacy_asset client w path kwargs =
      Ok (TagGenerator_script
            (DjangoViteAppClient._get_production_server_url client (ManifestEntry.file entry))
            scripts_attrs) ∧
    (∀ k, dict_get k scripts_attrs =
          match dict_get k kwargs with
          | Some v => Some v
          | None => dict_get k [("nomodule", ""); ("crossorigin", "")]
          end) ∧
    scripts_attrs.*1 =
      ["nomodule"; "crossorigin"] ++
      filter (fun k => k ∉ ["nomodule"; "crossorigin"]) kwargs.*1.
Proof.
  intros Hnd Hs He. eexists. split; [|by apply dict_update_lookup].
  unfold DjangoViteAppClient.generate_vite_legacy_asset.
  by rewrite Hs, (get_Some _ _ _ He).
Qed.

Lemma legacy_asset_attributes_witness :
  ∃ scripts_attrs : attrs,
    @DjangoViteAppClient.generate_vite_legacy_asset sample_host (table_client example_table)
      bare_world "main.js" [("defer", ""); ("crossorigin", "anonymous")] =
      Ok (@TagGenerator_script sample_host "main.abc123.js" scripts_attrs) ∧
    scripts_attrs.*1 = ["nomodule"; "crossorigin"; "defer"] ∧
    dict_get "crossorigin" scripts_attrs = Some "anonymous".
Proof.
  destruct (legacy_asset_attributes (H := sample_host) (table_client example_table)
              bare_world "main.js" [("defer", ""); ("crossorigin", "anonymous")]
              (plain_entry "main.abc123.js" ["lib.js"] ["main.css"]))
    as (scripts_attrs & Hr & Hget & Hkeys).
  - apply (bool_decide_unpack _). by vm_compute.
  - reflexivity.
  - by vm_compute.
  - exists scripts_attrs. split; [done|]. split; [by rewrite Hkeys|by rewrite Hget].
Defined.

(** ** Rows and entries *)

Lemma item_key_known i :
  match i with I_other _ _ => True | _ => item_key i ∈ ManifestEntry._fields end.
Proof. destruct i; try done; apply (bool_decide_unpack _); by vm_compute. Qed.

Lemma filtered_file row :
  "file" ∈ item_key <$> ManifestClient.filtered_manifest_entry_data row ↔
  "file" ∈ item_key <$> row.
Proof.
  unfold ManifestClient.filtered_manifest_entry_data.
  rewrite !list_elem_of_fmap. split.
  - intros (i & Hi & Hin). apply list_elem_of_filter in Hin as [_ Hin]. by exists i.
  - intros (i & Hi & Hin). exists i. split; [done|]. apply list_elem_of_filter.
    split; [|done]. rewrite <- Hi. apply (bool_decide_unpack _). by vm_compute.
Qed.

(** After the filter, a row whose other keys are unknown holds items of
    fields only. *)
Lemma filtered_typed row i :
  other_keys_unknown row = true →
  i ∈ ManifestClient.filtered_manifest_entry_data row →
  ∀ k v, i ≠ I_other k v.
Proof.
  intros Hwf Hin k v ->. apply list_elem_of_filter in Hin as [Hk Hin].
  unfold other_keys_unknown in Hwf. rewrite forallb_elem_of in Hwf.
  specialize (Hwf _ Hin). simpl in *. by apply bool_decide_eq_true in Hwf.
Qed.

Lemma bind_kwargs_returns kwargs :
  (∀ i k v, i ∈ kwargs → i ≠ I_other k v) →
  ∀ f e,
    (∃ e', ManifestEntry.bind_kwargs kwargs f e = Ok e') ↔
    is_Some f ∨ "file" ∈ item_key <$> kwargs.
Proof.
  induction kwargs as [|i kw IH]; intros Hty f e.
  - simpl. split.
    + intros [e' He']. left. by destruct f.
    + intros [[v ->]|Hin]; [by eexists|by apply elem_of_nil in Hin].
  - assert (∀ i k v, i ∈ kw → i ≠ I_other k v) as Hty'.
    { intros i' k v Hi'. apply Hty. by right. }
    assert (∀ e0, item_key i ≠ "file" →
              (∃ e', ManifestEntry.bind_kwargs kw f e0 = Ok e') ↔
              is_Some f ∨ "file" ∈ item_key <$> i :: kw) as Hstep.
    { intros e0 Hi. rewrite (IH Hty'), fmap_cons, elem_of_cons.
      split; [intros [?|?]; by auto|]. intros [?|[?|?]]; by auto. }
    destruct i; cbn [ManifestEntry.bind_kwargs]; try (by apply Hstep).
    + rewrite (IH Hty'), fmap_cons, elem_of_cons. split; [|by eauto].
      intros _. right. by left.
    + exfalso. eapply Hty; [by left|done].
Qed.

(** The entry that the call of [ManifestEntry] returns: every item holds in
    it, and a field no item names keeps what it had. *)
Lemma bind_kwargs_fields kwargs :
  ∀ f e e',
    ManifestEntry.bind_kwargs kwargs f e = Ok e' →
    NoDup (item_key <$> kwargs) →
    (∀ i, i ∈ kwargs → entry_has i e') ∧
    (∀ i, item_key i ∉ item_key <$> kwargs → item_key i ≠ "file" →
          entry_has i e' ↔ entry_has i e) ∧
    ("file" ∉ item_key <$> kwargs → Some (ManifestEntry.file e') = f).
Proof.
  induction kwargs as [|j kw IH]; intros f e e' Hb Hnd.
  - simpl in Hb. destruct f as [v|]; [|done]. injection Hb as <-.
    split; [intros i Hi; by apply elem_of_nil in Hi|]. split; [|done].
    intros i _ Hi. by destruct i.
  - rewrite fmap_cons in Hnd. apply NoDup_cons in Hnd as [Hj Hnd].
    assert (∀ f0 e0,
              ManifestEntry.bind_kwargs kw f0 e0 = Ok e' →
              (item_key j ≠ "file" ∧ f0 = f ∨ ∃ v, j = I_file v ∧ f0 = Some v) →
              (item_key j ≠ "file" → entry_has j e0) →
              (∀ i, item_key i ≠ item_key j → item_key i ≠ "file" →
                    entry_has i e0 ↔ entry_has i e) →
              (∀ i, i ∈ j :: kw → entry_has i e') ∧
              (∀ i, item_key i ∉ item_key <$> j :: kw → item_key i ≠ "file" →
                    entry_has i e' ↔ entry_has i e) ∧
              ("file" ∉ item_key <$> j :: kw → Some (ManifestEntry.file e') = f)) as Hstep.
    { intros f0 e0 Hb0 Hf0 Hj0 Hother.
      destruct (IH _ _ _ Hb0 Hnd) as (Hin & Hout & Hfile). split; [|split].
      - intros i Hi. apply elem_of_cons in Hi as [->|Hi]; [|by apply Hin].
        destruct Hf0 as [[Hjf ->]|(v & -> & ->)].
        + rewrite (Hout j Hj Hjf). by apply Hj0.
        + simpl in *. by injection (Hfile Hj) as ->.
      - intros i Hi Hif. rewrite fmap_cons in Hi. apply not_elem_of_cons in Hi as [Hij Hi].
        rewrite (Hout i Hi Hif). by apply Hother.
      - intros Hfile'. rewrite fmap_cons in Hfile'.
        apply not_elem_of_cons in Hfile' as [Hjf Hfile'].
        rewrite (Hfile Hfile'). destruct Hf0 as [[_ ->]|(v & -> & _)]; done. }
    destruct j; cbn [ManifestEntry.bind_kwargs] in Hb; try done.
    all: eapply Hstep; [exact Hb| |try done|].
    all: try (left; by split).
    all: try (right; by eexists).
    all: intros i Hij Hif; by destruct i.
Qed.

Lemma parse_items_returns motif (doc : manifest_json) :
  (∀ key row, (key, row) ∈ doc → other_keys_unknown row = true) →
  ∀ entries legacy,
    (∃ out, ManifestClient.parse_items motif doc entries legacy = Ok out) ↔
    (∀ key row, (key, row) ∈ doc → "file" ∈ item_key <$> row).
Proof.
  assert (∀ row, other_keys_unknown row = true →
            (∃ e, ManifestEntry.new (ManifestClient.filtered_manifest_entry_data row) = Ok e) ↔
            "file" ∈ item_key <$> row) as Hrow.
  { intros row Hrow. unfold ManifestEntry.new. rewrite bind_kwargs_returns.
    - rewrite filtered_file. split; [|by auto]. by intros [[? [=]]|?].
    - intros i k v Hi. by apply (filtered_typed row). }
  induction doc as [|[k r] doc IH]; intros Hwf entries legacy.
  - simpl. split; [|by eexists]. intros _ ?? Hin. by apply elem_of_nil in Hin.
  - assert (other_keys_unknown r = true) as Hr by (apply (Hwf k); by left).
    assert (∀ key row, (key, row) ∈ doc → other_keys_unknown row = true) as Hwf'.
    { intros key row Hin. apply (Hwf key). by right. }
    cbn [ManifestClient.parse_items].
    destruct (ManifestEntry.new (ManifestClient.filtered_manifest_entry_data r))
      as [e|err] eqn:He; simpl.
    + rewrite (IH Hwf'). split.
      * intros Hfile key row Hin. apply elem_of_cons in Hin as [[= -> ->]|Hin].
        -- apply (Hrow _ Hr). by eexists.
        -- by apply (Hfile key).
      * intros Hfile key row Hin. apply (Hfile key). by right.
    + split; [by intros [? ?]|]. intros Hfile.
      destruct (proj2 (Hrow _ Hr)) as [e He']; [apply (Hfile k); by left|]. congruence.
Qed.

(** X13: a manifest that is read parses exactly when every row has a [file]
    item: the parse needs nothing else of a row, whatever items of other
    fields or of unknown keys the row holds. *)
Theorem parse_returns_iff_rows_have_file `{Host} (self : ManifestClient.t) w doc :
  ManifestClient.dev_mode self = false →
  manifest_document w (ManifestClient.manifest_path self) = Ok doc →
  (∀ key row, (key, row) ∈ doc → other_keys_unknown row = true) →
  (∃ out, ManifestClient._parse_manifest self w = Ok out) ↔
  (∀ key row, (key, row) ∈ doc → "file" ∈ item_key <$> row).
Proof.
  intros Hdev Hdoc Hwf. rewrite (_parse_manifest_document _ _ Hdev), Hdoc. simpl.
  rewrite <- (parse_items_returns (ManifestClient.legacy_polyfills_motif self) doc Hwf ∅ None).
  destruct (ManifestClient.parse_items _ doc ∅ None) as [out|err].
  - split; intros _; by eexists.
  - split; by intros [? ?].
Qed.

Lemma parse_returns_iff_rows_have_file_witness :
  ∃ out,
    @ManifestClient._parse_manifest sample_host (table_manifest ∅) (file_world "polyfills") =
      Ok out.
Proof.
  apply (@parse_returns_iff_rows_have_file sample_host (table_manifest ∅)
           (file_world "polyfills") polyfills_doc eq_refl eq_refl).
  all: intros key row Hin; unfold polyfills_doc in Hin.
  all: repeat (apply elem_of_cons in Hin as [[= -> ->]|Hin];
               [first [by vm_compute|apply (bool_decide_unpack _); by vm_compute]|]).
  all: by apply elem_of_nil in Hin.
Defined.

(** X14: the entry made of a row holds the value of every item of the row
    that names a field, and the default in every field the row does not
    name; the items that name no field leave no trace. *)
Theorem entry_fields_from_row (row : list item) e :
  NoDup (item_key <$> row) →
  ManifestEntry.new (ManifestClient.filtered_manifest_entry_data row) = Ok e →
  (∀ i, i ∈ row → entry_has i e) ∧
  (∀ i, item_key i ∉ item_key <$> row →
        entry_has i e ↔ entry_has i ManifestEntry.defaults).
Proof.
  intros Hnd Hnew.
  assert (NoDup (item_key <$> ManifestClient.filtered_manifest_entry_data row)) as Hnd'.
  { eapply sublist_NoDup; [exact Hnd|]. apply fmap_sublist, sublist_filter. }
  destruct (bind_kwargs_fields _ _ _ _ Hnew Hnd') as (Hin & Hout & _). split.
  - intros i Hi. pose proof (item_key_known i) as Hk.
    destruct i; try done; apply Hin, list_elem_of_filter; by split.
  - intros i Hi. assert ("file" ∈ item_key <$> row) as Hfile.
    { apply filtered_file. destruct (decide ("file" ∈ item_key <$>
        ManifestClient.filtered_manifest_entry_data row)) as [|Hno]; [done|].
      destruct (bind_kwargs_no_file _ ManifestEntry.defaults Hno) as [err Herr].
      unfold ManifestEntry.new in Hnew. congruence. }
    apply Hout; [|by intros Heq; rewrite Heq in Hi].
    intros Hf. apply Hi. apply list_elem_of_fmap in Hf as (j & -> & Hj).
    apply list_elem_of_filter in Hj as [_ Hj]. apply list_elem_of_fmap. by exists j.
Qed.

Lemma entry_fields_from_row_witness :
  ∃ e,
    ManifestEntry.new
      (ManifestClient.filtered_manifest_entry_data
         [I_other "name" "main"; I_file "main.abc123.js"; I_css ["main.css"]]) = Ok e ∧
    ManifestEntry.file e = "main.abc123.js" ∧
    ManifestEntry.css e = ["main.css"] ∧
    ManifestEntry.imports e = [].
Proof.
  eexists. split; [vm_compute; reflexivity|].
  match goal with |- ManifestEntry.file ?e = _ ∧ _ =>
    destruct (entry_fields_from_row
                [I_other "name" "main"; I_file "main.abc123.js"; I_css ["main.css"]] e)
      as [Hin Hout] end.
  - apply (bool_decide_unpack _). by vm_compute.
  - vm_compute; reflexivity.
  - split; [|split].
    + apply (Hin (I_file "main.abc123.js")). right. by left.
    + apply (Hin (I_css ["main.css"])). do 2 right. by left.
    + apply (Hout (I_imports [])); [|done]. apply (bool_decide_unpack _). by vm_compute.
Defined.

(** ** The motif *)

Lemma prefix_app (p s : string) : String.prefix p s = true ↔ ∃ b, s = p +:+ b.
Proof.
  revert s. induction p as [|c p IH]; intros s.
  - split; [|by destruct s]. intros _. by exists s.
  - destruct s as [|c' s]; simpl.
    + split; [done|]. by intros [b [=]].
    + destruct (Ascii.ascii_dec c c') as [->|Hne].
      * rewrite IH. split; intros [b Hb]; exists b; [by rewrite Hb|by injection Hb].
      * split; [done|]. intros [b [= ? ?]]. done.
Qed.

Lemma str_contains_substring (motif s : string) :
  str_contains motif s = true ↔ ∃ a b, s = a +:+ motif +:+ b.
Proof.
  induction s as [|c s IH].
  - unfold str_contains. rewrite orb_false_r, prefix_app. split.
    + intros [b Hb]. by exists "", b.
    + intros (a & b & Hab). destruct a; [by exists b|done].
  - change (str_contains motif (String c s))
      with (String.prefix motif (String c s) || str_contains motif s).
    rewrite orb_true_iff, prefix_app, IH. split.
    + intros [[b Hb]|(a & b & Hab)]; [by exists "", b|].
      exists (String c a), b. simpl. by rewrite Hab.
    + intros (a & b & Hab). destruct a as [|c' a]; [left; by exists b|].
      right. exists a, b. simpl in Hab. by injection Hab.
Qed.

(** X15: the parse keeps a legacy polyfills entry exactly when the motif
    occurs somewhere in a key of the document, as consecutive characters. *)
Theorem legacy_entry_iff_motif_occurs motif (doc : manifest_json) E L :
  ManifestClient.parse_items motif doc ∅ None = Ok (E, L) →
  NoDup doc.*1 →
  is_Some L ↔ ∃ key before after, key ∈ doc.*1 ∧ key = before +:+ motif +:+ after.
Proof.
  intros Hp Hnd. rewrite (parse_items_legacy _ _ _ _ _ _ Hp Hnd).
  destruct (parse_items_entries _ _ _ _ _ _ Hp Hnd) as [Hrows _].
  destruct (last (matching_keys motif doc)) as [key|] eqn:Hlast.
  - assert (key ∈ matching_keys motif doc) as Hkey.
    { by apply last_Some_elem_of. }
    apply list_elem_of_filter in Hkey as [Hm Hin]. split.
    + intros _. apply str_contains_substring in Hm as (a & b & Hab). by exists key, a, b.
    + intros _. apply list_elem_of_fmap in Hin as ([k row] & -> & Hin).
      destruct (Hrows _ _ Hin) as (e & _ & He). simpl. by rewrite He.
  - apply last_None in Hlast. split; [by intros [? ?]|].
    intros (key & a & b & Hin & Hab).
    assert (key ∈ matching_keys motif doc) as Hkey.
    { apply list_elem_of_filter. split; [|done]. apply str_contains_substring. by exists a, b. }
    rewrite Hlast in Hkey. by apply elem_of_nil in Hkey.
Qed.

Lemma legacy_entry_iff_motif_occurs_witness :
  ∃ E L, ManifestClient.parse_items "" example_doc ∅ None = Ok (E, L) ∧ is_Some L.
Proof.
  eexists _, _. split; [vm_compute; reflexivity|].
  eapply (legacy_entry_iff_motif_occurs "" example_doc); [vm_compute; reflexivity| |].
  - apply (bool_decide_unpack _). by vm_compute.
  - exists "main.js", "", "main.js". split; [|done].
    apply (bool_decide_unpack _). by vm_compute.
Defined.

(** ** The names of the registry *)

Lemma dict_get_is_Some {V} (k : string) (d : list (string * V)) :
  is_Some (dict_get k d) ↔ k ∈ d.*1.
Proof.
  split.
  - intros Hs. destruct (decide (k ∈ d.*1)) as [|Hno]; [done|].
    rewrite (dict_get_None k d Hno) in Hs. by destruct Hs.
  - induction d as [|[k' v'] d IH]; [by intros Hin; apply elem_of_nil in Hin|].
    rewrite fmap_cons, elem_of_cons. simpl.
    destruct (String.eqb k' k) eqn:E; [by eexists|].
    intros [->|Hin]; [by rewrite String.eqb_refl in E|by apply IH].
Qed.

Lemma apply_items_keys `{Host} w items :
  ∀ apps apps',
    DjangoViteAssetLoader.apply_items w items apps = Ok apps' →
    ∀ name, name ∈ apps'.*1 ↔ name ∈ apps.*1 ∨ name ∈ items.*1.
Proof.
  induction items as [|[app config] items IH]; intros apps apps'; simpl.
  - intros [= <-] name. split; [by auto|]. intros [?|Hin]; [done|by apply elem_of_nil in Hin].
  - destruct (DjangoViteAppClient.__init__ w _ app) as [client|]; simpl; [|done].
    intros Ha name. rewrite (IH _ _ Ha), dict_set_keys, elem_of_cons.
    case_decide as Hin.
    + split; [intros [?|?]; by auto|]. intros [?|[->|?]]; by auto.
    + rewrite elem_of_app, list_elem_of_singleton.
      split; [intros [[?|?]|?]; by auto|]. intros [?|[?|?]]; by auto.
Qed.

(** X16: with a structured setting that names applications, the registry
    resolves exactly the names of the setting; for any other name, the default
    one too when the setting does not list it, every entry point raises
    [DjangoViteConfigNotFoundError] before it looks at the path. *)
Theorem registry_resolves_the_configured_names `{Host} w settings items loader warnings :
  DJANGO_VITE_setting settings = Some items →
  items ≠ [] →
  DjangoViteAssetLoader.instance w settings None = Ok (loader, warnings) →
  ∀ app,
    ((∃ client, DjangoViteAssetLoader._get_app_client loader app = Ok client) ↔
     app ∈ items.*1) ∧
    (app ∉ items.*1 →
     DjangoViteAssetLoader._get_app_client loader app = Raise (config_not_found app) ∧
     ∀ w' path kwargs fuel,
       DjangoViteAssetLoader.generate_vite_asset fuel loader w' path app kwargs =
         Some (Raise (config_not_found app)) ∧
       DjangoViteAssetLoader.preload_vite_asset fuel loader w' path app =
         Some (Raise (config_not_found app)) ∧
       DjangoViteAssetLoader.generate_vite_asset_url loader w' path app =
         Raise (config_not_found app) ∧
       DjangoViteAssetLoader.generate_vite_legacy_polyfills loader w' app kwargs =
         Raise (config_not_found app) ∧
       DjangoViteAssetLoader.generate_vite_legacy_asset loader w' path app kwargs =
         Raise (config_not_found app) ∧
       DjangoViteAssetLoader.generate_vite_ws_client loader w' app kwargs =
         Raise (config_not_found app) ∧
       DjangoViteAssetLoader.generate_vite_react_refresh_url loader w' app kwargs =
         Raise (config_not_found app)).
Proof.
  intros Hs Hne Hinst.
  assert (∀ name, name ∈ (DjangoViteAssetLoader._apps loader).*1 ↔ name ∈ items.*1) as Hkeys.
  { revert Hinst.
    unfold DjangoViteAssetLoader.instance, DjangoViteAssetLoader._apply_django_vite_settings.
    rewrite Hs. destruct items as [|item items]; [done|]. simpl.
    destruct (DjangoViteAssetLoader.apply_items w (item :: items) []) as [apps|err] eqn:Happs;
      pose proof Happs as Happs'; simpl in Happs'; rewrite Happs'; clear Happs'; simpl;
      [|done].
    rewrite _apply_legacy_django_vite_settings_cases, Hs.
    assert (apps ≠ []) as Happs_ne.
    { destruct item as [name config]. simpl in Happs.
      destruct (DjangoViteAppClient.__init__ w _ name) as [client|]; [|done]. simpl in Happs.
      eapply apply_items_not_nil; [|exact Happs]. done. }
    pose proof (apply_items_keys _ _ _ _ Happs) as Hk.
    unfold DjangoViteAssetLoader._apply_default_fallback.
    destruct (legacy_settings settings); simpl; destruct apps; try done.
    all: intros [= <- _] name; rewrite Hk; simpl.
    all: split; [intros [Hin|?]; [by apply elem_of_nil in Hin|done]|by auto]. }
  intros app.
  assert (app ∉ items.*1 →
          DjangoViteAssetLoader._get_app_client loader app = Raise (config_not_found app))
    as Hraise.
  { intros Hno. unfold DjangoViteAssetLoader._get_app_client.
    rewrite dict_get_None; [done|]. by rewrite Hkeys. }
  split.
  - rewrite <- Hkeys, <- dict_get_is_Some. unfold DjangoViteAssetLoader._get_app_client.
    destruct (dict_get app _) as [client|].
    + split; intros _; by eexists.
    + split; [by intros [? ?]|by intros [? ?]].
  - intros Hno. split; [by apply Hraise|]. intros w' path kwargs fuel.
    unfold DjangoViteAssetLoader.generate_vite_asset, DjangoViteAssetLoader.preload_vite_asset,
      DjangoViteAssetLoader.generate_vite_asset_url,
      DjangoViteAssetLoader.generate_vite_legacy_polyfills,
      DjangoViteAssetLoader.generate_vite_legacy_asset,
      DjangoViteAssetLoader.generate_vite_ws_client,
      DjangoViteAssetLoader.generate_vite_react_refresh_url.
    by rewrite (Hraise Hno).
Qed.

Lemma registry_resolves_the_configured_names_witness :
  ∃ loader warnings,
    @DjangoViteAssetLoader.instance sample_host bare_world two_apps_settings None =
      Ok (loader, warnings) ∧
    (∃ client, DjangoViteAssetLoader._get_app_client loader "admin" = Ok client) ∧
    DjangoViteAssetLoader._get_app_client loader "default" =
      Raise (config_not_found "default").
Proof.
  destruct (@DjangoViteAssetLoader.instance sample_host bare_world two_apps_settings None)
    as [[loader warnings]|err] eqn:Hi; [|by vm_compute in Hi].
  exists loader, warnings. split; [done|].
  assert ([("site", IsDict [K_static_url_prefix "site"]);
           ("admin", IsConfig DjangoViteConfig.default)] ≠ []) as Hne by done.
  pose proof (@registry_resolves_the_configured_names sample_host bare_world
                two_apps_settings _ loader warnings eq_refl Hne Hi) as Hreg.
  split.
  - apply (Hreg "admin"). apply (bool_decide_unpack _). by vm_compute.
  - apply (Hreg "default"). apply (bool_decide_unpack _). by vm_compute.
Defined.

(** ** A manifest that is not on disk *)

(** X17: when the manifest path does not open as a file, the constructor
    fetches it with [requests.get] at the same path.  A status from 400 to 599
    leaves the client with the empty table and no legacy polyfills entry; any
    other status makes the body the manifest: the client holds what the parse
    of the body gives. *)
Theorem manifest_fetched_when_not_on_disk `{Host} w config app_name status text :
  DjangoViteConfig.dev_mode config && vite_is_serving w config = false →
  fs_open w (ManifestClient._clean_manifest_path config) = None →
  requests_get w (ManifestClient._clean_manifest_path config) = Ok (status, text) →
  ∃ self,
    ManifestClient.__init__ w config app_name = Ok self ∧
    ((400 ≤ status < 600)%Z →
     ManifestClient._entries self = ∅ ∧
     ManifestClient.legacy_polyfills_entry self = None ∧
     raises (ManifestClient._parse_manifest self w) is_manifest_error) ∧
    ((status < 400 ∨ 600 ≤ status)%Z →
     ∀ doc E L,
       json_loads text = Ok doc →
       ManifestClient.parse_items (DjangoViteConfig.legacy_polyfills_motif config) doc ∅ None =
         Ok (E, L) →
       ManifestClient._entries self = E ∧ ManifestClient.legacy_polyfills_entry self = L).
Proof.
  intros Hdev Hfs Hget. destruct (__init___returns w config app_name) as [self Hinit].
  exists self. split; [done|].
  destruct (__init___fields _ _ _ _ Hinit) as (_ & _ & Hd & Hpath & Hmotif).
  rewrite Hdev in Hd. pose proof (__init___parse _ _ _ _ Hinit) as Hparse.
  rewrite (_parse_manifest_document _ _ Hd) in *.
  unfold manifest_document, open_manifest in *. rewrite Hpath, Hfs, Hget, Hmotif in *.
  cbn [mbind result_bind fst snd] in *. unfold raise_for_status in *. split.
  - intros [Hlo Hhi].
    rewrite (proj2 (Z.leb_le _ _) Hlo), (proj2 (Z.ltb_lt _ _) Hhi) in *. simpl in *.
    by injection Hparse as -> ->.
  - intros Hout doc E L Hdoc Hitems.
    assert ((400 <=? status)%Z && (status <? 600)%Z = false) as Hst.
    { apply andb_false_iff. destruct Hout as [Hlt|Hge].
      - left. by apply Z.leb_gt.
      - right. by apply Z.ltb_ge. }
    rewrite Hst in Hparse. simpl in Hparse. rewrite Hdoc in Hparse. simpl in Hparse.
    rewrite Hitems in Hparse. by injection Hparse as -> ->.
Qed.

Lemma manifest_fetched_when_not_on_disk_witness :
  ∃ self e,
    @ManifestClient.__init__ sample_host (remote_world 200 "example") remote_config "default" =
      Ok self ∧
    ManifestClient.manifest_path self = "https://cdn.example.org/manifest.json" ∧
    ManifestClient._entries self !! "lib.js" = Some e ∧
    ManifestEntry.file e = "lib.def456.js".
Proof.
  destruct (@manifest_fetched_when_not_on_disk sample_host (remote_world 200 "example")
              remote_config "default" 200%Z "example" eq_refl eq_refl eq_refl)
    as (self & Hinit & _ & Hbody).
  destruct (@ManifestClient.parse_items "legacy-polyfills" example_doc ∅ None)
    as [[E L]|err] eqn:Hitems; [|by vm_compute in Hitems].
  destruct (Hbody ltac:(lia) example_doc E L eq_refl Hitems) as [HE _].
  exists self. eexists. split; [done|]. split.
  - by destruct (@__init___fields sample_host _ _ _ _ Hinit) as (_ & _ & _ & -> & _).
  - rewrite HE. vm_compute in Hitems. injection Hitems as <- _.
    split; [vm_compute; reflexivity|done].
Defined.
